(** * Scoring, ranking and trend engine of the productivity calculator

    A shallow embedding of [calculator/score_calculator.py]:
    [calculate_scores], [rank_scores], [calculate_component_contributions]
    and [compare_periods], followed by the properties the specification
    states about them.  The development then covers the code around the
    engine: the member loop of [run_fetch], [run_score] and the pipeline of
    [productivity_scorer.py]; [TeamMember], [MetricData] and
    [validate_config] of [fetchers/base_fetcher.py]; [parse_response], the
    mock data and the retry loop of the two fetchers; and
    [parse_mcp_jira_response] of [fetch_via_mcp.py].

    Modelling conventions.
    - A Python [dict] keeps its insertion order and has unique keys; it is an
      association list ([dict V]) read with [dict_get] and written with
      [dict_set] (replace in place, or append).  The order matters to the
      stable sort of [rank_scores].
    - Python numbers ([int] and [float]) are exact rationals [Q]: every
      arithmetic step of the source is kept, rounding is not modelled.
      Equalities between computed numbers are therefore stated with [==].
      Where a statement would depend on rounding or on the floating-point
      range it says so in its hypotheses: a margin around the tolerance of
      the weight normalization, numbers within the range for the runs that
      return, whole numbers where equal ratios must give equal floats.
    - A raw counter is an arbitrary Python value ([pyval]): a number, a string
      or [None].  Operators applied to the wrong kind of value raise, as in
      Python; a raising computation is a [result] carrying the exception. *)

From Stdlib Require Import QArith Qabs Lqa Ascii SpecFloat.
From stdpp Require Import base strings list sorting gmap sets.

Local Open Scope string_scope.

(** ** Python values, exceptions and the error monad *)

Inductive pyval : Type :=
| VNum (q : Q)
| VStr (s : string)
| VNone.

Inductive pytype : Type := TNumber | TStr | TNoneType.

Definition type_of (v : pyval) : pytype :=
  match v with
  | VNum _ => TNumber
  | VStr _ => TStr
  | VNone => TNoneType
  end.

(** The payload of an exception is what its Python message shows: the
    operator and the two operand types for a [TypeError], the missing key for
    a [KeyError]. *)
Inductive exn : Type :=
| TypeError (op : string) (lhs rhs : pytype)
| ZeroDivisionError
| KeyError (key : string).

Inductive result (A : Type) : Type :=
| Ok (a : A)
| Raise (e : exn).
Arguments Ok {A} a.
Arguments Raise {A} e.

Definition bind {A B : Type} (m : result A) (k : A -> result B) : result B :=
  match m with
  | Ok a => k a
  | Raise e => Raise e
  end.

Notation "'do' x <~ m ; k" := (bind m (fun x => k))
  (at level 10, x name, m at level 100, k at level 200).

(** ** Ordered dictionaries *)

Definition dict (V : Type) : Type := list (string * V).

Fixpoint dict_get {V : Type} (d : dict V) (k : string) : option V :=
  match d with
  | [] => None
  | (k', v) :: d' => if String.eqb k' k then Some v else dict_get d' k
  end.

(** [d.get(k, dflt)] *)
Definition dict_get_or {V : Type} (d : dict V) (k : string) (dflt : V) : V :=
  match dict_get d k with
  | Some v => v
  | None => dflt
  end.

(** [d[k] = v] *)
Fixpoint dict_set {V : Type} (d : dict V) (k : string) (v : V) : dict V :=
  match d with
  | [] => [(k, v)]
  | (k', v') :: d' =>
      if String.eqb k' k then (k', v) :: d' else (k', v') :: dict_set d' k v
  end.

(** [d[k]] *)
Definition dict_item {V : Type} (d : dict V) (k : string) : result V :=
  match dict_get d k with
  | Some v => Ok v
  | None => Raise (KeyError k)
  end.

Definition keys {V : Type} (d : dict V) : list string := d.*1.
Definition values {V : Type} (d : dict V) : list V := d.*2.

(** ** Numbers and operators *)

Local Open Scope Q_scope.

(** [x > y] on numbers *)
Definition Qgtb (x y : Q) : bool := negb (Qle_bool x y).

(** [a > b] *)
Definition py_gt (a b : pyval) : result bool :=
  match a, b with
  | VNum x, VNum y => Ok (Qgtb x y)
  | VStr s, VStr t => Ok (String.ltb t s)
  | _, _ => Raise (TypeError ">" (type_of a) (type_of b))
  end.

(** [a / b]: true division, defined on numbers only.  The quotient is exact.
    Python raises [OverflowError] instead when an integer operand, or the
    quotient of two integers, is beyond the floating-point range; rationals
    do not tell integers from floats, so that error is outside the
    embedding, and the statements about which runs return assume numbers
    within the range ([float_ranged] below). *)
Definition py_div (a b : pyval) : result Q :=
  match a, b with
  | VNum x, VNum y =>
      if Qeq_bool y 0 then Raise ZeroDivisionError else Ok (x / y)
  | _, _ => Raise (TypeError "/" (type_of a) (type_of b))
  end.

(** [max(first, *rest)]: the running maximum is replaced when the next item
    compares greater. *)
Fixpoint py_max_from (cur : pyval) (rest : list pyval) : result pyval :=
  match rest with
  | [] => Ok cur
  | x :: rest' =>
      do b <~ py_gt x cur ;
      py_max_from (if b then x else cur) rest'
  end.

(** [max(iterable, default=dflt)] *)
Definition py_max (l : list pyval) (dflt : pyval) : result pyval :=
  match l with
  | [] => Ok dflt
  | x :: rest => py_max_from x rest
  end.

(** [sum(xs)] *)
Definition py_sum (xs : list Q) : Q := fold_left Qplus xs 0.

(** ** calculate_scores *)

Record raw_data : Type := { rd_metrics : option (dict (dict pyval)) }.
Record config : Type := { cfg_weights : option (dict Q) }.

(** Lines 28-30: the weights are divided by their sum when the sum is
    positive and further than 0.01 from 1.  The sum and the two comparisons
    are exact here.  Python evaluates them on doubles, and the outcomes
    agree unless the sum is 0 or 0.01 away from 1 up to rounding: at the
    decimal sums 0.99 and 1.01 the doubles are further than the double 0.01
    from 1 and the code divides ([Binary64.needs_normalizing] below).  The
    statements about normalization keep a margin from these thresholds, for
    weight sets small enough for the margin to cover the rounding. *)
Definition normalize_weights (weights : dict Q) : dict Q :=
  let weight_sum := py_sum (values weights) in
  if Qgtb weight_sum 0 && Qgtb (Qabs (weight_sum - 1)) (1 # 100)
  then (λ kv, (kv.1, kv.2 / weight_sum)) <$> weights
  else weights.

(** [m.get(counter, 0)] *)
Definition raw_counter (m : dict pyval) (counter : string) : pyval :=
  dict_get_or m counter (VNum 0).

(** Lines 33-44: [max((m.get(counter, 0) for m in metrics.values()), default=0)] *)
Definition counter_max (metrics : dict (dict pyval)) (counter : string)
  : result pyval :=
  py_max ((λ m, raw_counter m counter) <$> values metrics) (VNum 0).

(** Lines 54-56: [(raw / mx * 100) if mx > 0 else 0.0] *)
Definition scale (raw mx : pyval) : result Q :=
  do positive <~ py_gt mx (VNum 0) ;
  if positive : bool then (do r <~ py_div raw mx ; Ok (r * 100)) else Ok 0.

(** Lines 49-77: the body of the loop over the members. *)
Definition score_member (weights : dict Q) (max_items max_prs max_reviews : pyval)
    (data : dict pyval) : result (dict Q) :=
  let items := raw_counter data "items_completed" in
  let prs := raw_counter data "prs_authored" in
  let reviews := raw_counter data "code_reviews" in
  do items_score <~ scale items max_items ;
  do prs_score <~ scale prs max_prs ;
  do reviews_score <~ scale reviews max_reviews ;
  let items_weight := dict_get_or weights "items_completed" (1 # 2) in
  let prs_weight := dict_get_or weights "prs_authored" (3 # 10) in
  let reviews_weight := dict_get_or weights "code_reviews" (2 # 10) in
  let items_weighted := items_score * items_weight in
  let prs_weighted := prs_score * prs_weight in
  let reviews_weighted := reviews_score * reviews_weight in
  let total := items_weighted + prs_weighted + reviews_weighted in
  Ok [("items_score", items_score);
      ("prs_score", prs_score);
      ("reviews_score", reviews_score);
      ("items_weighted", items_weighted);
      ("prs_weighted", prs_weighted);
      ("reviews_weighted", reviews_weighted);
      ("total", total)].

(** Lines 48-77: [for name, data in metrics.items(): ... scores[name] = {...}] *)
Fixpoint score_loop (weights : dict Q) (max_items max_prs max_reviews : pyval)
    (items : list (string * dict pyval)) (scores : dict (dict Q))
  : result (dict (dict Q)) :=
  match items with
  | [] => Ok scores
  | (name, data) :: rest =>
      do record <~ score_member weights max_items max_prs max_reviews data ;
      score_loop weights max_items max_prs max_reviews rest
        (dict_set scores name record)
  end.

(** [raw_data.get("metrics", {})] and [config.get("weights", {})] *)
Definition get_metrics (raw : raw_data) : dict (dict pyval) :=
  default [] (rd_metrics raw).
Definition get_weights (cfg : config) : dict Q :=
  default [] (cfg_weights cfg).

Definition calculate_scores (raw : raw_data) (cfg : config)
  : result (dict (dict Q)) :=
  let metrics := get_metrics raw in
  match metrics with
  | [] => Ok []
  | _ :: _ =>
      let weights := normalize_weights (get_weights cfg) in
      do max_items <~ counter_max metrics "items_completed" ;
      do max_prs <~ counter_max metrics "prs_authored" ;
      do max_reviews <~ counter_max metrics "code_reviews" ;
      score_loop weights max_items max_prs max_reviews metrics []
  end.

(** ** rank_scores *)

(** A ranked entry holds an integer rank, a member name and the numbers of
    the score record. *)
Inductive field : Type :=
| FInt (z : Z)
| FStr (s : string)
| FNum (q : Q).

(** An item of [scores.items()] *)
Abbreviation member := (string * dict Q)%type.

(** [key=lambda x: x[1]["total"]], evaluated once per item before sorting *)
Fixpoint decorate (items : list member) : result (list (Q * member)) :=
  match items with
  | [] => Ok []
  | item :: rest =>
      do k <~ dict_item (snd item) "total" ;
      do tail <~ decorate rest ;
      Ok ((k, item) :: tail)
  end.

(** [sorted(..., reverse=True)] is stable: an item goes behind the items
    with a larger key and in front of those that came after it in the input
    with an equal or smaller key. *)
Fixpoint insert_desc (x : Q * member) (l : list (Q * member)) : list (Q * member) :=
  match l with
  | [] => [x]
  | y :: l' => if Qgtb (fst y) (fst x) then y :: insert_desc x l' else x :: l
  end.

Fixpoint sort_desc (l : list (Q * member)) : list (Q * member) :=
  match l with
  | [] => []
  | x :: l' => insert_desc x (sort_desc l')
  end.

(** [{"rank": rank, "name": name, **score_data}] *)
Definition ranked_entry (rank : Z) (name : string) (score_data : dict Q) : dict field :=
  fold_left (fun d kv => dict_set d (fst kv) (FNum (snd kv))) score_data
    [("rank", FInt rank); ("name", FStr name)].

(** Lines 108-119: the walk over the sorted members; [i] is the index
    [enumerate] gives the head of [sorted_members]. *)
Fixpoint rank_loop (i current_rank : Z) (prev_total : option Q)
    (sorted_members : list member) : result (list (dict field)) :=
  match sorted_members with
  | [] => Ok []
  | (name, score_data) :: rest =>
      do current_rank <~
        match prev_total with
        | Some p =>
            do total <~ dict_item score_data "total" ;
            Ok (if Qgtb p total then (i + 1)%Z else current_rank)
        | None => Ok current_rank
        end ;
      let entry := ranked_entry current_rank name score_data in
      do total <~ dict_item score_data "total" ;
      do tail <~ rank_loop (i + 1) current_rank (Some total) rest ;
      Ok (entry :: tail)
  end.

Definition rank_scores (scores : dict (dict Q)) : result (list (dict field)) :=
  match scores with
  | [] => Ok []
  | _ :: _ =>
      do decorated <~ decorate scores ;
      let sorted_members := (sort_desc decorated).*2 in
      rank_loop 0 1 None sorted_members
  end.

(** ** calculate_component_contributions *)

(** Lines 137-150: the body of the loop. *)
Definition contribution (data : dict Q) : dict Q :=
  let total := dict_get_or data "total" 0 in
  if Qgtb total 0
  then [("items_pct", dict_get_or data "items_weighted" 0 / total * 100);
        ("prs_pct", dict_get_or data "prs_weighted" 0 / total * 100);
        ("reviews_pct", dict_get_or data "reviews_weighted" 0 / total * 100)]
  else [("items_pct", 0); ("prs_pct", 0); ("reviews_pct", 0)].

Definition calculate_component_contributions (scores : dict (dict Q))
  : dict (dict Q) :=
  fold_left (fun acc kv => dict_set acc (fst kv) (contribution (snd kv))) scores [].

(** ** compare_periods *)

Record trend_record : Type := {
  current : Q;
  previous : Q;
  change : Q;
  trend : string
}.

(** Lines 171-187: the body of the loop. *)
Definition compare_member (current_scores previous_scores : dict (dict Q))
    (name : string) : trend_record :=
  let current := dict_get_or (dict_get_or current_scores name []) "total" 0 in
  let previous := dict_get_or (dict_get_or previous_scores name []) "total" 0 in
  let change := current - previous in
  let trend :=
    if Qgtb change (1 # 2) then "up"
    else if Qgtb (- (1 # 2)) change then "down"
    else "stable" in
  {| current := current; previous := previous; change := change; trend := trend |}.

(** [set(current_scores.keys()) | set(previous_scores.keys())] *)
Definition all_names (current_scores previous_scores : dict (dict Q)) : gset string :=
  list_to_set (keys current_scores) ∪ list_to_set (keys previous_scores).

(** The set is walked in the order [elements] enumerates it: some order
    without repetition, as Python promises for a [set]. *)
Definition compare_periods (current_scores previous_scores : dict (dict Q))
  : dict trend_record :=
  fold_left
    (fun comparison name =>
       dict_set comparison name (compare_member current_scores previous_scores name))
    (elements (all_names current_scores previous_scores)) [].

(** * Vocabulary of the statements and example inputs *)

(** ** Auxiliary notions for calculate_scores *)

(** Filling a dictionary in a loop: [for x in l: acc[key x] = val x]. *)
Definition fill {A V : Type} (key : A → string) (val : A → V)
    (l : list A) (acc : dict V) : dict V :=
  fold_left (λ d x, dict_set d (key x) (val x)) l acc.

(** The value is a Python number. *)
Definition is_num (v : pyval) : bool :=
  match v with
  | VNum _ => true
  | _ => false
  end.

(** The exception is a [TypeError]. *)
Definition is_type_error (e : exn) : bool :=
  match e with
  | TypeError _ _ _ => true
  | _ => false
  end.

(** Lines 54-56 on numbers. *)
Definition scaled (raw mx : Q) : Q :=
  if Qgtb mx 0 then raw / mx * 100 else 0.

(** [out] is the name of [item] with the record the loop body computes for it. *)
Definition scored_as (weights : dict Q) (mi mp mr : pyval)
    (item : string * dict pyval) (out : string * dict Q) : Prop :=
  out.1 = item.1 ∧ score_member weights mi mp mr item.2 = Ok out.2.

(** The three scored counters; a team is numeric when each member has a
    number for each of them (an absent counter counts as 0). *)
Definition counters : list string :=
  ["items_completed"; "prs_authored"; "code_reviews"].

Definition numeric_member (data : dict pyval) : bool :=
  forallb (λ c, is_num (raw_counter data c)) counters.

Definition numeric_metrics (metrics : dict (dict pyval)) : bool :=
  forallb (λ kv, numeric_member kv.2) metrics.

(** The record of a member in closed form. *)
Definition score_record (weights : dict Q) (items_score prs_score reviews_score : Q)
  : dict Q :=
  let items_weighted := items_score * dict_get_or weights "items_completed" (1 # 2) in
  let prs_weighted := prs_score * dict_get_or weights "prs_authored" (3 # 10) in
  let reviews_weighted := reviews_score * dict_get_or weights "code_reviews" (2 # 10) in
  [("items_score", items_score);
   ("prs_score", prs_score);
   ("reviews_score", reviews_score);
   ("items_weighted", items_weighted);
   ("prs_weighted", prs_weighted);
   ("reviews_weighted", reviews_weighted);
   ("total", items_weighted + prs_weighted + reviews_weighted)].

(** The weight a counter is multiplied with: the normalized weight, or the
    default of lines 59-61 when the key is absent. *)
Definition effective_weight (cfg : config) (counter : string) (dflt : Q) : Q :=
  dict_get_or (normalize_weights (get_weights cfg)) counter dflt.

(** The counters and the field each one's scaled score is stored in. *)
Definition score_fields : list (string * string) :=
  [("items_completed", "items_score");
   ("prs_authored", "prs_score");
   ("code_reviews", "reviews_score")].

(** Every member has a number equal to zero for the counter. *)
Definition all_zero (metrics : dict (dict pyval)) (counter : string) : bool :=
  forallb (λ kv, match raw_counter kv.2 counter with
                 | VNum q => Qeq_bool q 0
                 | _ => false
                 end) metrics.

(** [{"metrics": metrics}] and [{"weights": weights}] *)
Definition raw_of (metrics : dict (dict pyval)) : raw_data :=
  {| rd_metrics := Some metrics |}.
Definition config_of (weights : dict Q) : config :=
  {| cfg_weights := Some weights |}.

(** ** Example inputs *)

(** The end-to-end scenario of the specification. *)
Definition team_metrics : dict (dict pyval) :=
  [("Alice", [("items_completed", VNum 50); ("prs_authored", VNum 20);
              ("code_reviews", VNum 30)]);
   ("Bob", [("items_completed", VNum 25); ("prs_authored", VNum 40);
            ("code_reviews", VNum 15)])].

Definition team_weights : dict Q :=
  [("items_completed", 1 # 2); ("prs_authored", 3 # 10); ("code_reviews", 2 # 10)].

(** The scores of the end-to-end scenario. *)
Definition team_scores : dict (dict Q) :=
  Eval vm_compute in
    match calculate_scores (raw_of team_metrics) (config_of team_weights) with
    | Ok scores => scores
    | Raise _ => []
    end.

(** Alice's counters in that scenario, and her record. *)
Definition alice_data : dict pyval :=
  [("items_completed", VNum 50); ("prs_authored", VNum 20); ("code_reviews", VNum 30)].

Definition alice_record : dict Q :=
  Eval vm_compute in dict_get_or team_scores "Alice" [].

(** The all-zero team of the test suite. *)
Definition zero_data : dict pyval :=
  [("items_completed", VNum 0); ("prs_authored", VNum 0); ("code_reviews", VNum 0)].

Definition zero_metrics : dict (dict pyval) :=
  [("Alice", zero_data); ("Bob", zero_data)].

Definition zero_scores : dict (dict Q) :=
  Eval vm_compute in
    match calculate_scores (raw_of zero_metrics) (config_of team_weights) with
    | Ok scores => scores
    | Raise _ => []
    end.



(** The weights of the specification's normalization example, sum 2. *)
Definition double_weights : dict Q :=
  [("items_completed", 1); ("prs_authored", 6 # 10); ("code_reviews", 4 # 10)].

(** Weights whose sum, 1.005, is within 0.01 of 1. *)
Definition near_one_weights : dict Q :=
  [("items_completed", 1 # 2); ("prs_authored", 3 # 10); ("code_reviews", 205 # 1000)].










(** The joiner and leaver periods of the test suite, and the entries they
    produce for the joiner and for the leaver. *)
Definition joiner_current : dict (dict Q) :=
  [("Alice", [("total", 85)]); ("NewGuy", [("total", 60)])].
Definition joiner_previous : dict (dict Q) :=
  [("Alice", [("total", 80)]); ("LeftGuy", [("total", 70)])].


Definition left_guy_trend : trend_record :=
  {| current := 0; previous := 70; change := 0 - 70; trend := "down" |}.

(** ** Auxiliary notions for rank_scores *)

(** The key of an item is not smaller than the keys behind it. *)
Definition desc (x y : Q * member) : Prop := y.1 <= x.1.

(** The key attached to an item is the total of its record. *)
Definition keyed (d : Q * member) : Prop := dict_get d.2.2 "total" = Some d.1.

(** The ranks the walk hands out, as a function of the totals alone. *)
Fixpoint ranks_from (i current_rank : Z) (prev_total : option Q) (totals : list Q)
  : list Z :=
  match totals with
  | [] => []
  | total :: rest =>
      let rank :=
        match prev_total with
        | Some p => if Qgtb p total then (i + 1)%Z else current_rank
        | None => current_rank
        end in
      rank :: ranks_from (i + 1) rank (Some total) rest
  end.

(** Totals in descending order. *)
Definition descending (totals : list Q) : Prop :=
  StronglySorted (λ x y, y <= x) totals.

(** The rank, the name and the total a ranked entry holds. *)
Definition entry_rank (e : dict field) : option Z :=
  match dict_get e "rank" with
  | Some (FInt r) => Some r
  | _ => None
  end.

Definition entry_name (e : dict field) : option string :=
  match dict_get e "name" with
  | Some (FStr n) => Some n
  | _ => None
  end.

Definition entry_total (e : dict field) : option Q :=
  match dict_get e "total" with
  | Some (FNum t) => Some t
  | _ => None
  end.

(** A score record is a dictionary (unique keys) of numbers that has a
    total and no field called "rank" or "name". *)
Definition plain_record (sd : dict Q) : Prop :=
  NoDup (keys sd) ∧ ("rank" ∉ keys sd) ∧ ("name" ∉ keys sd) ∧
  is_Some (dict_get sd "total").

(** The entries built from the ranks and the sorted items. *)
Definition entries (ranks : list Z) (sorted : list (Q * member)) : list (dict field) :=
  zip_with (λ r d, ranked_entry r d.2.1 d.2.2) ranks sorted.

(** A decorated item whose key is its total and whose record is plain. *)
Definition sound (d : Q * member) : Prop := keyed d ∧ plain_record d.2.2.

#[global] Instance plain_record_dec (sd : dict Q) : Decision (plain_record sd) :=
  ltac:(unfold plain_record; apply _).

(** Three members tied at the top and a fourth below them. *)
Definition tie_scores : dict (dict Q) :=
  [("Ann", [("total", 90)]); ("Ben", [("total", 70)]);
   ("Cat", [("total", 90)]); ("Dan", [("total", 90)])].

Definition tie_ranked : list (dict field) :=
  Eval vm_compute in
    match rank_scores tie_scores with
    | Ok ranked => ranked
    | Raise _ => []
    end.

(** * The tolerance of the weight normalization in binary64 *)




(** The condition of line 29 as Python evaluates it, on doubles:
    [weight_sum > 0 and abs(weight_sum - 1.0) > 0.01]. *)
Module Binary64.

Definition prec : Z := 53.
Definition emax : Z := 1024.

Definition of_Z (z : Z) : spec_float := binary_normalize prec emax z 0 false.

(** The double nearest to a decimal literal whose numerator and denominator
    are below 2^53: the correctly rounded quotient of two exact doubles. *)
Definition of_Q (q : Q) : spec_float :=
  SFdiv prec emax (of_Z (Qnum q)) (of_Z (Z.pos (Qden q))).

Definition add (x y : spec_float) : spec_float := SFadd prec emax x y.
Definition sub (x y : spec_float) : spec_float := SFsub prec emax x y.
Definition gt (x y : spec_float) : bool := SFltb y x.

Definition needs_normalizing (weight_sum : spec_float) : bool :=
  gt weight_sum (of_Z 0) && gt (SFabs (sub weight_sum (of_Z 1))) (of_Q (1 # 100)).

End Binary64.

(** Weights of decimal sum 1.01. *)
Definition boundary_weights : dict Q :=
  [("items_completed", 1 # 2); ("prs_authored", 3 # 10); ("code_reviews", 21 # 100)].

(** * The floating-point range *)

(** The largest finite double, [sys.float_info.max].  Python converts an
    integer of at most this magnitude to a float without error, and the
    true division of such an integer by an integer of magnitude 1 or more
    stays in range; divisions and products of floats never raise. *)
Definition max_float : Q := inject_Z (2 ^ 1024 - 2 ^ 971).

Definition in_float_range (q : Q) : bool := Qle_bool (Qabs q) max_float.

(** Every scored counter of the member that is a number is in range. *)
Definition ranged_member (data : dict pyval) : bool :=
  forallb (λ c, match raw_counter data c with
                | VNum q => in_float_range q
                | _ => true
                end) counters.

Definition ranged_metrics (metrics : dict (dict pyval)) : bool :=
  forallb (λ kv, ranged_member kv.2) metrics.

(** The magnitudes of the weights add up to a number in range, so that
    every weight and every partial sum of weights is in range. *)
Definition ranged_weights (weights : dict Q) : bool :=
  in_float_range (py_sum (Qabs <$> values weights)).

(** The numbers of the input are within the floating-point range: the
    inputs on which the operators of the embedding, which never overflow,
    raise exactly when Python's do. *)
Definition float_ranged (raw : raw_data) (cfg : config) : bool :=
  ranged_metrics (get_metrics raw) && ranged_weights (get_weights cfg).

(** * Further vocabulary: the scoring engine *)

(** Every scored counter of the member is a number that is not negative. *)
Definition nonneg_member (data : dict pyval) : bool :=
  forallb (λ c, match raw_counter data c with
                | VNum q => Qle_bool 0 q
                | _ => false
                end) counters.

Definition nonneg_metrics (metrics : dict (dict pyval)) : bool :=
  forallb (λ kv, nonneg_member kv.2) metrics.

(** A team in which Bob has no [code_reviews] entry. *)
Definition sparse_metrics : dict (dict pyval) :=
  [("Alice", alice_data);
   ("Bob", [("items_completed", VNum 25); ("prs_authored", VNum 40)])].

Definition sparse_scores : dict (dict Q) :=
  Eval vm_compute in
    match calculate_scores (raw_of sparse_metrics) (config_of team_weights) with
    | Ok scores => scores
    | Raise _ => []
    end.

(** * Further vocabulary: ranking *)

(** The record has a total. *)
Definition has_total (sd : dict Q) : bool :=
  match dict_get sd "total" with
  | Some _ => true
  | None => false
  end.

(** The totals of a score mapping, in its order. *)
Definition totals_of (scores : dict (dict Q)) : list Q :=
  (λ m : member, dict_get_or m.2 "total" 0) <$> scores.

(** How many of the totals are strictly above [t]. *)
Fixpoint count_above (t : Q) (totals : list Q) : nat :=
  match totals with
  | [] => 0
  | x :: rest => (if Qgtb x t then 1 else 0) + count_above t rest
  end.

(** The names of the members whose total equals [t], in the order of the
    mapping, and the names of the ranked entries whose total equals [t], in
    the order of the ranking. *)
Definition members_at (t : Q) (scores : dict (dict Q)) : list (option string) :=
  (λ m : member, Some m.1)
    <$> List.filter (λ m : member, Qeq_bool (dict_get_or m.2 "total" 0) t) scores.

Definition entries_at (t : Q) (ranked : list (dict field)) : list (option string) :=
  entry_name
    <$> List.filter (λ e, match entry_total e with
                          | Some x => Qeq_bool x t
                          | None => false
                          end) ranked.

(** A score mapping with a record that has no total. *)
Definition broken_scores : dict (dict Q) :=
  [("Ann", [("total", 90)]); ("Ben", [("items_score", 70)])].

(** * The callers: fetchers/base_fetcher.py and productivity_scorer.py *)

(** ** TeamMember (base_fetcher.py, lines 15-37) *)

Module TeamMember.

Record t : Type := {
  name : string;
  github_username : string;
  jira_account_id : string
}.

(** [from_dict]: the three keys are read in this order. *)
Definition from_dict (data : dict string) : result t :=
  do name <~ dict_item data "name" ;
  do github_username <~ dict_item data "github_username" ;
  do jira_account_id <~ dict_item data "jira_account_id" ;
  Ok {| name := name;
        github_username := github_username;
        jira_account_id := jira_account_id |}.

Definition to_dict (self : t) : dict string :=
  [("name", name self);
   ("github_username", github_username self);
   ("jira_account_id", jira_account_id self)].

End TeamMember.

(** ** MetricData (base_fetcher.py, lines 86-110) *)

Module MetricData.

Record t : Type := {
  items_completed : Z;
  story_points : Z;
  prs_authored : Z;
  code_reviews : Z
}.

(** [MetricData()] *)
Definition zero : t :=
  {| items_completed := 0; story_points := 0; prs_authored := 0; code_reviews := 0 |}.

(** [a if a else b] on integers *)
Definition pick (a b : Z) : Z := if Z.eqb a 0 then b else a.

Definition merge (self other : t) : t :=
  {| items_completed := pick (items_completed self) (items_completed other);
     story_points := pick (story_points self) (story_points other);
     prs_authored := pick (prs_authored self) (prs_authored other);
     code_reviews := pick (code_reviews self) (code_reviews other) |}.

End MetricData.

(** ** run_fetch, run_score and the pipeline (productivity_scorer.py) *)

(** Lines 157-162: the metrics of one member. *)
Definition member_metrics (jira_data github_data : MetricData.t) : dict pyval :=
  [("items_completed", VNum (inject_Z (MetricData.items_completed jira_data)));
   ("story_points", VNum (inject_Z (MetricData.story_points jira_data)));
   ("prs_authored", VNum (inject_Z (MetricData.prs_authored github_data)));
   ("code_reviews", VNum (inject_Z (MetricData.code_reviews github_data)))].

(** Lines 145-162: the loop over the members; the two fetchers are the
    functions [fetch_jira] and [fetch_github] of the member, the period being
    fixed. *)
Definition collect_metrics (fetch_jira fetch_github : TeamMember.t → MetricData.t)
    (members : list TeamMember.t) : dict (dict pyval) :=
  fold_left
    (λ metrics member,
       dict_set metrics (TeamMember.name member)
         (member_metrics (fetch_jira member) (fetch_github member)))
    members [].

(** Lines 187-200. *)
Definition run_score (raw : raw_data) (cfg : config) : result (dict (dict Q)) :=
  calculate_scores raw cfg.

(** Lines 270-271 of [run_full_pipeline] (and 357-358 of [main], 156-157 of
    fetch_via_mcp.py): the scores, then their ranking. *)
Definition score_and_rank (raw : raw_data) (cfg : config)
  : result (dict (dict Q) * list (dict field)) :=
  do scores <~ run_score raw cfg ;
  do ranked <~ rank_scores scores ;
  Ok (scores, ranked).

(** ** JiraFetcher and GitHubFetcher (fetchers/*.py) *)

(** An issue of a well-formed Jira response, as [parse_response] reads it:
    the value of [fields.customfield_10016], a JSON number, or [None] when
    that field is null or absent in [fields], or when the issue has no
    [fields] key at all (the lookup then defaults to an empty object).  An
    issue whose [fields] is null, on which the code raises
    [AttributeError], is not an issue of this type. *)
Record jira_issue : Type := { customfield_10016 : option Q }.

(** [int(x)] on a number: truncation towards zero *)
Definition py_int (x : Q) : Z := Z.quot (Qnum x) (Z.pos (Qden x)).

(** jira_fetcher.py, lines 159-170; [issues] is [response.get("issues", [])]. *)
Definition parse_response (issues : list jira_issue) : Z * Z :=
  let items := Z.of_nat (length issues) in
  let story_points :=
    fold_left
      (λ story_points issue,
         match customfield_10016 issue with
         | Some sp => (story_points + py_int sp)%Z
         | None => story_points
         end)
      issues 0%Z in
  (items, story_points).

(** jira_fetcher.py, lines 116-124, and github_fetcher.py, lines 67-75;
    [hash_val] is the integer read from the MD5 digest. *)
Definition jira_test_data (hash_val : Z) : MetricData.t :=
  let items := (hash_val mod 40 + 10)%Z in
  let points := (hash_val mod 30 + 5)%Z in
  {| MetricData.items_completed := items; MetricData.story_points := points;
     MetricData.prs_authored := 0; MetricData.code_reviews := 0 |}.

Definition github_test_data (hash_val : Z) : MetricData.t :=
  let prs := (hash_val mod 30 + 5)%Z in
  let reviews := (hash_val mod 50 + 10)%Z in
  {| MetricData.items_completed := 0; MetricData.story_points := 0;
     MetricData.prs_authored := prs; MetricData.code_reviews := reviews |}.

(** What one run of the [gh] command does, as [_run_gh_command_with_retry]
    tells the cases apart: exit code 0 with an output of [n] results
    ([None] when the output is not JSON or has no length), a non-zero exit
    code with or without "rate limit" in the error output, a timeout, any
    other exception. *)
Inductive gh_run : Type :=
| GhDone (results : option nat)
| GhFailed (rate_limited : bool)
| GhTimeout
| GhError.

(** What the retry loop did: the count it returns, the commands it ran and
    the sleeps it took. *)
Record gh_trace : Type := { gh_count : nat; gh_attempts : nat; gh_sleeps : nat }.

(** github_fetcher.py, lines 131-166.  [run k] is the outcome of the [k]-th
    run of the command; [remaining] is [retry_count - attempts], the number
    of iterations the [while] still allows. *)
Fixpoint retry_loop (run : nat → gh_run) (attempts sleeps remaining : nat) : gh_trace :=
  match remaining with
  | O => {| gh_count := 0; gh_attempts := attempts; gh_sleeps := sleeps |}
  | S remaining' =>
      let attempts := S attempts in
      let stop count :=
        {| gh_count := count; gh_attempts := attempts; gh_sleeps := sleeps |} in
      match run attempts with
      | GhDone (Some n) => stop n
      | GhDone None => stop 0%nat
      | GhFailed true | GhTimeout =>
          match remaining' with
          | O => stop 0%nat
          | S _ => retry_loop run attempts (S sleeps) remaining'
          end
      | GhFailed false => stop 0%nat
      | GhError => stop 0%nat
      end
  end.

Definition run_gh_command_with_retry (retry_count : Z) (run : nat → gh_run) : gh_trace :=
  retry_loop run 0 0 (Z.to_nat retry_count).

(** A run is retried when it was rate limited or timed out. *)
Definition retryable (r : gh_run) : bool :=
  match r with
  | GhFailed true | GhTimeout => true
  | _ => false
  end.

(** Rate limited twice, then five results. *)
Definition flaky_gh (k : nat) : gh_run :=
  match k with
  | 1%nat | 2%nat => GhFailed true
  | _ => GhDone (Some 5%nat)
  end.

(** * Further vocabulary: comparing two members of one run *)

(** Each scored counter of [da] is a number not above the same counter of
    [db]. *)
Definition no_more (da db : dict pyval) : bool :=
  forallb (λ c, match raw_counter da c, raw_counter db c with
                | VNum x, VNum y => Qle_bool x y
                | _, _ => false
                end) counters.

(** None of the three effective weights is negative. *)
Definition nonneg_weights (cfg : config) : bool :=
  Qle_bool 0 (effective_weight cfg "items_completed" (1 # 2)) &&
  Qle_bool 0 (effective_weight cfg "prs_authored" (3 # 10)) &&
  Qle_bool 0 (effective_weight cfg "code_reviews" (2 # 10)).

(** The three component scores of a record. *)
Definition component_scores : list string :=
  ["items_score"; "prs_score"; "reviews_score"].

(** A team in which Kim did at least as much as Lee on every counter, and
    Max more pull requests than both. *)
Definition junior_data : dict pyval :=
  [("items_completed", VNum 10); ("prs_authored", VNum 5); ("code_reviews", VNum 2)].

Definition senior_data : dict pyval :=
  [("items_completed", VNum 20); ("prs_authored", VNum 5); ("code_reviews", VNum 8)].

Definition mixed_metrics : dict (dict pyval) :=
  [("Lee", junior_data); ("Max", [("prs_authored", VNum 30)]); ("Kim", senior_data)].

Definition mixed_scores : dict (dict Q) :=
  Eval vm_compute in
    match calculate_scores (raw_of mixed_metrics) (config_of team_weights) with
    | Ok scores => scores
    | Raise _ => []
    end.

Definition mixed_ranked : list (dict field) :=
  Eval vm_compute in
    match rank_scores mixed_scores with
    | Ok ranked => ranked
    | Raise _ => []
    end.

(** * Further vocabulary: a counter measured in another unit *)

(** The member's data with the number stored for [counter] multiplied by [k]. *)
Definition times (k : Q) (counter : string) (data : dict pyval) : dict pyval :=
  (λ kv : string * pyval,
     if String.eqb kv.1 counter
     then (kv.1, match kv.2 with VNum q => VNum (k * q) | v => v end)
     else kv) <$> data.

(** The metrics with that counter multiplied by [k] for every member. *)
Definition rescale (k : Q) (counter : string) (metrics : dict (dict pyval))
  : dict (dict pyval) :=
  (λ m : string * dict pyval, (m.1, times k counter m.2)) <$> metrics.

(** A whole number that a double holds exactly, and the metrics in which
    every member has such a number for the counter.  On such numbers the
    quotient Python computes, between integers or between floats, is the
    correctly rounded value of the exact ratio. *)
Definition whole (q : Q) : bool :=
  Z.eqb (Qnum q mod Z.pos (Qden q)) 0 && Qle_bool (Qabs q) (inject_Z (2 ^ 53)).

Definition whole_counts (counter : string) (metrics : dict (dict pyval)) : bool :=
  forallb (λ kv : string * dict pyval,
             match raw_counter kv.2 counter with
             | VNum q => whole q
             | _ => false
             end) metrics.

(** Two records with the same fields in the same order and equal numbers. *)
Definition same_record (r r' : dict Q) : Prop :=
  Forall2 (λ kv kv' : string * Q, kv.1 = kv'.1 ∧ kv.2 == kv'.2) r r'.

(** ** Two members under one name *)

(** Mock fetchers that tell the members apart by their identifiers. *)
Definition jira_by_id (m : TeamMember.t) : MetricData.t :=
  jira_test_data (Z.of_nat (String.length (TeamMember.jira_account_id m))).

Definition github_by_id (m : TeamMember.t) : MetricData.t :=
  github_test_data (Z.of_nat (String.length (TeamMember.github_username m))).

Definition ann_old : TeamMember.t :=
  {| TeamMember.name := "Ann"; TeamMember.github_username := "ann";
     TeamMember.jira_account_id := "a1" |}.

Definition ann_new : TeamMember.t :=
  {| TeamMember.name := "Ann"; TeamMember.github_username := "ann-dev";
     TeamMember.jira_account_id := "acc-2" |}.

Definition ben : TeamMember.t :=
  {| TeamMember.name := "Ben"; TeamMember.github_username := "ben";
     TeamMember.jira_account_id := "acc-3" |}.

(** * fetch_via_mcp.py: parse_mcp_jira_response *)

Module Mcp.

(** What an identifier key of the assignee holds: nothing (the key is
    absent), JSON null, or a string. *)
Inductive identifier : Type :=
| Absent
| Null
| Str (s : string).

(** The assignee of an issue as the function reads it: the two identifiers. *)
Record assignee_t : Type := {
  accountId : identifier;
  displayName : identifier
}.

(** An issue of a well-formed response as the function reads it:
    [fields.assignee] ([None] when it is absent, null or empty, or when the
    issue has no [fields] key) and the two story-point fields, each a JSON
    number or [None] when null or absent.  An issue whose [fields] is null,
    on which the code raises [AttributeError], is not an issue of this
    type. *)
Record issue : Type := {
  assignee : option assignee_t;
  customfield_10016 : option Q;
  storyPoints : option Q
}.

(** [f"{assignee.get(key, dflt)}"]: the default for an absent key, the text
    [None] for a null, the string itself otherwise. *)
Definition text (value : identifier) (dflt : string) : string :=
  match value with
  | Absent => dflt
  | Null => "None"
  | Str s => s
  end.

(** The metrics of one member. *)
Record metrics_t : Type := {
  items_completed : Z;
  story_points : Z
}.

(** Lines 55-59: [f"{display_name}|{account_id}"], for an issue that has an
    assignee. *)
Definition assignee_key (i : issue) : option string :=
  match assignee i with
  | None => None
  | Some a =>
      let account_id := text (accountId a) "unknown" in
      let display_name := text (displayName a) "Unknown" in
      Some (display_name ++ "|" ++ account_id)
  end.

(** Lines 52-62: the body of the grouping loop. *)
Definition group_step (by_assignee : dict (list issue)) (i : issue)
  : dict (list issue) :=
  match assignee_key i with
  | None => by_assignee
  | Some key =>
      let by_assignee :=
        match dict_get by_assignee key with
        | None => dict_set by_assignee key []
        | Some _ => by_assignee
        end in
      dict_set by_assignee key (dict_get_or by_assignee key [] ++ [i])%list
  end.

Definition group (issues : list issue) : dict (list issue) :=
  fold_left group_step issues [].

(** The value of [x or ...] goes to the next operand when [x] is [None] or
    zero. *)
Definition truthy (x : option Q) : option Q :=
  match x with
  | Some q => if Qeq_bool q 0 then None else Some q
  | None => None
  end.

(** Line 76: [fields.get("customfield_10016") or fields.get("storyPoints") or 0] *)
Definition sp_of (i : issue) : Q :=
  match truthy (customfield_10016 i) with
  | Some q => q
  | None =>
      match truthy (storyPoints i) with
      | Some q => q
      | None => 0
      end
  end.

(** Lines 69-83: the metrics of one group. *)
Definition summarize (member_issues : list issue) : metrics_t :=
  let items_completed := Z.of_nat (length member_issues) in
  let story_points :=
    fold_left
      (λ story_points i,
         let sp := sp_of i in
         if Qeq_bool sp 0 then story_points else (story_points + py_int sp)%Z)
      member_issues 0%Z in
  {| items_completed := items_completed; story_points := story_points |}.

(** [key.split("|")[0]] *)
Fixpoint before_bar (s : string) : string :=
  match s with
  | EmptyString => EmptyString
  | String c s' => if Ascii.eqb c "|"%char then EmptyString else String c (before_bar s')
  end.

(** Lines 49-85; [issues] is [mcp_response.get("issues", [])]. *)
Definition parse_mcp_jira_response (issues : list issue) : dict metrics_t :=
  let by_assignee := group issues in
  fold_left
    (λ metrics kv, dict_set metrics (before_bar kv.1) (summarize kv.2))
    by_assignee [].

(** The issue is assigned under the key. *)
Definition has_key (key : string) (i : issue) : bool :=
  match assignee_key i with
  | Some k => String.eqb k key
  | None => false
  end.

(** The (display name, account id) pair of the issue's assignee, as the
    texts the key is built from. *)
Definition identity (i : issue) : option (string * string) :=
  match assignee i with
  | None => None
  | Some a => Some (text (displayName a) "Unknown", text (accountId a) "unknown")
  end.

(** The issue is assigned to the pair. *)
Definition of_pair (display_name account_id : string) (i : issue) : bool :=
  match identity i with
  | Some (d, a) => String.eqb d display_name && String.eqb a account_id
  | None => false
  end.

(** The issue has an assignee. *)
Definition assigned (i : issue) : bool :=
  match assignee i with
  | Some _ => true
  | None => false
  end.

(** The string has no bar. *)
Fixpoint no_bar (s : string) : bool :=
  match s with
  | EmptyString => true
  | String c s' => negb (Ascii.eqb c "|"%char) && no_bar s'
  end.

(** No display name of the response has a bar. *)
Definition bar_free (issues : list issue) : bool :=
  forallb (λ i, match identity i with
                | Some (d, _) => no_bar d
                | None => true
                end) issues.

(** Example issues: two accounts that share a display name, an issue
    without assignee, two accounts whose keys coincide, and an assignee
    whose display name is null. *)
Definition of_account (name id : string) (points : option Q) : issue :=
  {| assignee := Some {| accountId := Str id; displayName := Str name |};
     customfield_10016 := points; storyPoints := None |}.

Definition colliding_issues : list issue :=
  [of_account "A|B" "x" (Some 3); of_account "A" "B|x" (Some 5)].

Definition nameless : issue :=
  {| assignee := Some {| accountId := Str "id-9"; displayName := Null |};
     customfield_10016 := None; storyPoints := Some 2 |}.

Definition unassigned : issue :=
  {| assignee := None; customfield_10016 := Some 8; storyPoints := None |}.

Definition namesake_issues : list issue :=
  [of_account "Sam" "id-1" (Some 3); unassigned; of_account "Sam" "id-2" (Some 5);
   of_account "Sam" "id-1" None].

End Mcp.

(** The items counted by all entries of a result, and the issues held by
    all groups. *)
Definition total_items (metrics : dict Mcp.metrics_t) : Z :=
  fold_right (λ kv total, (Mcp.items_completed kv.2 + total)%Z) 0%Z metrics.

Definition grouped (by_assignee : dict (list Mcp.issue)) : nat :=
  fold_right (λ kv total, (length kv.2 + total)%nat) 0%nat by_assignee.

(** * base_fetcher.py: validate_config *)

(** A configuration as [validate_config] reads it: the three required
    fields, [None] for an absent key.  The team is an object whose values
    (of some type [T]) are not looked at; the weights are an object of
    numbers, as [calculate_scores] takes them. *)
Module AppConfig.

Record t (T : Type) : Type := {
  version : option string;
  team : option (dict T);
  weights : option (dict Q)
}.
Arguments version {T} _.
Arguments team {T} _.
Arguments weights {T} _.

End AppConfig.

(** The function returns nothing or raises [ConfigError(message)]. *)
Inductive validation : Type :=
| Accepted
| ConfigError (message : string).

(** [k in d] *)
Definition dict_mem {V : Type} (d : dict V) (k : string) : bool :=
  match dict_get d k with
  | Some _ => true
  | None => false
  end.

Definition required_weights : list string :=
  ["items_completed"; "prs_authored"; "code_reviews"].

(** Lines 175-200.  The sum of the weights is computed and compared with 1,
    and nothing is done with the result. *)
Definition validate_config {T : Type} (config : AppConfig.t T) : validation :=
  if negb (bool_decide (is_Some (AppConfig.version config)))
  then ConfigError "Missing required field: version"
  else if negb (bool_decide (is_Some (AppConfig.team config)))
  then ConfigError "Missing required field: team"
  else if negb (bool_decide (is_Some (AppConfig.weights config)))
  then ConfigError "Missing required field: weights"
  else if negb (dict_mem (default [] (AppConfig.team config)) "name")
  then ConfigError "Team must have a 'name' field"
  else if negb (dict_mem (default [] (AppConfig.team config)) "members")
  then ConfigError "Team must have a 'members' field"
  else
    let weights := default [] (AppConfig.weights config) in
    match List.find (λ weight_name, negb (dict_mem weights weight_name))
            required_weights with
    | Some weight_name => ConfigError ("Missing required weight: " ++ weight_name)
    | None =>
        let weight_sum := py_sum (values weights) in
        if Qgtb (Qabs (weight_sum - 1)) (1 # 100) then Accepted else Accepted
    end.

(** The part of the configuration [calculate_scores] reads. *)
Definition scoring_config {T : Type} (app_config : AppConfig.t T) : config :=
  {| cfg_weights := AppConfig.weights app_config |}.


(** A configuration with weights that sum to 2. *)
Definition double_config : AppConfig.t (list string) :=
  {| AppConfig.version := Some "1.0";
     AppConfig.team := Some [("name", ["Platform"]); ("members", ["Ann"; "Ben"])];
     AppConfig.weights := Some double_weights |}.

(** * Properties *)

(** ** Comparisons on rationals *)

Lemma Qgtb_true (x y : Q) : Qgtb x y = true <-> y < x.
Proof.
  unfold Qgtb. rewrite negb_true_iff, <- not_true_iff_false, Qle_bool_iff.
  split; [apply Qnot_le_lt | apply Qlt_not_le].
Qed.

Lemma Qgtb_false (x y : Q) : Qgtb x y = false <-> x <= y.
Proof.
  unfold Qgtb. rewrite negb_false_iff. apply Qle_bool_iff.
Qed.

(** ** Dictionaries *)

Section dict_facts.
Context {V : Type}.
Implicit Types (d : dict V) (k : string) (v : V).

Lemma dict_get_set d k v k' :
  dict_get (dict_set d k v) k' = if String.eqb k k' then Some v else dict_get d k'.
Proof.
  induction d as [|[k0 v0] d IH]; simpl; [done|].
  destruct (String.eqb k0 k) eqn:E0; simpl.
  - apply String.eqb_eq in E0 as ->. by destruct (String.eqb k k').
  - destruct (String.eqb k0 k') eqn:E1; [|done].
    apply String.eqb_eq in E1 as ->. by rewrite String.eqb_sym, E0.
Qed.

Lemma dict_get_set_eq d k v : dict_get (dict_set d k v) k = Some v.
Proof. by rewrite dict_get_set, String.eqb_refl. Qed.

Lemma dict_get_set_ne d k v k' :
  k ≠ k' → dict_get (dict_set d k v) k' = dict_get d k'.
Proof.
  intros Hne. rewrite dict_get_set.
  by apply String.eqb_neq in Hne as ->.
Qed.

Lemma dict_get_elem d k v : dict_get d k = Some v → (k, v) ∈ d.
Proof.
  induction d as [|[k0 v0] d IH]; simpl; [done|].
  destruct (String.eqb k0 k) eqn:E.
  - apply String.eqb_eq in E as ->. intros [= ->]. apply elem_of_cons; auto.
  - intros H. apply elem_of_cons; auto.
Qed.

Lemma dict_get_None d k : dict_get d k = None ↔ k ∉ keys d.
Proof.
  unfold keys. induction d as [|[k0 v0] d IH]; simpl.
  - split; [intros _; apply not_elem_of_nil | done].
  - rewrite not_elem_of_cons. destruct (String.eqb k0 k) eqn:E.
    + apply String.eqb_eq in E as ->. split; [done | intros [? _]; done].
    + apply String.eqb_neq in E. rewrite IH. split; [auto | by intros [_ ?]].
Qed.

Lemma dict_get_is_Some d k : is_Some (dict_get d k) ↔ k ∈ keys d.
Proof.
  rewrite <- not_eq_None_Some, dict_get_None.
  split; [apply dec_stable | auto].
Qed.

Lemma elem_dict_get d k v : NoDup (keys d) → (k, v) ∈ d → dict_get d k = Some v.
Proof.
  unfold keys. induction d as [|[k0 v0] d IH]; simpl.
  - intros _ H. by apply elem_of_nil in H.
  - rewrite NoDup_cons, elem_of_cons. intros [Hk0 Hnd] [[= -> ->]|Hin].
    + by rewrite String.eqb_refl.
    + destruct (String.eqb k0 k) eqn:E; [|auto].
      apply String.eqb_eq in E as ->. destruct Hk0.
      apply (list_elem_of_fmap_2 fst) in Hin. done.
Qed.

Lemma keys_dict_set_old d k v : k ∈ keys d → keys (dict_set d k v) = keys d.
Proof.
  unfold keys. induction d as [|[k0 v0] d IH]; simpl; intros Hin.
  - by apply elem_of_nil in Hin.
  - destruct (String.eqb k0 k) eqn:E; [done|]. simpl. f_equal. apply IH.
    apply String.eqb_neq in E. apply elem_of_cons in Hin as [->|Hin]; done.
Qed.

Lemma keys_dict_set_new d k v :
  k ∉ keys d → keys (dict_set d k v) = (keys d ++ [k])%list.
Proof.
  unfold keys. induction d as [|[k0 v0] d IH]; simpl; intros Hin; [done|].
  apply not_elem_of_cons in Hin as [Hne Hin].
  destruct (String.eqb k0 k) eqn:E.
  - by apply String.eqb_eq in E.
  - simpl. f_equal. by apply IH.
Qed.

Lemma elem_keys_dict_set d k v k' :
  k' ∈ keys (dict_set d k v) ↔ k' = k ∨ k' ∈ keys d.
Proof.
  destruct (decide (k ∈ keys d)) as [Hin|Hin].
  - rewrite keys_dict_set_old by done. split; [auto | intros [->|?]; done].
  - rewrite keys_dict_set_new by done.
    rewrite elem_of_app, list_elem_of_singleton. tauto.
Qed.

Lemma NoDup_keys_dict_set d k v : NoDup (keys d) → NoDup (keys (dict_set d k v)).
Proof.
  intros Hnd. destruct (decide (k ∈ keys d)) as [Hin|Hin].
  - by rewrite keys_dict_set_old.
  - rewrite keys_dict_set_new by done.
    apply NoDup_app. split_and!; [done | | apply NoDup_singleton].
    intros x Hx ->%list_elem_of_singleton. done.
Qed.
End dict_facts.

(** Facts about [fill]. *)
Section fill.
Context {A V : Type} (key : A → string) (val : A → V).

Lemma fill_get_other l acc k :
  k ∉ key <$> l → dict_get (fill key val l acc) k = dict_get acc k.
Proof.
  unfold fill. revert acc. induction l as [|x l IH]; intros acc Hk; simpl; [done|].
  rewrite fmap_cons, not_elem_of_cons in Hk. destruct Hk as [Hne Hk].
  rewrite IH by done. by apply dict_get_set_ne.
Qed.

Lemma fill_get_elem l acc x :
  NoDup (key <$> l) → x ∈ l → dict_get (fill key val l acc) (key x) = Some (val x).
Proof.
  unfold fill. revert acc. induction l as [|y l IH]; intros acc Hnd Hx; simpl.
  - by apply elem_of_nil in Hx.
  - rewrite fmap_cons, NoDup_cons in Hnd. destruct Hnd as [Hy Hnd].
    apply elem_of_cons in Hx as [->|Hx]; [|by apply IH].
    fold (fill key val l (dict_set acc (key y) (val y))).
    rewrite fill_get_other by done. apply dict_get_set_eq.
Qed.

Lemma fill_get_inv l acc k v :
  dict_get (fill key val l acc) k = Some v →
  (∃ x, x ∈ l ∧ key x = k ∧ val x = v) ∨ dict_get acc k = Some v.
Proof.
  unfold fill. revert acc. induction l as [|y l IH]; intros acc H; simpl in *; [auto|].
  apply IH in H as [(x & Hx & Hk & Hv)|H].
  - left. exists x. rewrite elem_of_cons. auto.
  - rewrite dict_get_set in H. destruct (String.eqb (key y) k) eqn:E; [|auto].
    apply String.eqb_eq in E. injection H as <-.
    left. exists y. rewrite elem_of_cons. auto.
Qed.

Lemma elem_keys_fill l acc k :
  k ∈ keys (fill key val l acc) ↔ k ∈ key <$> l ∨ k ∈ keys acc.
Proof.
  unfold fill. revert acc. induction l as [|y l IH]; intros acc; simpl.
  - rewrite elem_of_nil. tauto.
  - rewrite IH, elem_keys_dict_set, elem_of_cons. tauto.
Qed.

Lemma NoDup_keys_fill l acc : NoDup (keys acc) → NoDup (keys (fill key val l acc)).
Proof.
  unfold fill. revert acc. induction l as [|y l IH]; intros acc Hnd; simpl; [done|].
  apply IH. by apply NoDup_keys_dict_set.
Qed.
End fill.

(** ** The error monad and the operators *)

Lemma bind_Ok_inv {A B : Type} (m : result A) (k : A → result B) (b : B) :
  bind m k = Ok b → ∃ a, m = Ok a ∧ k a = Ok b.
Proof. destruct m as [a|e]; simpl; [eauto | done]. Qed.

Lemma bind_Raise_inv {A B : Type} (m : result A) (k : A → result B) (e : exn) :
  bind m k = Raise e → m = Raise e ∨ ∃ a, m = Ok a ∧ k a = Raise e.
Proof. destruct m as [a|e']; simpl; [eauto | intros [= ->]; auto]. Qed.

Lemma is_num_inv (v : pyval) : is_num v = true → ∃ q, v = VNum q.
Proof. destruct v; simpl; [eauto | done..]. Qed.

Lemma py_gt_Ok_inv (a b : pyval) (r : bool) :
  py_gt a b = Ok r →
  (∃ x y, a = VNum x ∧ b = VNum y ∧ r = Qgtb x y) ∨
  (∃ s t, a = VStr s ∧ b = VStr t ∧ r = String.ltb t s).
Proof.
  destruct a, b; simpl; intros H; try discriminate H; injection H as <-.
  - left. eauto.
  - right. eauto.
Qed.

Lemma py_gt_Raise_inv (a b : pyval) (e : exn) :
  py_gt a b = Raise e → is_type_error e = true.
Proof. destruct a, b; simpl; intros [= <-]; done. Qed.

Lemma py_div_Raise_inv (a : pyval) (m : Q) (e : exn) :
  0 < m → py_div a (VNum m) = Raise e → is_type_error e = true.
Proof.
  intros Hm. destruct a; simpl; try (intros [= <-]; done).
  destruct (Qeq_bool m 0) eqn:E; [|done].
  apply Qeq_bool_iff in E. rewrite E in Hm. by apply Qlt_irrefl in Hm.
Qed.

(** ** The team maximum *)

Lemma py_max_from_num (cur : pyval) (rest : list pyval) (m : Q) :
  py_max_from cur rest = Ok (VNum m) →
  Forall (λ v, ∃ q, v = VNum q ∧ q <= m) (cur :: rest) ∧ VNum m ∈ cur :: rest.
Proof.
  revert cur. induction rest as [|x rest IH]; intros cur; simpl.
  - intros [= ->]. split; [|apply elem_of_cons; auto].
    constructor; [|constructor]. exists m. split; [done | apply Qle_refl].
  - intros (b & Hgt & Hmax)%bind_Ok_inv.
    apply IH in Hmax as [Hall Hin].
    apply Forall_cons in Hall as [(q & Hq & Hle) Hall].
    apply py_gt_Ok_inv in Hgt as [(qx & qc & -> & -> & ->)|(s & t & -> & -> & ->)];
      [|by destruct (String.ltb t s)].
    destruct (Qgtb qx qc) eqn:E.
    + apply Qgtb_true in E. injection Hq as ->. split.
      * apply Forall_cons. split; [exists qc; split; [done | lra]|].
        apply Forall_cons. split; [exists q; split; [done | lra] | done].
      * rewrite !elem_of_cons in *. tauto.
    + apply Qgtb_false in E. injection Hq as ->. split.
      * apply Forall_cons. split; [exists q; split; [done | lra]|].
        apply Forall_cons. split; [exists qx; split; [done | lra] | done].
      * rewrite !elem_of_cons in *. tauto.
Qed.

Lemma py_max_from_total (cur : pyval) (rest : list pyval) :
  is_num cur = true → Forall (λ v, is_num v = true) rest →
  ∃ m, py_max_from cur rest = Ok (VNum m).
Proof.
  revert cur. induction rest as [|x rest IH]; intros cur Hcur Hrest; simpl.
  - apply is_num_inv in Hcur as [q ->]. eauto.
  - apply Forall_cons in Hrest as [Hx Hrest].
    apply is_num_inv in Hcur as [qc ->]. apply is_num_inv in Hx as [qx ->].
    simpl. apply IH; [by destruct (Qgtb qx qc) | done].
Qed.

Lemma py_max_from_Raise_inv (cur : pyval) (rest : list pyval) (e : exn) :
  py_max_from cur rest = Raise e → is_type_error e = true.
Proof.
  revert cur. induction rest as [|x rest IH]; intros cur; simpl; [done|].
  intros [Hgt|(b & _ & Hmax)]%bind_Raise_inv; [by eapply py_gt_Raise_inv | eauto].
Qed.

Lemma counter_max_num (metrics : dict (dict pyval)) (c : string) (m : Q) :
  metrics ≠ [] → counter_max metrics c = Ok (VNum m) →
  (∀ name data, (name, data) ∈ metrics →
     ∃ q, raw_counter data c = VNum q ∧ q <= m) ∧
  (∃ name data, (name, data) ∈ metrics ∧ raw_counter data c = VNum m).
Proof.
  unfold counter_max, values. destruct metrics as [|[n0 d0] metrics]; [done|].
  intros _. rewrite !fmap_cons. simpl.
  intros [Hall Hin]%py_max_from_num.
  apply Forall_cons in Hall as [H0 Hall].
  rewrite <- list_fmap_compose in Hall, Hin.
  rewrite Forall_fmap, Forall_forall in Hall.
  split.
  - intros name data [[= -> ->]|Hd]%elem_of_cons; [done | apply (Hall _ Hd)].
  - apply elem_of_cons in Hin as [Heq|Hin].
    + exists n0, d0. split; [apply elem_of_cons; auto | done].
    + apply list_elem_of_fmap in Hin as ([name data] & Heq & Hd).
      exists name, data. split; [apply elem_of_cons; auto | done].
Qed.

Lemma counter_max_Raise_inv (metrics : dict (dict pyval)) (c : string) (e : exn) :
  counter_max metrics c = Raise e → is_type_error e = true.
Proof.
  unfold counter_max, py_max. destruct (_ <$> values metrics); [done|].
  apply py_max_from_Raise_inv.
Qed.

(** ** Scaling and scoring one member *)

Lemma scale_num (r m : Q) : scale (VNum r) (VNum m) = Ok (scaled r m).
Proof.
  unfold scale, scaled. simpl. destruct (Qgtb m 0) eqn:E; [|done].
  apply Qgtb_true in E. simpl. destruct (Qeq_bool m 0) eqn:E0; [|done].
  apply Qeq_bool_iff in E0. lra.
Qed.

Lemma scale_Ok_inv (raw mx : pyval) (s : Q) :
  scale raw mx = Ok s →
  ∃ m, mx = VNum m ∧
       if Qgtb m 0 then ∃ r, raw = VNum r ∧ s = r / m * 100 else s = 0.
Proof.
  unfold scale. intros (b & Hgt & Hs)%bind_Ok_inv.
  apply py_gt_Ok_inv in Hgt as [(m & z & -> & [= <-] & ->)|(? & ? & _ & [=] & _)].
  exists m. split; [done|]. destruct (Qgtb m 0); [|by injection Hs].
  apply bind_Ok_inv in Hs as (q & Hdiv & [= <-]).
  destruct raw as [r| |]; simpl in Hdiv; try done.
  destruct (Qeq_bool m 0); [done|]. injection Hdiv as <-. eauto.
Qed.

Lemma scale_Raise_inv (raw mx : pyval) (e : exn) :
  scale raw mx = Raise e → is_type_error e = true.
Proof.
  unfold scale. intros [Hgt|(b & Hgt & Hs)]%bind_Raise_inv;
    [by eapply py_gt_Raise_inv|].
  apply py_gt_Ok_inv in Hgt as [(m & z & -> & [= <-] & ->)|(? & ? & _ & [=] & _)].
  destruct (Qgtb m 0) eqn:E; [|done]. apply Qgtb_true in E.
  apply bind_Raise_inv in Hs as [Hdiv|(q & _ & [=])].
  by eapply py_div_Raise_inv.
Qed.

Lemma score_member_Ok_inv (weights : dict Q) (mi mp mr : pyval)
    (data : dict pyval) (record : dict Q) :
  score_member weights mi mp mr data = Ok record →
  ∃ items_score prs_score reviews_score,
    scale (raw_counter data "items_completed") mi = Ok items_score ∧
    scale (raw_counter data "prs_authored") mp = Ok prs_score ∧
    scale (raw_counter data "code_reviews") mr = Ok reviews_score ∧
    record =
      [("items_score", items_score);
       ("prs_score", prs_score);
       ("reviews_score", reviews_score);
       ("items_weighted",
        items_score * dict_get_or weights "items_completed" (1 # 2));
       ("prs_weighted", prs_score * dict_get_or weights "prs_authored" (3 # 10));
       ("reviews_weighted",
        reviews_score * dict_get_or weights "code_reviews" (2 # 10));
       ("total",
        items_score * dict_get_or weights "items_completed" (1 # 2)
        + prs_score * dict_get_or weights "prs_authored" (3 # 10)
        + reviews_score * dict_get_or weights "code_reviews" (2 # 10))].
Proof.
  unfold score_member.
  intros (s1 & H1 & (s2 & H2 & (s3 & H3 & [= <-])%bind_Ok_inv)%bind_Ok_inv)%bind_Ok_inv.
  by exists s1, s2, s3.
Qed.

Lemma score_member_Raise_inv (weights : dict Q) (mi mp mr : pyval)
    (data : dict pyval) (e : exn) :
  score_member weights mi mp mr data = Raise e → is_type_error e = true.
Proof.
  unfold score_member.
  intros [H|(s1 & _ & [H|(s2 & _ & [H|(s3 & _ & [=])]%bind_Raise_inv)]%bind_Raise_inv)]%bind_Raise_inv;
    by eapply scale_Raise_inv.
Qed.

Lemma score_member_total (weights : dict Q) (mi mp mr : Q) (data : dict pyval) :
  is_num (raw_counter data "items_completed") = true →
  is_num (raw_counter data "prs_authored") = true →
  is_num (raw_counter data "code_reviews") = true →
  ∃ record, score_member weights (VNum mi) (VNum mp) (VNum mr) data = Ok record.
Proof.
  intros [q1 H1]%is_num_inv [q2 H2]%is_num_inv [q3 H3]%is_num_inv.
  unfold score_member. rewrite H1, H2, H3, !scale_num. simpl. eauto.
Qed.

(** ** The loop over the members *)

Lemma score_loop_Ok_inv (weights : dict Q) (mi mp mr : pyval)
    (items : list (string * dict pyval)) (acc scores : dict (dict Q)) :
  score_loop weights mi mp mr items acc = Ok scores →
  ∃ outs, Forall2 (scored_as weights mi mp mr) items outs ∧
          scores = fill fst snd outs acc.
Proof.
  revert acc. induction items as [|[name data] items IH]; intros acc; simpl.
  - intros [= <-]. exists []. split; [constructor | done].
  - intros (record & Hrec & Hloop)%bind_Ok_inv.
    apply IH in Hloop as (outs & Hall & ->).
    exists ((name, record) :: outs). split; [|done].
    constructor; [by split | done].
Qed.

Lemma score_loop_Raise_inv (weights : dict Q) (mi mp mr : pyval)
    (items : list (string * dict pyval)) (acc : dict (dict Q)) (e : exn) :
  score_loop weights mi mp mr items acc = Raise e → is_type_error e = true.
Proof.
  revert acc. induction items as [|[name data] items IH]; intros acc; simpl; [done|].
  intros [H|(record & _ & H)]%bind_Raise_inv;
    [by eapply score_member_Raise_inv | eauto].
Qed.

Lemma score_loop_total (weights : dict Q) (mi mp mr : pyval)
    (items : list (string * dict pyval)) (acc : dict (dict Q)) :
  Forall (λ item, ∃ record, score_member weights mi mp mr item.2 = Ok record) items →
  ∃ scores, score_loop weights mi mp mr items acc = Ok scores.
Proof.
  revert acc. induction items as [|[name data] items IH]; intros acc Hall; simpl.
  - eauto.
  - apply Forall_cons in Hall as [[record Hrec] Hall]. simpl in Hrec.
    rewrite Hrec. simpl. by apply IH.
Qed.

(** ** calculate_scores as a whole *)

Lemma numeric_member_inv (data : dict pyval) :
  numeric_member data = true ↔
  is_num (raw_counter data "items_completed") = true ∧
  is_num (raw_counter data "prs_authored") = true ∧
  is_num (raw_counter data "code_reviews") = true.
Proof.
  unfold numeric_member, counters. simpl. rewrite !andb_true_iff. tauto.
Qed.

Lemma numeric_metrics_elem (metrics : dict (dict pyval)) :
  numeric_metrics metrics = true ↔
  ∀ name data, (name, data) ∈ metrics → numeric_member data = true.
Proof.
  unfold numeric_metrics. rewrite forallb_forall. split.
  - intros H name data Hin. by apply (H (name, data)), list_elem_of_In.
  - intros H [name data] Hin. by apply (H name), list_elem_of_In.
Qed.

Lemma counter_max_total (metrics : dict (dict pyval)) (c : string) :
  (∀ name data, (name, data) ∈ metrics → is_num (raw_counter data c) = true) →
  ∃ m, counter_max metrics c = Ok (VNum m).
Proof.
  intros Hnum. unfold counter_max, values.
  destruct metrics as [|[n0 d0] metrics]; simpl; [eauto|].
  apply py_max_from_total.
  - apply (Hnum n0), elem_of_cons. auto.
  - rewrite <- list_fmap_compose, Forall_fmap, Forall_forall.
    intros [name data] Hin. apply (Hnum name), elem_of_cons. auto.
Qed.

Lemma Forall2_scored_l (weights : dict Q) (mi mp mr : pyval)
    (items : list (string * dict pyval)) (outs : list (string * dict Q)) item :
  Forall2 (scored_as weights mi mp mr) items outs → item ∈ items →
  ∃ out, out ∈ outs ∧ scored_as weights mi mp mr item out.
Proof.
  induction 1 as [|x y items outs Hxy _ IH]; intros Hin.
  - by apply elem_of_nil in Hin.
  - apply elem_of_cons in Hin as [->|Hin].
    + exists y. split; [apply elem_of_cons; auto | done].
    + destruct (IH Hin) as (out & Hout & Hs).
      exists out. split; [apply elem_of_cons; auto | done].
Qed.

Lemma Forall2_scored_r (weights : dict Q) (mi mp mr : pyval)
    (items : list (string * dict pyval)) (outs : list (string * dict Q)) out :
  Forall2 (scored_as weights mi mp mr) items outs → out ∈ outs →
  ∃ item, item ∈ items ∧ scored_as weights mi mp mr item out.
Proof.
  induction 1 as [|x y items outs Hxy _ IH]; intros Hin.
  - by apply elem_of_nil in Hin.
  - apply elem_of_cons in Hin as [->|Hin].
    + exists x. split; [apply elem_of_cons; auto | done].
    + destruct (IH Hin) as (item & Hitem & Hs).
      exists item. split; [apply elem_of_cons; auto | done].
Qed.

Lemma Forall2_scored_keys (weights : dict Q) (mi mp mr : pyval)
    (items : list (string * dict pyval)) (outs : list (string * dict Q)) :
  Forall2 (scored_as weights mi mp mr) items outs → outs.*1 = items.*1.
Proof.
  induction 1 as [|x y items outs [Hxy _] _ IH]; [done|].
  rewrite !fmap_cons. by f_equal.
Qed.

(** What a successful run looks like: the three maxima are numbers and the
    result is the dictionary filled with one record per member. *)
Lemma calculate_scores_Ok_inv (raw : raw_data) (cfg : config)
    (scores : dict (dict Q)) :
  calculate_scores raw cfg = Ok scores →
  get_metrics raw ≠ [] →
  ∃ mi mp mr outs,
    counter_max (get_metrics raw) "items_completed" = Ok (VNum mi) ∧
    counter_max (get_metrics raw) "prs_authored" = Ok (VNum mp) ∧
    counter_max (get_metrics raw) "code_reviews" = Ok (VNum mr) ∧
    Forall2 (scored_as (normalize_weights (get_weights cfg))
               (VNum mi) (VNum mp) (VNum mr)) (get_metrics raw) outs ∧
    scores = fill fst snd outs [].
Proof.
  unfold calculate_scores.
  destruct (get_metrics raw) as [|[n0 d0] metrics] eqn:Hm; [done|].
  intros (mi & Hmi & (mp & Hmp & (mr & Hmr & Hloop)%bind_Ok_inv)%bind_Ok_inv)%bind_Ok_inv _.
  apply score_loop_Ok_inv in Hloop as (outs & Hall & ->).
  assert (∃ qi qp qr, mi = VNum qi ∧ mp = VNum qp ∧ mr = VNum qr)
    as (qi & qp & qr & -> & -> & ->).
  { inversion Hall as [|? out ? ? [_ Hrec] _]; subst.
    apply score_member_Ok_inv in Hrec as (? & ? & ? & H1 & H2 & H3 & _).
    apply scale_Ok_inv in H1 as (qi & -> & _).
    apply scale_Ok_inv in H2 as (qp & -> & _).
    apply scale_Ok_inv in H3 as (qr & -> & _). by exists qi, qp, qr. }
  by exists qi, qp, qr, outs.
Qed.

Lemma calculate_scores_member (raw : raw_data) (cfg : config)
    (scores : dict (dict Q)) (name : string) (record : dict Q) :
  calculate_scores raw cfg = Ok scores →
  dict_get scores name = Some record →
  ∃ data mi mp mr,
    (name, data) ∈ get_metrics raw ∧
    counter_max (get_metrics raw) "items_completed" = Ok (VNum mi) ∧
    counter_max (get_metrics raw) "prs_authored" = Ok (VNum mp) ∧
    counter_max (get_metrics raw) "code_reviews" = Ok (VNum mr) ∧
    score_member (normalize_weights (get_weights cfg))
      (VNum mi) (VNum mp) (VNum mr) data = Ok record.
Proof.
  intros Hcalc Hget.
  assert (get_metrics raw ≠ []) as Hne.
  { intros Hnil. unfold calculate_scores in Hcalc. rewrite Hnil in Hcalc.
    injection Hcalc as <-. done. }
  destruct (calculate_scores_Ok_inv _ _ _ Hcalc Hne)
    as (mi & mp & mr & outs & Hmi & Hmp & Hmr & Hall & ->).
  apply fill_get_inv in Hget as [([n r] & Hin & Hn & Hr)|Hget]; [|done].
  simpl in *. subst.
  destruct (Forall2_scored_r _ _ _ _ _ _ _ Hall Hin) as ([n data] & Hd & Hk & Hrec).
  simpl in *. subst. by exists data, mi, mp, mr.
Qed.

Lemma calculate_scores_lookup (raw : raw_data) (cfg : config)
    (scores : dict (dict Q)) (name : string) (data : dict pyval) :
  NoDup (keys (get_metrics raw)) →
  calculate_scores raw cfg = Ok scores →
  dict_get (get_metrics raw) name = Some data →
  ∃ record mi mp mr,
    dict_get scores name = Some record ∧
    counter_max (get_metrics raw) "items_completed" = Ok (VNum mi) ∧
    counter_max (get_metrics raw) "prs_authored" = Ok (VNum mp) ∧
    counter_max (get_metrics raw) "code_reviews" = Ok (VNum mr) ∧
    score_member (normalize_weights (get_weights cfg))
      (VNum mi) (VNum mp) (VNum mr) data = Ok record.
Proof.
  intros Hnd Hcalc Hget.
  assert (get_metrics raw ≠ []) as Hne by (by intros Hnil; rewrite Hnil in Hget).
  destruct (calculate_scores_Ok_inv _ _ _ Hcalc Hne)
    as (mi & mp & mr & outs & Hmi & Hmp & Hmr & Hall & ->).
  apply dict_get_elem in Hget.
  destruct (Forall2_scored_l _ _ _ _ _ _ _ Hall Hget) as ([n r] & Hin & Hk & Hrec).
  simpl in *. subst. exists r, mi, mp, mr. split_and!; try done.
  apply (fill_get_elem fst snd outs [] (name, r)); [|done].
  by rewrite (Forall2_scored_keys _ _ _ _ _ _ Hall).
Qed.

(** A run on numeric counters returns; a run that returns had numeric
    counters; a run that raises raises a [TypeError]. *)
Lemma calculate_scores_total (raw : raw_data) (cfg : config) :
  numeric_metrics (get_metrics raw) = true →
  ∃ scores, calculate_scores raw cfg = Ok scores.
Proof.
  intros Hnum. rewrite numeric_metrics_elem in Hnum.
  destruct (counter_max_total (get_metrics raw) "items_completed") as [mi Hmi].
  { intros name data Hin. by apply (Hnum name), numeric_member_inv in Hin as (? & ? & ?). }
  destruct (counter_max_total (get_metrics raw) "prs_authored") as [mp Hmp].
  { intros name data Hin. by apply (Hnum name), numeric_member_inv in Hin as (? & ? & ?). }
  destruct (counter_max_total (get_metrics raw) "code_reviews") as [mr Hmr].
  { intros name data Hin. by apply (Hnum name), numeric_member_inv in Hin as (? & ? & ?). }
  unfold calculate_scores.
  destruct (get_metrics raw) as [|item metrics]; [eauto|].
  rewrite Hmi, Hmp, Hmr. cbn [bind].
  apply score_loop_total, Forall_forall. intros [name data] Hin.
  apply (Hnum name), numeric_member_inv in Hin as (? & ? & ?).
  by apply score_member_total.
Qed.

Lemma calculate_scores_Ok_numeric (raw : raw_data) (cfg : config)
    (scores : dict (dict Q)) :
  calculate_scores raw cfg = Ok scores → numeric_metrics (get_metrics raw) = true.
Proof.
  intros Hcalc. destruct (decide (get_metrics raw = [])) as [->|Hne]; [done|].
  destruct (calculate_scores_Ok_inv _ _ _ Hcalc Hne)
    as (mi & mp & mr & outs & Hmi & Hmp & Hmr & _).
  apply (counter_max_num _ _ _ Hne) in Hmi as [Hmi _].
  apply (counter_max_num _ _ _ Hne) in Hmp as [Hmp _].
  apply (counter_max_num _ _ _ Hne) in Hmr as [Hmr _].
  apply numeric_metrics_elem. intros name data Hin. apply numeric_member_inv.
  destruct (Hmi _ _ Hin) as (? & -> & _), (Hmp _ _ Hin) as (? & -> & _),
    (Hmr _ _ Hin) as (? & -> & _). done.
Qed.

Lemma calculate_scores_Raise_inv (raw : raw_data) (cfg : config) (e : exn) :
  calculate_scores raw cfg = Raise e → is_type_error e = true.
Proof.
  unfold calculate_scores. destruct (get_metrics raw) as [|item metrics]; [done|].
  intros [H|(mi & _ & [H|(mp & _ & [H|(mr & _ & H)]%bind_Raise_inv)]%bind_Raise_inv)]%bind_Raise_inv;
    try by eapply counter_max_Raise_inv.
  by eapply score_loop_Raise_inv.
Qed.

Lemma calculate_scores_record (raw : raw_data) (cfg : config)
    (scores : dict (dict Q)) (name : string) (record : dict Q) :
  calculate_scores raw cfg = Ok scores →
  dict_get scores name = Some record →
  ∃ data mi mp mr qi qp qr,
    (name, data) ∈ get_metrics raw ∧
    counter_max (get_metrics raw) "items_completed" = Ok (VNum mi) ∧
    counter_max (get_metrics raw) "prs_authored" = Ok (VNum mp) ∧
    counter_max (get_metrics raw) "code_reviews" = Ok (VNum mr) ∧
    raw_counter data "items_completed" = VNum qi ∧
    raw_counter data "prs_authored" = VNum qp ∧
    raw_counter data "code_reviews" = VNum qr ∧
    (qi <= mi ∧ qp <= mp ∧ qr <= mr) ∧
    record = score_record (normalize_weights (get_weights cfg))
               (scaled qi mi) (scaled qp mp) (scaled qr mr).
Proof.
  intros Hcalc Hget.
  destruct (calculate_scores_member _ _ _ _ _ Hcalc Hget)
    as (data & mi & mp & mr & Hin & Hmi & Hmp & Hmr & Hrec).
  assert (get_metrics raw ≠ []) as Hne.
  { intros Hnil. rewrite Hnil in Hin. by apply elem_of_nil in Hin. }
  destruct (counter_max_num _ _ _ Hne Hmi) as [Hi _].
  destruct (counter_max_num _ _ _ Hne Hmp) as [Hp _].
  destruct (counter_max_num _ _ _ Hne Hmr) as [Hr _].
  destruct (Hi _ _ Hin) as (qi & Hqi & ?), (Hp _ _ Hin) as (qp & Hqp & ?),
    (Hr _ _ Hin) as (qr & Hqr & ?).
  exists data, mi, mp, mr, qi, qp, qr. split_and!; try done.
  unfold score_member in Hrec. rewrite Hqi, Hqp, Hqr, !scale_num in Hrec.
  simpl in Hrec. by injection Hrec as <-.
Qed.

(** With unique member names the record of a member is computed from that
    member's own counters. *)
Lemma calculate_scores_record_of (raw : raw_data) (cfg : config)
    (scores : dict (dict Q)) (name : string) (data : dict pyval) :
  NoDup (keys (get_metrics raw)) →
  calculate_scores raw cfg = Ok scores →
  dict_get (get_metrics raw) name = Some data →
  ∃ mi mp mr qi qp qr,
    counter_max (get_metrics raw) "items_completed" = Ok (VNum mi) ∧
    counter_max (get_metrics raw) "prs_authored" = Ok (VNum mp) ∧
    counter_max (get_metrics raw) "code_reviews" = Ok (VNum mr) ∧
    raw_counter data "items_completed" = VNum qi ∧
    raw_counter data "prs_authored" = VNum qp ∧
    raw_counter data "code_reviews" = VNum qr ∧
    (qi <= mi ∧ qp <= mp ∧ qr <= mr) ∧
    dict_get scores name =
      Some (score_record (normalize_weights (get_weights cfg))
              (scaled qi mi) (scaled qp mp) (scaled qr mr)).
Proof.
  intros Hnd Hcalc Hget.
  destruct (calculate_scores_lookup _ _ _ _ _ Hnd Hcalc Hget)
    as (record & _ & _ & _ & Hrec & _).
  destruct (calculate_scores_record _ _ _ _ _ Hcalc Hrec)
    as (data' & mi & mp & mr & qi & qp & qr & Hin & Hmi & Hmp & Hmr
        & Hqi & Hqp & Hqr & Hle & ->).
  apply (elem_dict_get _ _ _ Hnd) in Hin.
  rewrite Hget in Hin. injection Hin as <-.
  by exists mi, mp, mr, qi, qp, qr.
Qed.

Lemma calculate_scores_keys (raw : raw_data) (cfg : config)
    (scores : dict (dict Q)) (name : string) :
  calculate_scores raw cfg = Ok scores →
  name ∈ keys scores ↔ name ∈ keys (get_metrics raw).
Proof.
  intros Hcalc. destruct (decide (get_metrics raw = [])) as [Hnil|Hne].
  - unfold calculate_scores in Hcalc. rewrite Hnil in *. by injection Hcalc as <-.
  - destruct (calculate_scores_Ok_inv _ _ _ Hcalc Hne)
      as (mi & mp & mr & outs & _ & _ & _ & Hall & ->).
    rewrite elem_keys_fill, (Forall2_scored_keys _ _ _ _ _ _ Hall).
    unfold keys. rewrite elem_of_nil. tauto.
Qed.

Lemma scaled_pos (q m : Q) : 0 < m → scaled q m = q / m * 100.
Proof. intros Hm. unfold scaled. by apply Qgtb_true in Hm as ->. Qed.

Lemma scaled_nonpos (q m : Q) : m <= 0 → scaled q m = 0.
Proof. intros Hm. unfold scaled. by apply Qgtb_false in Hm as ->. Qed.

Lemma scaled_at_max (q m : Q) : 0 < m → q == m → scaled q m == 100.
Proof. intros Hm Hq. rewrite scaled_pos by done. rewrite Hq. field. lra. Qed.

(** * The claims about calculate_scores *)

(** C10: every record produced by [calculate_scores] stores, as its total,
    the sum of its three weighted fields, and each weighted field is the
    component score times the effective weight of its counter. *)
Theorem C10_total_is_sum_of_weighted (raw : raw_data) (cfg : config)
    (scores : dict (dict Q)) (name : string) (record : dict Q) :
  calculate_scores raw cfg = Ok scores →
  dict_get scores name = Some record →
  ∃ items_score prs_score reviews_score items_weighted prs_weighted reviews_weighted,
    dict_get record "items_score" = Some items_score ∧
    dict_get record "prs_score" = Some prs_score ∧
    dict_get record "reviews_score" = Some reviews_score ∧
    dict_get record "items_weighted" = Some items_weighted ∧
    dict_get record "prs_weighted" = Some prs_weighted ∧
    dict_get record "reviews_weighted" = Some reviews_weighted ∧
    items_weighted = items_score * effective_weight cfg "items_completed" (1 # 2) ∧
    prs_weighted = prs_score * effective_weight cfg "prs_authored" (3 # 10) ∧
    reviews_weighted = reviews_score * effective_weight cfg "code_reviews" (2 # 10) ∧
    dict_get record "total" = Some (items_weighted + prs_weighted + reviews_weighted).
Proof.
  intros Hcalc Hget.
  destruct (calculate_scores_record _ _ _ _ _ Hcalc Hget)
    as (data & mi & mp & mr & qi & qp & qr & _ & _ & _ & _ & _ & _ & _ & _ & ->).
  eexists _, _, _, _, _, _. split_and!; reflexivity.
Qed.

(** Alice's record in the end-to-end scenario. *)
Lemma C10_total_is_sum_of_weighted_witness :
  calculate_scores (raw_of team_metrics) (config_of team_weights) = Ok team_scores ∧
  dict_get team_scores "Alice" = Some alice_record ∧
  ∃ items_score prs_score reviews_score items_weighted prs_weighted reviews_weighted,
    dict_get alice_record "items_score" = Some items_score ∧
    dict_get alice_record "prs_score" = Some prs_score ∧
    dict_get alice_record "reviews_score" = Some reviews_score ∧
    dict_get alice_record "items_weighted" = Some items_weighted ∧
    dict_get alice_record "prs_weighted" = Some prs_weighted ∧
    dict_get alice_record "reviews_weighted" = Some reviews_weighted ∧
    items_weighted
      = items_score * effective_weight (config_of team_weights) "items_completed" (1 # 2) ∧
    prs_weighted
      = prs_score * effective_weight (config_of team_weights) "prs_authored" (3 # 10) ∧
    reviews_weighted
      = reviews_score * effective_weight (config_of team_weights) "code_reviews" (2 # 10) ∧
    dict_get alice_record "total"
      = Some (items_weighted + prs_weighted + reviews_weighted).
Proof.
  split; [reflexivity|]. split; [reflexivity|].
  apply (C10_total_is_sum_of_weighted (raw_of team_metrics) (config_of team_weights)
           team_scores "Alice" alice_record); reflexivity.
Defined.

Lemma score_fields_inv (c f : string) :
  (c, f) ∈ score_fields →
  (c = "items_completed" ∧ f = "items_score") ∨
  (c = "prs_authored" ∧ f = "prs_score") ∨
  (c = "code_reviews" ∧ f = "reviews_score").
Proof.
  unfold score_fields. rewrite !elem_of_cons, elem_of_nil.
  intros [[= -> ->]|[[= -> ->]|[[= -> ->]|[]]]]; auto.
Qed.

(** C2 (as amended): with unique member names, each member's component score
    is [raw / team_max * 100] when the team maximum of the counter is
    positive and [0] otherwise; a member whose raw value is the team maximum
    scores [100] on that counter when the maximum is positive. *)
Theorem C2_scaled_component (raw : raw_data) (cfg : config)
    (scores : dict (dict Q)) (name : string) (data : dict pyval) (c f : string) :
  NoDup (keys (get_metrics raw)) →
  calculate_scores raw cfg = Ok scores →
  dict_get (get_metrics raw) name = Some data →
  (c, f) ∈ score_fields →
  ∃ record team_max value score,
    dict_get scores name = Some record ∧
    counter_max (get_metrics raw) c = Ok (VNum team_max) ∧
    raw_counter data c = VNum value ∧
    value <= team_max ∧
    dict_get record f = Some score ∧
    (0 < team_max → score = value / team_max * 100) ∧
    (team_max <= 0 → score = 0) ∧
    (0 < team_max → value == team_max → score == 100).
Proof.
  intros Hnd Hcalc Hget Hcf.
  destruct (calculate_scores_record_of _ _ _ _ _ Hnd Hcalc Hget)
    as (mi & mp & mr & qi & qp & qr & Hmi & Hmp & Hmr & Hqi & Hqp & Hqr
        & (Hli & Hlp & Hlr) & Hrec).
  apply score_fields_inv in Hcf as [[-> ->]|[[-> ->]|[-> ->]]].
  - exists (score_record (normalize_weights (get_weights cfg))
              (scaled qi mi) (scaled qp mp) (scaled qr mr)), mi, qi, (scaled qi mi).
    split_and!; try done;
      [apply scaled_pos | apply scaled_nonpos | apply scaled_at_max].
  - exists (score_record (normalize_weights (get_weights cfg))
              (scaled qi mi) (scaled qp mp) (scaled qr mr)), mp, qp, (scaled qp mp).
    split_and!; try done;
      [apply scaled_pos | apply scaled_nonpos | apply scaled_at_max].
  - exists (score_record (normalize_weights (get_weights cfg))
              (scaled qi mi) (scaled qp mp) (scaled qr mr)), mr, qr, (scaled qr mr).
    split_and!; try done;
      [apply scaled_pos | apply scaled_nonpos | apply scaled_at_max].
Qed.

(** Alice's pull-request score in the end-to-end scenario. *)
Lemma C2_scaled_component_witness :
  ∃ record team_max value score,
    dict_get team_scores "Alice" = Some record ∧
    counter_max (get_metrics (raw_of team_metrics)) "prs_authored"
      = Ok (VNum team_max) ∧
    raw_counter alice_data "prs_authored" = VNum value ∧
    value <= team_max ∧
    dict_get record "prs_score" = Some score ∧
    (0 < team_max → score = value / team_max * 100) ∧
    (team_max <= 0 → score = 0) ∧
    (0 < team_max → value == team_max → score == 100).
Proof.
  apply (C2_scaled_component (raw_of team_metrics) (config_of team_weights)
           team_scores "Alice" alice_data "prs_authored" "prs_score").
  - apply (bool_decide_unpack _). reflexivity.
  - reflexivity.
  - reflexivity.
  - apply (bool_decide_unpack _). reflexivity.
Defined.

(** C2, counterexample: in the all-zero team Alice holds the largest raw
    value of [items_completed] (it is the team maximum, 0), and her scaled
    value for that counter is 0, not 100. *)
Lemma C2_counterexample :
  calculate_scores (raw_of zero_metrics) (config_of team_weights) = Ok zero_scores ∧
  counter_max zero_metrics "items_completed" = Ok (VNum 0) ∧
  raw_counter zero_data "items_completed" = VNum 0 ∧
  dict_get zero_metrics "Alice" = Some zero_data ∧
  (dict_get zero_scores "Alice" ≫= λ record, dict_get record "items_score") = Some 0 ∧
  ¬ 0 == 100.
Proof. split_and!; try reflexivity. intros H. discriminate H. Qed.

Lemma all_zero_elem (metrics : dict (dict pyval)) (c : string) name data :
  all_zero metrics c = true → (name, data) ∈ metrics →
  ∃ q, raw_counter data c = VNum q ∧ q == 0.
Proof.
  unfold all_zero. rewrite forallb_forall. intros H Hin.
  apply list_elem_of_In, H in Hin. simpl in Hin.
  destruct (raw_counter data c) as [q| |]; try done.
  exists q. split; [done | by apply Qeq_bool_iff].
Qed.

Lemma all_zero_max (metrics : dict (dict pyval)) (c : string) (m : Q) :
  metrics ≠ [] → all_zero metrics c = true →
  counter_max metrics c = Ok (VNum m) → m <= 0.
Proof.
  intros Hne Hzero Hmax.
  destruct (counter_max_num _ _ _ Hne Hmax) as [_ (name & data & Hin & Hraw)].
  destruct (all_zero_elem _ _ _ _ Hzero Hin) as (q & Hq & Hq0).
  rewrite Hraw in Hq. injection Hq as ->. lra.
Qed.

(** C8: no run of [calculate_scores] raises [ZeroDivisionError]; and when
    every member has 0 for a counter (all counters being numbers), the run
    returns and every member's scaled value for that counter is 0. *)
Theorem C8_zero_max_guard :
  (∀ raw cfg, calculate_scores raw cfg ≠ Raise ZeroDivisionError) ∧
  (∀ raw cfg c f,
     (c, f) ∈ score_fields →
     numeric_metrics (get_metrics raw) = true →
     all_zero (get_metrics raw) c = true →
     ∃ scores,
       calculate_scores raw cfg = Ok scores ∧
       ∀ name, name ∈ keys (get_metrics raw) →
         ∃ record, dict_get scores name = Some record ∧
                   dict_get record f = Some 0).
Proof.
  split.
  - intros raw cfg H. by apply calculate_scores_Raise_inv in H.
  - intros raw cfg c f Hcf Hnum Hzero.
    destruct (calculate_scores_total raw cfg Hnum) as [scores Hcalc].
    exists scores. split; [done|]. intros name Hname.
    apply (calculate_scores_keys _ _ _ _ Hcalc), dict_get_is_Some in Hname
      as [record Hrec].
    exists record. split; [done|].
    destruct (calculate_scores_record _ _ _ _ _ Hcalc Hrec)
      as (data & mi & mp & mr & qi & qp & qr & Hin & Hmi & Hmp & Hmr & _ & _ & _ & _ & ->).
    assert (get_metrics raw ≠ []) as Hne.
    { intros Hnil. rewrite Hnil in Hin. by apply elem_of_nil in Hin. }
    apply score_fields_inv in Hcf as [[-> ->]|[[-> ->]|[-> ->]]]; simpl; f_equal;
      apply scaled_nonpos; by eapply all_zero_max.
Qed.

(** The all-zero team, counter [prs_authored]. *)
Lemma C8_zero_max_guard_witness :
  ∃ scores,
    calculate_scores (raw_of zero_metrics) (config_of team_weights) = Ok scores ∧
    ∀ name, name ∈ keys (get_metrics (raw_of zero_metrics)) →
      ∃ record, dict_get scores name = Some record ∧
                dict_get record "prs_score" = Some 0.
Proof.
  apply (proj2 C8_zero_max_guard (raw_of zero_metrics) (config_of team_weights)
           "prs_authored" "prs_score").
  - apply (bool_decide_unpack _). reflexivity.
  - reflexivity.
  - reflexivity.
Defined.




(** * Weight normalization *)












(** At the tolerance itself floating point decides.  The doubles nearest to
    1.01 and to 0.99 are further from 1 than the double nearest to 0.01, so
    the code divides weights whose doubles add up to them, such as 0.5, 0.3
    and 0.21 added from left to right; the exact comparison leaves these
    weights alone.  Sums of 1.005 and of 2 are decided alike. *)
Example guard_at_the_tolerance :
  Binary64.add (Binary64.add (Binary64.of_Q (1 # 2)) (Binary64.of_Q (3 # 10)))
    (Binary64.of_Q (21 # 100))
  = Binary64.of_Q (101 # 100) ∧
  Binary64.needs_normalizing (Binary64.of_Q (101 # 100)) = true ∧
  Binary64.needs_normalizing (Binary64.of_Q (99 # 100)) = true ∧
  normalize_weights boundary_weights = boundary_weights ∧
  Binary64.needs_normalizing (Binary64.of_Q (1005 # 1000)) = false ∧
  normalize_weights near_one_weights = near_one_weights ∧
  Binary64.needs_normalizing (Binary64.of_Q 2) = true ∧
  normalize_weights double_weights ≠ double_weights.
Proof. split_and!; try (vm_compute; reflexivity). intros H. discriminate H. Qed.

(** * The member at the team maximum *)








(** * calculate_component_contributions *)

Lemma calculate_scores_NoDup (raw : raw_data) (cfg : config)
    (scores : dict (dict Q)) :
  calculate_scores raw cfg = Ok scores → NoDup (keys scores).
Proof.
  intros Hcalc. destruct (decide (get_metrics raw = [])) as [Hnil|Hne].
  - unfold calculate_scores in Hcalc. rewrite Hnil in Hcalc.
    injection Hcalc as <-. apply NoDup_nil_2.
  - destruct (calculate_scores_Ok_inv _ _ _ Hcalc Hne)
      as (mi & mp & mr & outs & _ & _ & _ & _ & ->).
    apply NoDup_keys_fill, NoDup_nil_2.
Qed.

Lemma contributions_get (scores : dict (dict Q)) (name : string) (data : dict Q) :
  NoDup (keys scores) → dict_get scores name = Some data →
  dict_get (calculate_component_contributions scores) name
    = Some (contribution data).
Proof.
  intros Hnd Hget. apply dict_get_elem in Hget.
  apply (fill_get_elem fst (λ kv, contribution kv.2) scores [] (name, data) Hnd Hget).
Qed.

Lemma contribution_pos (data : dict Q) :
  0 < dict_get_or data "total" 0 →
  contribution data
    = [("items_pct",
        dict_get_or data "items_weighted" 0 / dict_get_or data "total" 0 * 100);
       ("prs_pct",
        dict_get_or data "prs_weighted" 0 / dict_get_or data "total" 0 * 100);
       ("reviews_pct",
        dict_get_or data "reviews_weighted" 0 / dict_get_or data "total" 0 * 100)].
Proof. intros H. unfold contribution. by apply Qgtb_true in H as ->. Qed.

Lemma contribution_nonpos (data : dict Q) :
  dict_get_or data "total" 0 <= 0 →
  contribution data = [("items_pct", 0); ("prs_pct", 0); ("reviews_pct", 0)].
Proof. intros H. unfold contribution. by apply Qgtb_false in H as ->. Qed.

(** C5: for a member of a score mapping with unique names, the
    contributions are [weighted / total * 100] per counter when the total is
    positive and are all 0 when the total is 0; for a record produced by
    [calculate_scores] with a positive total the three percentages sum to
    100. *)
Theorem C5_contributions :
  (∀ scores name data,
     NoDup (keys scores) → dict_get scores name = Some data →
     ∃ pcts,
       dict_get (calculate_component_contributions scores) name = Some pcts ∧
       (0 < dict_get_or data "total" 0 →
        pcts =
          [("items_pct",
            dict_get_or data "items_weighted" 0 / dict_get_or data "total" 0 * 100);
           ("prs_pct",
            dict_get_or data "prs_weighted" 0 / dict_get_or data "total" 0 * 100);
           ("reviews_pct",
            dict_get_or data "reviews_weighted" 0 / dict_get_or data "total" 0 * 100)]) ∧
       (dict_get_or data "total" 0 == 0 →
        pcts = [("items_pct", 0); ("prs_pct", 0); ("reviews_pct", 0)])) ∧
  (∀ raw cfg scores name record,
     calculate_scores raw cfg = Ok scores →
     dict_get scores name = Some record →
     0 < dict_get_or record "total" 0 →
     ∃ items_pct prs_pct reviews_pct,
       dict_get (calculate_component_contributions scores) name
         = Some [("items_pct", items_pct); ("prs_pct", prs_pct);
                 ("reviews_pct", reviews_pct)] ∧
       items_pct + prs_pct + reviews_pct == 100).
Proof.
  split.
  - intros scores name data Hnd Hget. exists (contribution data).
    split_and!.
    + by apply contributions_get.
    + apply contribution_pos.
    + intros H0. apply contribution_nonpos. lra.
  - intros raw cfg scores name record Hcalc Hget Hpos.
    rewrite (contributions_get _ _ _ (calculate_scores_NoDup _ _ _ Hcalc) Hget).
    rewrite contribution_pos by done.
    destruct (calculate_scores_record _ _ _ _ _ Hcalc Hget)
      as (data & mi & mp & mr & qi & qp & qr & _ & _ & _ & _ & _ & _ & _ & _ & ->).
    eexists _, _, _. split; [reflexivity|].
    unfold dict_get_or in *. simpl in *. field. lra.
Qed.

(** Alice's contributions in the end-to-end scenario. *)
Lemma C5_contributions_witness :
  ∃ items_pct prs_pct reviews_pct,
    dict_get (calculate_component_contributions team_scores) "Alice"
      = Some [("items_pct", items_pct); ("prs_pct", prs_pct);
              ("reviews_pct", reviews_pct)] ∧
    items_pct + prs_pct + reviews_pct == 100.
Proof.
  apply (proj2 C5_contributions (raw_of team_metrics) (config_of team_weights)
           team_scores "Alice" alice_record); reflexivity.
Defined.

(** * compare_periods *)

Lemma elem_all_names (cur prev : dict (dict Q)) (name : string) :
  name ∈ all_names cur prev ↔ name ∈ keys cur ∨ name ∈ keys prev.
Proof. unfold all_names. rewrite elem_of_union, !elem_of_list_to_set. done. Qed.

Lemma compare_periods_get (cur prev : dict (dict Q)) (name : string) :
  name ∈ keys cur ∨ name ∈ keys prev →
  dict_get (compare_periods cur prev) name = Some (compare_member cur prev name).
Proof.
  intros Hin. apply elem_all_names, elem_of_elements in Hin.
  apply (fill_get_elem (λ x, x) (compare_member cur prev) _ [] name); [|done].
  rewrite list_fmap_id. apply NoDup_elements.
Qed.

Lemma compare_periods_get_inv (cur prev : dict (dict Q)) (name : string)
    (r : trend_record) :
  dict_get (compare_periods cur prev) name = Some r →
  r = compare_member cur prev name ∧ (name ∈ keys cur ∨ name ∈ keys prev).
Proof.
  intros H.
  apply (fill_get_inv (λ x, x) (compare_member cur prev)) in H
    as [(x & Hx & -> & <-)|H]; [|done].
  split; [done|]. by apply elem_all_names, elem_of_elements.
Qed.

Lemma elem_keys_compare_periods (cur prev : dict (dict Q)) (name : string) :
  name ∈ keys (compare_periods cur prev) ↔ name ∈ keys cur ∨ name ∈ keys prev.
Proof.
  change (compare_periods cur prev)
    with (fill (λ x, x) (compare_member cur prev) (elements (all_names cur prev)) []).
  rewrite elem_keys_fill, list_fmap_id.
  rewrite elem_of_elements, elem_all_names. unfold keys at 3.
  rewrite elem_of_nil. tauto.
Qed.

Lemma trend_cases (cur prev : dict (dict Q)) (name : string) :
  let r := compare_member cur prev name in
  (trend r = "up" ↔ 1 # 2 < change r) ∧
  (trend r = "down" ↔ change r < - (1 # 2)) ∧
  (trend r = "stable" ↔ - (1 # 2) <= change r ∧ change r <= 1 # 2).
Proof.
  unfold compare_member. simpl.
  set (c := dict_get_or (dict_get_or cur name []) "total" 0
            - dict_get_or (dict_get_or prev name []) "total" 0).
  destruct (Qgtb c (1 # 2)) eqn:Hup.
  - apply Qgtb_true in Hup. split_and!; split; try done; lra.
  - apply Qgtb_false in Hup. destruct (Qgtb (- (1 # 2)) c) eqn:Hdown.
    + apply Qgtb_true in Hdown. split_and!; split; try done; lra.
    + apply Qgtb_false in Hdown. split_and!; split; try done; lra.
Qed.


(** C7: the names of the comparison are exactly the names of the current
    period together with those of the previous period; the entry of a member
    holds the total the member has in each period, and 0 for a period the
    member is absent from; a member only in the current period with a total
    above 0.5 is "up" with that total as change, a member only in the
    previous period with a total above 0.5 is "down" with the negated total
    as change. *)
Theorem C7_joiners_and_leavers (cur prev : dict (dict Q)) :
  list_to_set (keys (compare_periods cur prev))
    =@{gset string} list_to_set (keys cur) ∪ list_to_set (keys prev) ∧
  (∀ name, name ∈ keys cur ∨ name ∈ keys prev →
     ∃ r, dict_get (compare_periods cur prev) name = Some r) ∧
  (∀ name r,
     dict_get (compare_periods cur prev) name = Some r →
     (∀ record, dict_get cur name = Some record →
        current r = dict_get_or record "total" 0) ∧
     (∀ record, dict_get prev name = Some record →
        previous r = dict_get_or record "total" 0) ∧
     (name ∉ keys prev →
      previous r = 0 ∧ (1 # 2 < current r → trend r = "up") ∧
      ∀ record, dict_get cur name = Some record →
        1 # 2 < dict_get_or record "total" 0 →
        trend r = "up" ∧ change r == dict_get_or record "total" 0) ∧
     (name ∉ keys cur →
      current r = 0 ∧ (1 # 2 < previous r → trend r = "down") ∧
      ∀ record, dict_get prev name = Some record →
        1 # 2 < dict_get_or record "total" 0 →
        trend r = "down" ∧ change r == - dict_get_or record "total" 0)).
Proof.
  split_and!.
  - apply set_eq. intros name.
    rewrite elem_of_union, !elem_of_list_to_set.
    apply elem_keys_compare_periods.
  - intros name Hin. eexists. by apply compare_periods_get.
  - intros name r [-> _]%compare_periods_get_inv.
    destruct (trend_cases cur prev name) as (Hup & Hdown & _).
    assert (∀ record, dict_get cur name = Some record →
              current (compare_member cur prev name) = dict_get_or record "total" 0)
      as Hcur_total.
    { intros record Hrec. simpl. unfold dict_get_or at 2. by rewrite Hrec. }
    assert (∀ record, dict_get prev name = Some record →
              previous (compare_member cur prev name) = dict_get_or record "total" 0)
      as Hprev_total.
    { intros record Hrec. simpl. unfold dict_get_or at 2. by rewrite Hrec. }
    split_and!; [done | done | |].
    + intros Hprev%dict_get_None.
      assert (previous (compare_member cur prev name) = 0) as H0
        by (simpl; unfold dict_get_or at 2; by rewrite Hprev).
      split_and!; [done | |].
      * intros Hc. apply Hup. simpl in *. rewrite H0. lra.
      * intros record Hrec Hbig. specialize (Hcur_total record Hrec).
        assert (change (compare_member cur prev name) == dict_get_or record "total" 0)
          as Hchange by (simpl in *; rewrite H0, Hcur_total; lra).
        split; [|done]. apply Hup. by rewrite Hchange.
    + intros Hcur%dict_get_None.
      assert (current (compare_member cur prev name) = 0) as H0
        by (simpl; unfold dict_get_or at 2; by rewrite Hcur).
      split_and!; [done | |].
      * intros Hp. apply Hdown. simpl in *. rewrite H0. lra.
      * intros record Hrec Hbig. specialize (Hprev_total record Hrec).
        assert (change (compare_member cur prev name)
                == - dict_get_or record "total" 0)
          as Hchange by (simpl in *; rewrite H0, Hprev_total; lra).
        split; [|done]. apply Hdown. rewrite Hchange. lra.
Qed.


(** The leaver of the test suite. *)
Lemma C7_joiners_and_leavers_witness :
  (∀ record, dict_get joiner_current "LeftGuy" = Some record →
     current left_guy_trend = dict_get_or record "total" 0) ∧
  (∀ record, dict_get joiner_previous "LeftGuy" = Some record →
     previous left_guy_trend = dict_get_or record "total" 0) ∧
  (("LeftGuy" : string) ∉ keys joiner_previous →
   previous left_guy_trend = 0 ∧
   (1 # 2 < current left_guy_trend → trend left_guy_trend = "up") ∧
   ∀ record, dict_get joiner_current "LeftGuy" = Some record →
     1 # 2 < dict_get_or record "total" 0 →
     trend left_guy_trend = "up" ∧
     change left_guy_trend == dict_get_or record "total" 0) ∧
  (("LeftGuy" : string) ∉ keys joiner_current →
   current left_guy_trend = 0 ∧
   (1 # 2 < previous left_guy_trend → trend left_guy_trend = "down") ∧
   ∀ record, dict_get joiner_previous "LeftGuy" = Some record →
     1 # 2 < dict_get_or record "total" 0 →
     trend left_guy_trend = "down" ∧
     change left_guy_trend == - dict_get_or record "total" 0).
Proof.
  apply (proj2 (proj2 (C7_joiners_and_leavers joiner_current joiner_previous))
           "LeftGuy").
  vm_compute. reflexivity.
Defined.

(** * rank_scores *)

Lemma decorate_Ok_inv (items : list member) (dec : list (Q * member)) :
  decorate items = Ok dec → dec.*2 = items ∧ Forall keyed dec.
Proof.
  revert dec. induction items as [|item items IH]; intros dec; simpl.
  - intros [= <-]. split; [done | constructor].
  - intros (k & Hk & (tail & Htail & [= <-])%bind_Ok_inv)%bind_Ok_inv.
    destruct (IH _ Htail) as [Heq Hall]. split.
    + rewrite fmap_cons. simpl. by f_equal.
    + constructor; [|done]. unfold keyed, dict_item in *. simpl.
      destruct (dict_get item.2 "total"); [by injection Hk as -> | done].
Qed.

Lemma decorate_total (items : list member) :
  Forall (λ m, is_Some (dict_get m.2 "total")) items →
  ∃ dec, decorate items = Ok dec.
Proof.
  induction 1 as [|item items [t Ht] _ [dec IH]]; simpl; [eauto|].
  unfold dict_item. rewrite Ht. simpl. rewrite IH. simpl. eauto.
Qed.

Lemma insert_desc_perm (x : Q * member) (l : list (Q * member)) :
  insert_desc x l ≡ₚ x :: l.
Proof.
  induction l as [|y l IH]; simpl; [done|].
  destruct (Qgtb y.1 x.1); [|done].
  rewrite IH. apply Permutation_swap.
Qed.

Lemma sort_desc_perm (l : list (Q * member)) : sort_desc l ≡ₚ l.
Proof.
  induction l as [|x l IH]; simpl; [done|].
  by rewrite insert_desc_perm, IH.
Qed.

Lemma insert_desc_sorted (x : Q * member) (l : list (Q * member)) :
  StronglySorted desc l → StronglySorted desc (insert_desc x l).
Proof.
  induction l as [|y l IH]; simpl; intros Hs.
  - repeat constructor.
  - apply StronglySorted_inv in Hs as [Hs Hy].
    destruct (Qgtb y.1 x.1) eqn:E.
    + apply Qgtb_true in E. constructor; [by apply IH|].
      rewrite insert_desc_perm. constructor; [|done].
      unfold desc. lra.
    + apply Qgtb_false in E. constructor; [by constructor|].
      constructor; [done|].
      eapply Forall_impl; [exact Hy|]. unfold desc. intros z Hz. lra.
Qed.

Lemma sort_desc_sorted (l : list (Q * member)) : StronglySorted desc (sort_desc l).
Proof.
  induction l as [|x l IH]; simpl; [constructor | by apply insert_desc_sorted].
Qed.

Lemma rank_loop_Ok (i current_rank : Z) (prev_total : option Q)
    (dec : list (Q * member)) :
  Forall keyed dec →
  rank_loop i current_rank prev_total dec.*2
    = Ok (zip_with (λ r d, ranked_entry r d.2.1 d.2.2)
            (ranks_from i current_rank prev_total dec.*1) dec).
Proof.
  intros Hall. revert i current_rank prev_total.
  induction Hall as [|[t [name sd]] dec Ht _ IH]; intros i cr prev; [done|].
  unfold keyed in Ht. simpl in Ht. rewrite !fmap_cons. simpl.
  unfold dict_item. rewrite Ht.
  destruct prev as [p|]; simpl; by rewrite IH.
Qed.

Lemma length_ranks_from (i cr : Z) (prev : option Q) (totals : list Q) :
  length (ranks_from i cr prev totals) = length totals.
Proof.
  revert i cr prev. induction totals as [|t ts IH]; intros i cr prev; simpl; [done|].
  by rewrite IH.
Qed.

(** The rank at a position, from the rank and the total in front of it. *)
Lemma ranks_from_step (i cr : Z) (prev : option Q) (totals : list Q)
    (k : nat) (t t' : Q) :
  totals !! k = Some t → totals !! S k = Some t' →
  ∃ r, ranks_from i cr prev totals !! k = Some r ∧
       ranks_from i cr prev totals !! S k
         = Some (if Qgtb t t' then (i + Z.of_nat (S k) + 1)%Z else r).
Proof.
  revert i cr prev k. induction totals as [|t0 ts IH]; intros i cr prev k; [done|].
  destruct k as [|k]; simpl.
  - intros [= ->] Ht'. destruct ts as [|t1 ts]; [done|].
    injection Ht' as ->. eexists. split; [reflexivity|]. simpl.
    destruct (Qgtb t t'); [f_equal; lia | done].
  - intros Ht Ht'.
    destruct (IH (i + 1)%Z
                (match prev with
                 | Some p => if Qgtb p t0 then (i + 1)%Z else cr
                 | None => cr
                 end) (Some t0) k Ht Ht') as (r & Hr & Hr').
    exists r. split; [done|]. rewrite Hr'.
    destruct (Qgtb t t'); [f_equal; lia | done].
Qed.

Lemma ranks_from_first (i cr : Z) (totals : list Q) (t : Q) :
  totals !! 0%nat = Some t → ranks_from i cr None totals !! 0%nat = Some cr.
Proof. by destruct totals. Qed.

Lemma descending_lookup (totals : list Q) (a b : nat) (x y : Q) :
  descending totals → (a ≤ b)%nat →
  totals !! a = Some x → totals !! b = Some y → y <= x.
Proof.
  intros Hs. revert a b. induction Hs as [|t ts _ IH Hall]; intros a b Hab; [done|].
  destruct a as [|a], b as [|b]; simpl; try lia.
  - intros [= ->] [= ->]. lra.
  - intros [= ->] Hy. rewrite Forall_lookup in Hall. by apply (Hall b).
  - apply IH. lia.
Qed.

Lemma sort_desc_descending (l : list (Q * member)) : descending (sort_desc l).*1.
Proof.
  unfold descending.
  apply (StronglySorted_fmap fst desc); [done | apply sort_desc_sorted].
Qed.

(** Under descending totals, equal totals carry equal ranks. *)
Lemma ranks_from_ties (i cr : Z) (prev : option Q) (totals : list Q)
    (a b : nat) (ta tb : Q) :
  descending totals → (a ≤ b)%nat →
  totals !! a = Some ta → totals !! b = Some tb → ta == tb →
  ranks_from i cr prev totals !! a = ranks_from i cr prev totals !! b.
Proof.
  intros Hs Hab Ha. revert tb. induction b as [|b IH]; intros tb Hb Heq.
  - by replace a with 0%nat by lia.
  - destruct (decide (a = S b)) as [->|Hne]; [done|].
    destruct (lookup_lt_is_Some_2 totals b) as [tb' Hb'].
    { apply lookup_lt_Some in Hb. lia. }
    pose proof (descending_lookup _ a b _ _ Hs ltac:(lia) Ha Hb') as H1.
    pose proof (descending_lookup _ b (S b) _ _ Hs ltac:(lia) Hb' Hb) as H2.
    rewrite (IH ltac:(lia) tb' Hb') by lra.
    destruct (ranks_from_step i cr prev totals b tb' tb Hb' Hb) as (r & Hr & Hr').
    rewrite Hr, Hr'.
    assert (Qgtb tb' tb = false) as -> by (apply Qgtb_false; lra). done.
Qed.

(** ** The fields of a ranked entry *)

Lemma ranked_entry_rank (r : Z) (n : string) (sd : dict Q) :
  "rank" ∉ keys sd → entry_rank (ranked_entry r n sd) = Some r.
Proof.
  intros Hk. unfold entry_rank.
  change (ranked_entry r n sd)
    with (fill fst (λ kv : string * Q, FNum kv.2) sd [("rank", FInt r); ("name", FStr n)]).
  by rewrite fill_get_other.
Qed.

Lemma ranked_entry_name (r : Z) (n : string) (sd : dict Q) :
  "name" ∉ keys sd → entry_name (ranked_entry r n sd) = Some n.
Proof.
  intros Hk. unfold entry_name.
  change (ranked_entry r n sd)
    with (fill fst (λ kv : string * Q, FNum kv.2) sd [("rank", FInt r); ("name", FStr n)]).
  by rewrite fill_get_other.
Qed.

Lemma ranked_entry_total (r : Z) (n : string) (sd : dict Q) (t : Q) :
  NoDup (keys sd) → dict_get sd "total" = Some t →
  entry_total (ranked_entry r n sd) = Some t.
Proof.
  intros Hnd Ht%dict_get_elem. unfold entry_total.
  change (ranked_entry r n sd)
    with (fill fst (λ kv : string * Q, FNum kv.2) sd [("rank", FInt r); ("name", FStr n)]).
  by rewrite (fill_get_elem fst (λ kv : string * Q, FNum kv.2) sd _ ("total", t)).
Qed.

Lemma rank_scores_Ok (scores : dict (dict Q)) :
  Forall (λ m, plain_record m.2) scores →
  ∃ dec,
    dec.*2 = scores ∧ Forall sound dec ∧
    rank_scores scores
      = Ok (entries (ranks_from 0 1 None (sort_desc dec).*1) (sort_desc dec)).
Proof.
  intros Hall.
  destruct (decorate_total scores) as [dec Hdec].
  { eapply Forall_impl; [exact Hall|]. by intros m (_ & _ & _ & ?). }
  destruct (decorate_Ok_inv _ _ Hdec) as [Heq Hkeyed].
  exists dec. split; [done|]. split.
  - rewrite <- Heq, Forall_fmap in Hall.
    rewrite Forall_forall in Hall, Hkeyed. apply Forall_forall.
    intros d Hd. split; [by apply Hkeyed | by apply Hall].
  - unfold rank_scores. destruct scores as [|m scores].
    + destruct dec; [done | discriminate Heq].
    + rewrite Hdec. simpl bind. apply rank_loop_Ok.
      by rewrite sort_desc_perm.
Qed.

Lemma entries_lookup (ranks : list Z) (sorted : list (Q * member))
    (k : nat) (e : dict field) :
  Forall sound sorted → entries ranks sorted !! k = Some e →
  ∃ r d, ranks !! k = Some r ∧ sorted !! k = Some d ∧
         entry_rank e = Some r ∧ entry_total e = Some d.1 ∧
         entry_name e = Some d.2.1.
Proof.
  intros Hall (r & d & -> & Hr & Hd)%lookup_zip_with_Some.
  destruct (Forall_lookup_1 _ _ _ _ Hall Hd) as (Hkey & Hnd & Hrank & Hname & _).
  exists r, d. split_and!; try done.
  - by apply ranked_entry_rank.
  - by apply ranked_entry_total.
  - by apply ranked_entry_name.
Qed.

Lemma entries_summary (ranks : list Z) (sorted : list (Q * member)) :
  Forall sound sorted → length ranks = length sorted →
  (λ e, (entry_name e, entry_total e)) <$> entries ranks sorted
    = (λ d, (Some d.2.1, Some d.1)) <$> sorted.
Proof.
  intros Hall. revert ranks.
  induction Hall as [|d sorted (Hkey & Hnd & Hrank & Hname & _) _ IH];
    intros [|r ranks] Hlen; try done.
  unfold entries in *. cbn [zip_with]. rewrite !fmap_cons. f_equal.
  - by rewrite ranked_entry_name, (ranked_entry_total _ _ _ d.1).
  - apply IH. simpl in Hlen. lia.
Qed.

Lemma keyed_summary (dec : list (Q * member)) :
  Forall sound dec →
  (λ d, (Some d.2.1, Some d.1)) <$> dec
    = (λ m : member, (Some m.1, dict_get m.2 "total")) <$> dec.*2.
Proof.
  induction 1 as [|d dec [Hkey _] _ IH]; [done|].
  rewrite !fmap_cons, IH. unfold keyed in Hkey. by rewrite Hkey.
Qed.

(** The records [calculate_scores] produces are score records in the sense
    of [plain_record], so its output can be handed to [rank_scores]. *)
Lemma calculate_scores_plain (raw : raw_data) (cfg : config)
    (scores : dict (dict Q)) :
  calculate_scores raw cfg = Ok scores → Forall (λ m, plain_record m.2) scores.
Proof.
  intros Hcalc. apply Forall_forall. intros [name record] Hin.
  apply (elem_dict_get _ _ _ (calculate_scores_NoDup _ _ _ Hcalc)) in Hin.
  destruct (calculate_scores_record _ _ _ _ _ Hcalc Hin)
    as (data & mi & mp & mr & qi & qp & qr & _ & _ & _ & _ & _ & _ & _ & _ & ->).
  simpl. split_and!; [by apply (bool_decide_unpack _)..|by eexists].
Qed.

(** C3: [rank_scores] returns the empty sequence on the empty mapping; on
    score records it returns the same members ordered by total, descending,
    the first with rank 1; an entry whose total is strictly below the total
    in front of it has rank [position + 1] (position counted from 0), an entry
    whose total equals the one in front keeps that rank, and any two entries
    with equal totals have the same rank. *)
Theorem C3_rank_scores :
  rank_scores [] = Ok [] ∧
  ∀ scores,
    Forall (λ m, plain_record m.2) scores →
    ∃ ranked,
      rank_scores scores = Ok ranked ∧
      (λ e, (entry_name e, entry_total e)) <$> ranked
        ≡ₚ (λ m : member, (Some m.1, dict_get m.2 "total")) <$> scores ∧
      (∀ k e, ranked !! k = Some e →
         is_Some (entry_rank e) ∧ is_Some (entry_total e)) ∧
      (∀ e, ranked !! 0%nat = Some e → entry_rank e = Some 1%Z) ∧
      (∀ k e e' t t',
         ranked !! k = Some e → ranked !! S k = Some e' →
         entry_total e = Some t → entry_total e' = Some t' →
         t' <= t ∧
         (t' < t → entry_rank e' = Some (Z.of_nat (S k) + 1)%Z) ∧
         (t' == t → entry_rank e' = entry_rank e)) ∧
      (∀ i j e e' t t',
         ranked !! i = Some e → ranked !! j = Some e' →
         entry_total e = Some t → entry_total e' = Some t' →
         t == t' → entry_rank e = entry_rank e').
Proof.
  split; [done|]. intros scores Hplain.
  destruct (rank_scores_Ok scores Hplain) as (dec & Heq & Hdec & Hrank).
  set (sorted := sort_desc dec) in *.
  set (ranks := ranks_from 0 1 None sorted.*1) in *.
  assert (Forall sound sorted) as Hsound by (unfold sorted; by rewrite sort_desc_perm).
  assert (descending sorted.*1) as Hdesc by apply sort_desc_descending.
  assert (∀ k d, sorted !! k = Some d → sorted.*1 !! k = Some d.1) as Htot.
  { intros k d Hd. by rewrite list_lookup_fmap, Hd. }
  exists (entries ranks sorted). split_and!; [done|..].
  - rewrite entries_summary;
      [|done | unfold ranks; by rewrite length_ranks_from, length_fmap].
    unfold sorted. rewrite sort_desc_perm.
    rewrite (keyed_summary dec Hdec). by subst scores.
  - intros k e (r & d & _ & _ & -> & -> & _)%entries_lookup; [|done]. eauto.
  - intros e (r & d & Hr & Hd & -> & _)%entries_lookup; [|done].
    unfold ranks in Hr. by rewrite (ranks_from_first _ _ _ _ (Htot _ _ Hd)) in Hr.
  - intros k e e' t t'
      (r & d & Hr & Hd & -> & Ht & _)%entries_lookup
      (r' & d' & Hr' & Hd' & -> & Ht' & _)%entries_lookup; try done.
    intros Hte Hte'. rewrite Hte in Ht. rewrite Hte' in Ht'.
    injection Ht as ->. injection Ht' as ->.
    apply Htot in Hd, Hd'.
    destruct (ranks_from_step 0 1 None _ _ _ _ Hd Hd') as (r0 & Hr0 & Hr0').
    fold ranks in Hr0, Hr0'. rewrite Hr in Hr0. rewrite Hr' in Hr0'.
    injection Hr0 as <-. injection Hr0' as ->.
    pose proof (descending_lookup _ k (S k) _ _ Hdesc ltac:(lia) Hd Hd') as Hle.
    split_and!; [done | |].
    + intros Hlt. by assert (Qgtb d.1 d'.1 = true) as -> by (by apply Qgtb_true).
    + intros Heq'. assert (Qgtb d.1 d'.1 = false) as ->; [|done].
      apply Qgtb_false. lra.
  - intros i j e e' t t'
      (r & d & Hr & Hd & -> & Ht & _)%entries_lookup
      (r' & d' & Hr' & Hd' & -> & Ht' & _)%entries_lookup; try done.
    intros Hte Hte' Heq'. rewrite Hte in Ht. rewrite Hte' in Ht'.
    injection Ht as ->. injection Ht' as ->.
    apply Htot in Hd, Hd'. rewrite <- Hr, <- Hr'.
    destruct (decide (i ≤ j)%nat) as [Hij|Hij].
    + by apply (ranks_from_ties 0 1 None _ i j d.1 d'.1).
    + symmetry.
      apply (ranks_from_ties 0 1 None _ j i d'.1 d.1); [done | lia | done | done | lra].
Qed.

(** The tied members keep their input order and share rank 1; the fourth
    place has rank 4. *)
Example rank_scores_tie :
  rank_scores tie_scores = Ok tie_ranked ∧
  (λ e, (entry_rank e, entry_name e)) <$> tie_ranked
    = [(Some 1%Z, Some "Ann"); (Some 1%Z, Some "Cat"); (Some 1%Z, Some "Dan");
       (Some 4%Z, Some "Ben")].
Proof. split; reflexivity. Qed.

(** The team with a three-way tie. *)
Lemma C3_rank_scores_witness :
  ∃ ranked,
    rank_scores tie_scores = Ok ranked ∧
    (λ e, (entry_name e, entry_total e)) <$> ranked
      ≡ₚ (λ m : member, (Some m.1, dict_get m.2 "total")) <$> tie_scores ∧
    (∀ k e, ranked !! k = Some e →
       is_Some (entry_rank e) ∧ is_Some (entry_total e)) ∧
    (∀ e, ranked !! 0%nat = Some e → entry_rank e = Some 1%Z) ∧
    (∀ k e e' t t',
       ranked !! k = Some e → ranked !! S k = Some e' →
       entry_total e = Some t → entry_total e' = Some t' →
       t' <= t ∧
       (t' < t → entry_rank e' = Some (Z.of_nat (S k) + 1)%Z) ∧
       (t' == t → entry_rank e' = entry_rank e)) ∧
    (∀ i j e e' t t',
       ranked !! i = Some e → ranked !! j = Some e' →
       entry_total e = Some t → entry_total e' = Some t' →
       t == t' → entry_rank e = entry_rank e').
Proof.
  apply (proj2 C3_rank_scores tie_scores).
  apply (bool_decide_unpack _). reflexivity.
Defined.

(** * The end-to-end scenario *)

(** Alice scores 100, 50, 100 and totals 85; Bob scores 50, 100, 50 and
    totals 65; Alice is ranked first and Bob second. *)
Example end_to_end :
  calculate_scores (raw_of team_metrics) (config_of team_weights) = Ok team_scores ∧
  Forall2 (λ kv expected,
             kv.1 = expected.1 ∧
             Forall2 Qeq (values kv.2) expected.2)
    team_scores
    [("Alice", [100; 50; 100; 50; 15; 20; 85]);
     ("Bob", [50; 100; 50; 25; 30; 10; 65])] ∧
  ((λ e, (entry_rank e, entry_name e)) <$>
     match rank_scores team_scores with Ok ranked => ranked | Raise _ => [] end)
    = [(Some 1%Z, Some "Alice"); (Some 2%Z, Some "Bob")].
Proof.
  split_and!; [reflexivity | | reflexivity].
  repeat (constructor; [split; [reflexivity|]; repeat (constructor; [reflexivity|]); constructor|]).
  constructor.
Qed.

(** * Further properties of calculate_scores *)

Lemma keys_fill_fresh {A V : Type} (key : A → string) (val : A → V)
    (l : list A) (acc : dict V) :
  NoDup (keys acc ++ (key <$> l)) →
  keys (fill key val l acc) = (keys acc ++ (key <$> l))%list.
Proof.
  unfold fill. revert acc. induction l as [|x l IH]; intros acc Hnd; simpl.
  - by rewrite app_nil_r.
  - rewrite fmap_cons in Hnd.
    assert (key x ∉ keys acc) as Hfresh.
    { apply NoDup_app in Hnd as (_ & Hdisj & _). intros Hin.
      apply (Hdisj _ Hin), elem_of_cons. auto. }
    rewrite IH; rewrite keys_dict_set_new by done.
    + by rewrite <- app_assoc.
    + by rewrite <- app_assoc.
Qed.

(** X1: with unique member names, a successful run returns one record per
    member, under the same names and in the same order as the metrics. *)
Theorem calculate_scores_keeps_members (raw : raw_data) (cfg : config)
    (scores : dict (dict Q)) :
  NoDup (keys (get_metrics raw)) →
  calculate_scores raw cfg = Ok scores →
  keys scores = keys (get_metrics raw).
Proof.
  intros Hnd Hcalc. destruct (decide (get_metrics raw = [])) as [Hnil|Hne].
  - unfold calculate_scores in Hcalc. rewrite Hnil in *. by injection Hcalc as <-.
  - destruct (calculate_scores_Ok_inv _ _ _ Hcalc Hne)
      as (mi & mp & mr & outs & _ & _ & _ & Hall & ->).
    rewrite keys_fill_fresh; rewrite (Forall2_scored_keys _ _ _ _ _ _ Hall); done.
Qed.

(** The all-zero team keeps its two members. *)
Lemma calculate_scores_keeps_members_witness :
  keys zero_scores = keys (get_metrics (raw_of zero_metrics)).
Proof.
  apply (calculate_scores_keeps_members (raw_of zero_metrics) (config_of team_weights)).
  - apply (bool_decide_unpack _). reflexivity.
  - reflexivity.
Defined.

Lemma nonneg_metrics_elem (metrics : dict (dict pyval)) name data c q :
  nonneg_metrics metrics = true → (name, data) ∈ metrics → c ∈ counters →
  raw_counter data c = VNum q → 0 <= q.
Proof.
  unfold nonneg_metrics. rewrite forallb_forall.
  intros Hall Hin Hc Hq. apply list_elem_of_In, Hall in Hin.
  change (nonneg_member data = true) in Hin. unfold nonneg_member in Hin.
  rewrite forallb_forall in Hin. apply list_elem_of_In, Hin in Hc.
  rewrite Hq in Hc. by apply Qle_bool_iff.
Qed.

Lemma scaled_bounds (q m : Q) : 0 <= q → q <= m → 0 <= scaled q m ∧ scaled q m <= 100.
Proof.
  intros Hq Hm. unfold scaled. destruct (Qgtb m 0) eqn:E; [|lra].
  apply Qgtb_true in E.
  assert (0 <= q / m) by (apply Qle_shift_div_l; lra).
  assert (q / m <= 1) by (apply Qle_shift_div_r; lra).
  lra.
Qed.



(** X3: a member whose data has no entry for a counter is scored 0 on that
    counter (the absent counter counts as 0). *)
Theorem missing_counter_scores_zero (raw : raw_data) (cfg : config)
    (scores : dict (dict Q)) (name : string) (data : dict pyval) (c f : string) :
  NoDup (keys (get_metrics raw)) →
  calculate_scores raw cfg = Ok scores →
  dict_get (get_metrics raw) name = Some data →
  (c, f) ∈ score_fields →
  dict_get data c = None →
  ∃ record score,
    dict_get scores name = Some record ∧
    dict_get record f = Some score ∧ score == 0.
Proof.
  intros Hnd Hcalc Hget Hcf Hmiss.
  assert (raw_counter data c = VNum 0) as Hraw
    by (unfold raw_counter, dict_get_or; by rewrite Hmiss).
  assert (∀ m, scaled 0 m == 0) as Hz.
  { intros m. unfold scaled. destruct (Qgtb m 0) eqn:E; [|done].
    apply Qgtb_true in E. field. lra. }
  destruct (calculate_scores_record_of _ _ _ _ _ Hnd Hcalc Hget)
    as (mi & mp & mr & qi & qp & qr & _ & _ & _ & Hqi & Hqp & Hqr & _ & Hrec).
  eexists. apply score_fields_inv in Hcf as [[-> ->]|[[-> ->]|[-> ->]]].
  - rewrite Hraw in Hqi. injection Hqi as <-.
    exists (scaled 0 mi). split_and!; [done | done | apply Hz].
  - rewrite Hraw in Hqp. injection Hqp as <-.
    exists (scaled 0 mp). split_and!; [done | done | apply Hz].
  - rewrite Hraw in Hqr. injection Hqr as <-.
    exists (scaled 0 mr). split_and!; [done | done | apply Hz].
Qed.

(** Bob has no [code_reviews] entry. *)
Lemma missing_counter_scores_zero_witness :
  ∃ record score,
    dict_get sparse_scores "Bob" = Some record ∧
    dict_get record "reviews_score" = Some score ∧ score == 0.
Proof.
  apply (missing_counter_scores_zero (raw_of sparse_metrics) (config_of team_weights)
           sparse_scores "Bob"
           [("items_completed", VNum 25); ("prs_authored", VNum 40)]
           "code_reviews" "reviews_score");
    try reflexivity; apply (bool_decide_unpack _); reflexivity.
Defined.

(** * Further properties of rank_scores *)

Lemma decorate_Raise_inv (items : list member) (e : exn) :
  decorate items = Raise e → e = KeyError "total".
Proof.
  induction items as [|item items IH]; simpl; [done|].
  intros [Hk|(k & _ & [Ht|(tail & _ & [=])]%bind_Raise_inv)]%bind_Raise_inv; [|auto].
  unfold dict_item in Hk. destruct (dict_get item.2 "total"); [done|].
  by injection Hk as <-.
Qed.

Lemma decorate_Ok_totals (items : list member) (dec : list (Q * member)) :
  decorate items = Ok dec → forallb (λ m : member, has_total m.2) items = true.
Proof.
  intros [<- Hkeyed]%decorate_Ok_inv. apply forallb_forall.
  intros m [d [-> Hd]]%list_elem_of_In%list_elem_of_fmap.
  rewrite Forall_forall in Hkeyed. specialize (Hkeyed _ Hd).
  unfold has_total, keyed in *. by rewrite Hkeyed.
Qed.

Lemma rank_scores_decorated (scores : dict (dict Q)) (dec : list (Q * member)) :
  decorate scores = Ok dec →
  rank_scores scores
    = Ok (entries (ranks_from 0 1 None (sort_desc dec).*1) (sort_desc dec)).
Proof.
  intros Hdec. destruct (decorate_Ok_inv _ _ Hdec) as [Heq Hkeyed].
  unfold rank_scores. destruct scores as [|m scores].
  - destruct dec; [done | discriminate Heq].
  - rewrite Hdec. cbn [bind]. apply rank_loop_Ok. by rewrite sort_desc_perm.
Qed.

(** X4: [rank_scores] returns, with one entry per member, exactly when every
    record has a total; otherwise it raises [KeyError("total")], and it
    raises nothing else. *)
Theorem rank_scores_needs_totals (scores : dict (dict Q)) :
  if forallb (λ m : member, has_total m.2) scores
  then ∃ ranked, rank_scores scores = Ok ranked ∧ length ranked = length scores
  else rank_scores scores = Raise (KeyError "total").
Proof.
  destruct (forallb _ scores) eqn:Hall.
  - destruct (decorate_total scores) as [dec Hdec].
    { apply Forall_forall. intros m Hm%list_elem_of_In.
      rewrite forallb_forall in Hall. apply Hall in Hm. unfold has_total in Hm.
      by destruct (dict_get m.2 "total"). }
    rewrite (rank_scores_decorated _ _ Hdec). eexists. split; [done|].
    destruct (decorate_Ok_inv _ _ Hdec) as [<- _].
    unfold entries. rewrite length_zip_with_r_eq.
    + by rewrite sort_desc_perm, length_fmap.
    + by rewrite length_ranks_from, length_fmap.
  - destruct (decorate scores) as [dec|e] eqn:Hdec.
    + apply decorate_Ok_totals in Hdec. congruence.
    + pose proof (decorate_Raise_inv _ _ Hdec) as ->.
      unfold rank_scores. destruct scores; [done|]. by rewrite Hdec.
Qed.

(** The record of Ben has no total. *)
Example rank_scores_broken :
  rank_scores broken_scores = Raise (KeyError "total").
Proof. reflexivity. Qed.

Lemma count_above_app (t : Q) (l1 l2 : list Q) :
  count_above t (l1 ++ l2) = (count_above t l1 + count_above t l2)%nat.
Proof. induction l1 as [|x l1 IH]; simpl; [done|]. rewrite IH. lia. Qed.

Lemma count_above_all (t : Q) (l : list Q) :
  Forall (λ x, t < x) l → count_above t l = length l.
Proof.
  induction 1 as [|x l Hx _ IH]; simpl; [done|].
  apply Qgtb_true in Hx as ->. by rewrite IH.
Qed.

Lemma count_above_none (t : Q) (l : list Q) :
  Forall (λ x, x <= t) l → count_above t l = 0%nat.
Proof.
  induction 1 as [|x l Hx _ IH]; simpl; [done|].
  apply Qgtb_false in Hx as ->. by rewrite IH.
Qed.

Lemma count_above_equal (t t' : Q) (l : list Q) :
  t == t' → count_above t l = count_above t' l.
Proof.
  intros Heq. induction l as [|x l IH]; simpl; [done|]. rewrite IH. f_equal.
  destruct (Qgtb x t) eqn:E, (Qgtb x t') eqn:E'; try done.
  - apply Qgtb_true in E. apply Qgtb_false in E'. lra.
  - apply Qgtb_false in E. apply Qgtb_true in E'. lra.
Qed.

Lemma count_above_perm (t : Q) (l1 l2 : list Q) :
  l1 ≡ₚ l2 → count_above t l1 = count_above t l2.
Proof.
  induction 1 as [|x l1 l2 _ IH|x y l|l1 l2 l3 _ IH1 _ IH2]; simpl; lia.
Qed.

(** In descending totals, the totals above the total at position [k] are
    those in front of the first position with that total. *)
Lemma count_above_drop (totals : list Q) (k : nat) (t : Q) :
  descending totals → totals !! k = Some t →
  count_above t (drop k totals) = 0%nat.
Proof.
  intros Hs Hk. apply count_above_none, Forall_lookup. intros i x Hx.
  rewrite lookup_drop in Hx.
  apply (descending_lookup _ k (k + i) _ _ Hs ltac:(lia) Hk Hx).
Qed.

Lemma count_above_strict (totals : list Q) (k : nat) (t t' : Q) :
  descending totals → totals !! k = Some t → totals !! S k = Some t' → t' < t →
  count_above t' totals = S k.
Proof.
  intros Hs Hk Hk' Hlt.
  rewrite <- (take_drop (S k) totals), count_above_app.
  rewrite (count_above_drop _ _ _ Hs Hk'), Nat.add_0_r.
  rewrite count_above_all.
  - rewrite length_take. apply lookup_lt_Some in Hk'. lia.
  - apply Forall_lookup. intros i x Hx.
    assert (i < S k)%nat as Hi.
    { apply lookup_lt_Some in Hx. rewrite length_take in Hx. lia. }
    rewrite lookup_take_lt in Hx by done.
    pose proof (descending_lookup _ i k _ _ Hs ltac:(lia) Hx Hk). lra.
Qed.

Lemma ranks_from_count (totals : list Q) (k : nat) (t : Q) :
  descending totals → totals !! k = Some t →
  ranks_from 0 1 None totals !! k = Some (1 + Z.of_nat (count_above t totals))%Z.
Proof.
  intros Hs. revert t. induction k as [|k IH]; intros t Hk.
  - rewrite (ranks_from_first _ _ _ _ Hk).
    rewrite <- (drop_0 totals) at 1. by rewrite (count_above_drop _ _ _ Hs Hk).
  - destruct (lookup_lt_is_Some_2 totals k) as [tk Htk].
    { apply lookup_lt_Some in Hk. lia. }
    destruct (ranks_from_step 0 1 None totals k tk t Htk Hk) as (r & Hr & ->).
    rewrite (IH _ Htk) in Hr. injection Hr as <-.
    pose proof (descending_lookup _ k (S k) _ _ Hs ltac:(lia) Htk Hk) as Hle.
    destruct (Qgtb tk t) eqn:E.
    + apply Qgtb_true in E.
      rewrite (count_above_strict _ _ _ _ Hs Htk Hk E). f_equal. lia.
    + apply Qgtb_false in E.
      rewrite (count_above_equal tk t); [done | lra].
Qed.

Lemma keyed_totals (dec : list (Q * member)) :
  Forall keyed dec → dec.*1 = totals_of dec.*2.
Proof.
  unfold totals_of. induction 1 as [|d dec Hd _ IH]; [done|].
  rewrite !fmap_cons, IH. f_equal.
  unfold keyed in Hd. unfold dict_get_or. by rewrite Hd.
Qed.

(** X5: the rank of an entry is one more than the number of members whose
    total is strictly greater than the entry's total. *)
Theorem rank_counts_better_members (scores : dict (dict Q))
    (ranked : list (dict field)) (k : nat) (e : dict field) (t : Q) :
  Forall (λ m, plain_record m.2) scores →
  rank_scores scores = Ok ranked →
  ranked !! k = Some e →
  entry_total e = Some t →
  entry_rank e = Some (1 + Z.of_nat (count_above t (totals_of scores)))%Z.
Proof.
  intros Hplain Hranked Hk Ht.
  destruct (rank_scores_Ok scores Hplain) as (dec & Heq & Hdec & Hrank).
  rewrite Hranked in Hrank. injection Hrank as ->.
  assert (Forall sound (sort_desc dec)) as Hsound by (by rewrite sort_desc_perm).
  destruct (entries_lookup _ _ _ _ Hsound Hk) as (r & d & Hr & Hd & -> & Ht' & _).
  rewrite Ht in Ht'. injection Ht' as ->.
  assert ((sort_desc dec).*1 !! k = Some d.1) as Hdk
    by (by rewrite list_lookup_fmap, Hd).
  rewrite (ranks_from_count _ _ _ (sort_desc_descending dec) Hdk) in Hr.
  injection Hr as <-. do 3 f_equal.
  rewrite (count_above_perm _ (sort_desc dec).*1 dec.*1)
    by (by rewrite sort_desc_perm).
  rewrite keyed_totals, Heq; [done|].
  eapply Forall_impl; [exact Hdec|]. by intros ? [? _].
Qed.

(** Ben is behind three members tied at 90. *)
Lemma rank_counts_better_members_witness :
  entry_rank (ranked_entry 4 "Ben" [("total", 70)])
    = Some (1 + Z.of_nat (count_above 70 (totals_of tie_scores)))%Z.
Proof.
  apply (rank_counts_better_members tie_scores tie_ranked 3).
  - apply (bool_decide_unpack _). reflexivity.
  - reflexivity.
  - reflexivity.
  - reflexivity.
Defined.

Lemma filter_insert_desc (t : Q) (x : Q * member) (l : list (Q * member)) :
  List.filter (λ d : Q * member, Qeq_bool d.1 t) (insert_desc x l)
    = List.filter (λ d : Q * member, Qeq_bool d.1 t) (x :: l).
Proof.
  induction l as [|y l IH]; [done|]. cbn [insert_desc].
  destruct (Qgtb y.1 x.1) eqn:E; [|done].
  apply Qgtb_true in E. cbn [List.filter] in *. rewrite IH.
  destruct (Qeq_bool x.1 t) eqn:Ex, (Qeq_bool y.1 t) eqn:Ey; try done.
  apply Qeq_bool_iff in Ex, Ey. lra.
Qed.

Lemma filter_sort_desc (t : Q) (l : list (Q * member)) :
  List.filter (λ d : Q * member, Qeq_bool d.1 t) (sort_desc l)
    = List.filter (λ d : Q * member, Qeq_bool d.1 t) l.
Proof.
  induction l as [|x l IH]; [done|]. cbn [sort_desc].
  rewrite filter_insert_desc. cbn [List.filter]. by rewrite IH.
Qed.

Lemma entries_at_sorted (t : Q) (ranks : list Z) (sorted : list (Q * member)) :
  Forall sound sorted → length ranks = length sorted →
  entries_at t (entries ranks sorted)
    = (λ d : Q * member, Some d.2.1)
        <$> List.filter (λ d : Q * member, Qeq_bool d.1 t) sorted.
Proof.
  intros Hall. revert ranks.
  induction Hall as [|d sorted (Hkey & Hnd & Hrank & Hname & _) _ IH];
    intros [|r ranks] Hlen; try done.
  unfold entries_at, entries in *. cbn [zip_with List.filter].
  rewrite (ranked_entry_total _ _ _ d.1) by done.
  simpl in Hlen. destruct (Qeq_bool d.1 t).
  - rewrite !fmap_cons, ranked_entry_name by done. f_equal. apply IH. lia.
  - apply IH. lia.
Qed.

Lemma members_at_keyed (t : Q) (dec : list (Q * member)) :
  Forall keyed dec →
  (λ d : Q * member, Some d.2.1)
    <$> List.filter (λ d : Q * member, Qeq_bool d.1 t) dec
  = members_at t dec.*2.
Proof.
  unfold members_at. induction 1 as [|d dec Hd _ IH]; [done|].
  rewrite fmap_cons. cbn [List.filter].
  assert (dict_get_or d.2.2 "total" 0 = d.1) as ->
    by (unfold keyed in Hd; unfold dict_get_or; by rewrite Hd).
  destruct (Qeq_bool d.1 t); [|done]. rewrite !fmap_cons. by f_equal.
Qed.

(** X6: the sort is stable: the members that share a total appear in the
    ranking in the order they have in the score mapping. *)
Theorem rank_scores_keeps_tie_order (scores : dict (dict Q))
    (ranked : list (dict field)) (t : Q) :
  Forall (λ m, plain_record m.2) scores →
  rank_scores scores = Ok ranked →
  entries_at t ranked = members_at t scores.
Proof.
  intros Hplain Hranked.
  destruct (rank_scores_Ok scores Hplain) as (dec & Heq & Hdec & Hrank).
  rewrite Hranked in Hrank. injection Hrank as ->.
  rewrite entries_at_sorted.
  - rewrite filter_sort_desc, members_at_keyed, Heq; [done|].
    eapply Forall_impl; [exact Hdec|]. by intros ? [? _].
  - by rewrite sort_desc_perm.
  - by rewrite length_ranks_from, length_fmap.
Qed.

(** Ann, Cat and Dan share the total 90. *)
Lemma rank_scores_keeps_tie_order_witness :
  entries_at 90 tie_ranked = members_at 90 tie_scores.
Proof.
  apply (rank_scores_keeps_tie_order tie_scores tie_ranked 90).
  - apply (bool_decide_unpack _). reflexivity.
  - reflexivity.
Defined.

(** * Further properties of calculate_component_contributions *)

(** X7: with unique member names, the contributions have the members of the
    score mapping, in the same order. *)
Theorem contributions_keep_members (scores : dict (dict Q)) :
  NoDup (keys scores) →
  keys (calculate_component_contributions scores) = keys scores.
Proof.
  intros Hnd.
  change (calculate_component_contributions scores)
    with (fill fst (λ kv : string * dict Q, contribution kv.2) scores []).
  by rewrite keys_fill_fresh.
Qed.

(** The end-to-end scenario. *)
Lemma contributions_keep_members_witness :
  keys (calculate_component_contributions team_scores) = keys team_scores.
Proof.
  apply contributions_keep_members. apply (bool_decide_unpack _). reflexivity.
Defined.

Lemma share_bounds (part total : Q) :
  0 <= part → part <= total → 0 < total →
  0 <= part / total * 100 ∧ part / total * 100 <= 100.
Proof.
  intros Hp Hle Ht.
  assert (0 <= part / total) by (apply Qle_shift_div_l; lra).
  assert (part / total <= 1) by (apply Qle_shift_div_r; lra).
  lra.
Qed.

(** X8: for a record that [calculate_scores] produced from counters and
    effective weights that are not negative, each of the three percentages
    lies between 0 and 100. *)
Theorem contributions_within_bounds (raw : raw_data) (cfg : config)
    (scores : dict (dict Q)) (name : string) (record : dict Q) :
  nonneg_metrics (get_metrics raw) = true →
  0 <= effective_weight cfg "items_completed" (1 # 2) →
  0 <= effective_weight cfg "prs_authored" (3 # 10) →
  0 <= effective_weight cfg "code_reviews" (2 # 10) →
  calculate_scores raw cfg = Ok scores →
  dict_get scores name = Some record →
  ∃ items_pct prs_pct reviews_pct,
    dict_get (calculate_component_contributions scores) name
      = Some [("items_pct", items_pct); ("prs_pct", prs_pct);
              ("reviews_pct", reviews_pct)] ∧
    (0 <= items_pct ∧ items_pct <= 100) ∧
    (0 <= prs_pct ∧ prs_pct <= 100) ∧
    (0 <= reviews_pct ∧ reviews_pct <= 100).
Proof.
  intros Hnn Hwi Hwp Hwr Hcalc Hget.
  rewrite (contributions_get _ _ _ (calculate_scores_NoDup _ _ _ Hcalc) Hget).
  destruct (calculate_scores_record _ _ _ _ _ Hcalc Hget)
    as (data & mi & mp & mr & qi & qp & qr & Hin & _ & _ & _ & Hqi & Hqp & Hqr
        & (Hli & Hlp & Hlr) & ->).
  assert (0 <= qi) as Hi
    by (eapply (nonneg_metrics_elem _ _ _ "items_completed"); eauto; set_solver).
  assert (0 <= qp) as Hp
    by (eapply (nonneg_metrics_elem _ _ _ "prs_authored"); eauto; set_solver).
  assert (0 <= qr) as Hr
    by (eapply (nonneg_metrics_elem _ _ _ "code_reviews"); eauto; set_solver).
  destruct (scaled_bounds qi mi Hi Hli) as [Hi0 _].
  destruct (scaled_bounds qp mp Hp Hlp) as [Hp0 _].
  destruct (scaled_bounds qr mr Hr Hlr) as [Hr0 _].
  unfold effective_weight in Hwi, Hwp, Hwr.
  set (w := normalize_weights (get_weights cfg)) in *.
  set (a := scaled qi mi * dict_get_or w "items_completed" (1 # 2)).
  set (b := scaled qp mp * dict_get_or w "prs_authored" (3 # 10)).
  set (c := scaled qr mr * dict_get_or w "code_reviews" (2 # 10)).
  assert (0 <= a) by (unfold a; nra).
  assert (0 <= b) by (unfold b; nra).
  assert (0 <= c) by (unfold c; nra).
  unfold contribution, dict_get_or at 1. simpl dict_get.
  fold a b c. destruct (Qgtb (a + b + c) 0) eqn:E.
  - apply Qgtb_true in E. unfold dict_get_or. simpl. fold a b c.
    eexists _, _, _. split; [reflexivity|].
    split_and!; apply share_bounds; lra.
  - eexists _, _, _. split; [reflexivity|]. lra.
Qed.

(** Alice's contributions in the end-to-end scenario. *)
Lemma contributions_within_bounds_witness :
  ∃ items_pct prs_pct reviews_pct,
    dict_get (calculate_component_contributions team_scores) "Alice"
      = Some [("items_pct", items_pct); ("prs_pct", prs_pct);
              ("reviews_pct", reviews_pct)] ∧
    (0 <= items_pct ∧ items_pct <= 100) ∧
    (0 <= prs_pct ∧ prs_pct <= 100) ∧
    (0 <= reviews_pct ∧ reviews_pct <= 100).
Proof.
  apply (contributions_within_bounds (raw_of team_metrics) (config_of team_weights)
           team_scores "Alice" alice_record);
    try reflexivity; intros H; discriminate H.
Defined.

(** * Further properties of compare_periods *)

(** X9: exchanging the two periods exchanges the two totals of every entry,
    negates its change and exchanges the labels "up" and "down"; "stable"
    stays. *)
Theorem compare_periods_swap (cur prev : dict (dict Q)) (name : string)
    (r : trend_record) :
  dict_get (compare_periods cur prev) name = Some r →
  ∃ r',
    dict_get (compare_periods prev cur) name = Some r' ∧
    current r' = previous r ∧ previous r' = current r ∧
    change r' == - change r ∧
    (trend r = "up" ↔ trend r' = "down") ∧
    (trend r = "down" ↔ trend r' = "up") ∧
    (trend r = "stable" ↔ trend r' = "stable").
Proof.
  intros [-> Hin]%compare_periods_get_inv.
  exists (compare_member prev cur name).
  destruct (trend_cases cur prev name) as (Hu & Hd & Hs).
  destruct (trend_cases prev cur name) as (Hu' & Hd' & Hs').
  assert (change (compare_member prev cur name)
          == - change (compare_member cur prev name)) as Hneg by (simpl; ring).
  split_and!; try done.
  - apply compare_periods_get. tauto.
  - rewrite Hu, Hd', Hneg. split; lra.
  - rewrite Hd, Hu', Hneg. split; lra.
  - rewrite Hs, Hs', Hneg. split; lra.
Qed.

(** The leaver of the test suite becomes a joiner. *)
Lemma compare_periods_swap_witness :
  ∃ r',
    dict_get (compare_periods joiner_previous joiner_current) "LeftGuy" = Some r' ∧
    current r' = previous left_guy_trend ∧ previous r' = current left_guy_trend ∧
    change r' == - change left_guy_trend ∧
    (trend left_guy_trend = "up" ↔ trend r' = "down") ∧
    (trend left_guy_trend = "down" ↔ trend r' = "up") ∧
    (trend left_guy_trend = "stable" ↔ trend r' = "stable").
Proof.
  apply (compare_periods_swap joiner_current joiner_previous "LeftGuy").
  vm_compute. reflexivity.
Defined.

(** X10: comparing a period with itself gives every member the change 0 and
    the label "stable". *)
Theorem compare_periods_self (scores : dict (dict Q)) (name : string)
    (r : trend_record) :
  dict_get (compare_periods scores scores) name = Some r →
  change r == 0 ∧ trend r = "stable".
Proof.
  intros [-> _]%compare_periods_get_inv.
  destruct (trend_cases scores scores name) as (_ & _ & Hs).
  assert (change (compare_member scores scores name) == 0) as H0 by (simpl; ring).
  split; [done|]. apply Hs. lra.
Qed.

(** Alice against herself. *)
Lemma compare_periods_self_witness :
  change {| current := 85; previous := 85; change := 85 - 85; trend := "stable" |} == 0 ∧
  trend {| current := 85; previous := 85; change := 85 - 85; trend := "stable" |}
    = "stable".
Proof.
  apply (compare_periods_self joiner_current "Alice").
  vm_compute. reflexivity.
Defined.

(** * The pipeline of the callers *)

Lemma names_of_entries (scores : dict (dict Q)) (ranked : list (dict field)) :
  Forall (λ m, plain_record m.2) scores →
  rank_scores scores = Ok ranked →
  entry_name <$> ranked ≡ₚ Some <$> keys scores.
Proof.
  intros Hplain Hranked.
  destruct (rank_scores_Ok scores Hplain) as (dec & Heq & Hdec & Hrank).
  rewrite Hranked in Hrank. injection Hrank as ->.
  assert (Forall sound (sort_desc dec)) as Hsound by (by rewrite sort_desc_perm).
  assert (entry_name <$> entries (ranks_from 0 1 None (sort_desc dec).*1) (sort_desc dec)
          = fst <$> ((λ e, (entry_name e, entry_total e))
                       <$> entries (ranks_from 0 1 None (sort_desc dec).*1) (sort_desc dec)))
    as -> by (by rewrite <- list_fmap_compose).
  rewrite entries_summary;
    [|done | by rewrite length_ranks_from, length_fmap].
  rewrite sort_desc_perm, <- list_fmap_compose. subst scores.
  unfold keys. by rewrite <- !list_fmap_compose.
Qed.

Lemma score_and_rank_numeric (raw : raw_data) (cfg : config) :
  numeric_metrics (get_metrics raw) = true →
  ∃ scores ranked,
    score_and_rank raw cfg = Ok (scores, ranked) ∧
    calculate_scores raw cfg = Ok scores ∧
    entry_name <$> ranked ≡ₚ Some <$> keys scores.
Proof.
  intros Hnum. unfold score_and_rank, run_score.
  destruct (calculate_scores_total raw cfg Hnum) as [scores Hcalc].
  pose proof (calculate_scores_plain _ _ _ Hcalc) as Hplain.
  destruct (rank_scores_Ok scores Hplain) as (dec & _ & _ & Hrank).
  exists scores. eexists. rewrite Hcalc. cbn [bind]. rewrite Hrank. cbn [bind].
  split_and!; [done | done |]. by apply names_of_entries.
Qed.

(** X11: on an input whose numbers are within the floating-point range,
    scoring then ranking returns when every raw counter is a number, and
    then ranks every member once: [rank_scores] never fails on what
    [calculate_scores] returns.  When some counter is not a number the
    pipeline raises the [TypeError] of [calculate_scores]. *)
Theorem score_and_rank_total (raw : raw_data) (cfg : config) :
  float_ranged raw cfg = true →
  if numeric_metrics (get_metrics raw)
  then ∃ scores ranked,
         score_and_rank raw cfg = Ok (scores, ranked) ∧
         calculate_scores raw cfg = Ok scores ∧
         entry_name <$> ranked ≡ₚ Some <$> keys scores
  else ∃ op lhs rhs, score_and_rank raw cfg = Raise (TypeError op lhs rhs).
Proof.
  intros _. destruct (numeric_metrics (get_metrics raw)) eqn:Hnum.
  - by apply score_and_rank_numeric.
  - unfold score_and_rank, run_score.
    destruct (calculate_scores raw cfg) as [scores|e] eqn:Hcalc.
    + apply calculate_scores_Ok_numeric in Hcalc. congruence.
    + apply calculate_scores_Raise_inv in Hcalc.
      destruct e as [op lhs rhs| |]; try done. by exists op, lhs, rhs.
Qed.

(** The end-to-end scenario. *)
Lemma score_and_rank_total_witness :
  ∃ scores ranked,
    score_and_rank (raw_of team_metrics) (config_of team_weights)
      = Ok (scores, ranked) ∧
    calculate_scores (raw_of team_metrics) (config_of team_weights) = Ok scores ∧
    entry_name <$> ranked ≡ₚ Some <$> keys scores.
Proof.
  apply (score_and_rank_total (raw_of team_metrics) (config_of team_weights)).
  reflexivity.
Defined.

Lemma collect_metrics_numeric (fetch_jira fetch_github : TeamMember.t → MetricData.t)
    (members : list TeamMember.t) :
  numeric_metrics (collect_metrics fetch_jira fetch_github members) = true.
Proof.
  apply numeric_metrics_elem. intros name data Hin.
  assert (NoDup (keys (collect_metrics fetch_jira fetch_github members))) as Hnd
    by apply (NoDup_keys_fill TeamMember.name), NoDup_nil_2.
  apply (elem_dict_get _ _ _ Hnd) in Hin.
  apply (fill_get_inv TeamMember.name) in Hin as [(m & _ & _ & <-)|Hin]; done.
Qed.

(** X12: whoever the members are, as long as the counters the two fetchers
    return and the configured weights are within the floating-point range,
    the metrics [run_fetch] collects can be scored and ranked without error,
    and the scored names are exactly the names of the configured members. *)
Theorem fetched_metrics_are_scored
    (fetch_jira fetch_github : TeamMember.t → MetricData.t)
    (members : list TeamMember.t) (cfg : config) :
  float_ranged (raw_of (collect_metrics fetch_jira fetch_github members)) cfg = true →
  ∃ scores ranked,
    score_and_rank (raw_of (collect_metrics fetch_jira fetch_github members)) cfg
      = Ok (scores, ranked) ∧
    entry_name <$> ranked ≡ₚ Some <$> keys scores ∧
    ∀ name, name ∈ keys scores ↔ name ∈ TeamMember.name <$> members.
Proof.
  intros _.
  destruct (score_and_rank_numeric
              (raw_of (collect_metrics fetch_jira fetch_github members)) cfg)
    as (scores & ranked & Hrun & Hcalc & Hnames);
    [apply collect_metrics_numeric|].
  exists scores, ranked. split_and!; [done | done |]. intros name.
  rewrite (calculate_scores_keys _ _ _ _ Hcalc).
  change (get_metrics (raw_of (collect_metrics fetch_jira fetch_github members)))
    with (fill TeamMember.name
            (λ m, member_metrics (fetch_jira m) (fetch_github m)) members []).
  rewrite elem_keys_fill. unfold keys at 1. rewrite elem_of_nil. tauto.
Qed.

(** Three members and the mock fetchers. *)
Lemma fetched_metrics_are_scored_witness :
  ∃ scores ranked,
    score_and_rank
      (raw_of (collect_metrics jira_by_id github_by_id [ann_old; ann_new; ben]))
      (config_of team_weights)
      = Ok (scores, ranked) ∧
    entry_name <$> ranked ≡ₚ Some <$> keys scores ∧
    ∀ name, name ∈ keys scores
            ↔ name ∈ TeamMember.name <$> [ann_old; ann_new; ben].
Proof.
  apply (fetched_metrics_are_scored jira_by_id github_by_id [ann_old; ann_new; ben]
           (config_of team_weights)).
  reflexivity.
Defined.

(** * TeamMember and MetricData *)

(** X13: [to_dict] then [from_dict] gives the member back, and [from_dict]
    returns exactly when the three keys are present, raising the [KeyError]
    of the first missing one otherwise. *)
Theorem team_member_round_trip :
  (∀ m, TeamMember.from_dict (TeamMember.to_dict m) = Ok m) ∧
  (∀ data,
     match dict_get data "name", dict_get data "github_username",
           dict_get data "jira_account_id" with
     | Some n, Some g, Some j =>
         TeamMember.from_dict data
           = Ok {| TeamMember.name := n; TeamMember.github_username := g;
                   TeamMember.jira_account_id := j |}
     | None, _, _ => TeamMember.from_dict data = Raise (KeyError "name")
     | Some _, None, _ =>
         TeamMember.from_dict data = Raise (KeyError "github_username")
     | Some _, Some _, None =>
         TeamMember.from_dict data = Raise (KeyError "jira_account_id")
     end).
Proof.
  split.
  - by intros [n g j].
  - intros data. unfold TeamMember.from_dict, dict_item.
    destruct (dict_get data "name"); [|done].
    destruct (dict_get data "github_username"); [|done].
    by destruct (dict_get data "jira_account_id").
Qed.

Lemma pick_zero_l (b : Z) : MetricData.pick 0 b = b.
Proof. done. Qed.

Lemma pick_zero_r (a : Z) : MetricData.pick a 0 = a.
Proof.
  unfold MetricData.pick. destruct (Z.eqb_spec a 0) as [->|]; done.
Qed.

Lemma pick_assoc (a b c : Z) :
  MetricData.pick (MetricData.pick a b) c = MetricData.pick a (MetricData.pick b c).
Proof.
  unfold MetricData.pick.
  destruct (Z.eqb_spec a 0) as [->|Ha]; [done|].
  by destruct (Z.eqb_spec a 0).
Qed.

(** X14: [merge] keeps the non-zero fields of [self] and fills the others
    from [other]: the empty [MetricData()] is neutral on both sides, merging
    is associative, and merging the results of the two fetchers gives the
    Jira fields of the one and the GitHub fields of the other. *)
Theorem metric_data_merge_laws :
  (∀ m, MetricData.merge MetricData.zero m = m) ∧
  (∀ m, MetricData.merge m MetricData.zero = m) ∧
  (∀ a b c,
     MetricData.merge (MetricData.merge a b) c
       = MetricData.merge a (MetricData.merge b c)) ∧
  (∀ i s p r,
     MetricData.merge
       {| MetricData.items_completed := i; MetricData.story_points := s;
          MetricData.prs_authored := 0; MetricData.code_reviews := 0 |}
       {| MetricData.items_completed := 0; MetricData.story_points := 0;
          MetricData.prs_authored := p; MetricData.code_reviews := r |}
     = {| MetricData.items_completed := i; MetricData.story_points := s;
          MetricData.prs_authored := p; MetricData.code_reviews := r |}).
Proof.
  split_and!.
  - by intros [i s p r].
  - intros [i s p r]. unfold MetricData.merge. simpl. by rewrite !pick_zero_r.
  - intros a b c. unfold MetricData.merge. simpl. by rewrite !pick_assoc.
  - intros i s p r. unfold MetricData.merge. simpl. by rewrite !pick_zero_r.
Qed.

(** * The fetchers *)

Lemma fold_points_acc (issues : list jira_issue) (acc : Z) :
  fold_left
    (λ story_points issue,
       match customfield_10016 issue with
       | Some sp => (story_points + py_int sp)%Z
       | None => story_points
       end) issues acc
  = (acc + (parse_response issues).2)%Z.
Proof.
  unfold parse_response. simpl. revert acc.
  induction issues as [|issue issues IH]; intros acc; simpl; [lia|].
  rewrite IH. rewrite (IH (match customfield_10016 issue with
                           | Some sp => (0 + py_int sp)%Z
                           | None => 0%Z
                           end)).
  destruct (customfield_10016 issue); lia.
Qed.

(** X15: on a well-formed response [parse_response] counts every issue,
    skips the story points that are null or absent, and is additive: parsing two lists of issues one after the
    other gives the sums of the two counts and of the two point totals. *)
Theorem parse_response_additive :
  parse_response [] = (0, 0)%Z ∧
  (∀ issues, (parse_response issues).1 = Z.of_nat (length issues)) ∧
  (∀ issues,
     Forall (λ issue, customfield_10016 issue = None) issues →
     (parse_response issues).2 = 0%Z) ∧
  (∀ issues more,
     parse_response (issues ++ more)
       = ((parse_response issues).1 + (parse_response more).1,
          (parse_response issues).2 + (parse_response more).2)%Z).
Proof.
  split_and!.
  - done.
  - done.
  - intros issues Hall. unfold parse_response. simpl.
    induction Hall as [|issue issues Hnone _ IH]; [done|].
    simpl. by rewrite Hnone.
  - intros issues more. unfold parse_response at 1. cbn [fst snd].
    rewrite fold_left_app, fold_points_acc, length_app. f_equal.
    unfold parse_response. simpl. lia.
Qed.

(** Two issues without story points. *)
Lemma parse_response_additive_witness :
  (parse_response [{| customfield_10016 := None |}; {| customfield_10016 := None |}]).2
    = 0%Z.
Proof.
  apply (proj1 (proj2 (proj2 parse_response_additive))).
  repeat constructor.
Defined.

(** X16: the mock data stay within the ranges the fetchers document: 10 to
    49 items, 5 to 34 story points, 5 to 34 pull requests and 10 to 59
    reviews, whatever the hash. *)
Theorem test_data_ranges (hash_val : Z) :
  (10 <= MetricData.items_completed (jira_test_data hash_val) <= 49)%Z ∧
  (5 <= MetricData.story_points (jira_test_data hash_val) <= 34)%Z ∧
  (5 <= MetricData.prs_authored (github_test_data hash_val) <= 34)%Z ∧
  (10 <= MetricData.code_reviews (github_test_data hash_val) <= 59)%Z.
Proof.
  simpl.
  pose proof (Z.mod_pos_bound hash_val 40 ltac:(lia)).
  pose proof (Z.mod_pos_bound hash_val 30 ltac:(lia)).
  pose proof (Z.mod_pos_bound hash_val 50 ltac:(lia)).
  lia.
Qed.

(** ** The retry loop of GitHubFetcher *)

(** The count a final run gives. *)
Lemma retry_loop_final (run : nat → gh_run) (a s rem d : nat) :
  (1 ≤ d ≤ rem)%nat →
  (∀ j, (a < j < a + d)%nat → retryable (run j) = true) →
  retryable (run (a + d)%nat) = false →
  retry_loop run a s rem
    = {| gh_count := match run (a + d)%nat with
                     | GhDone (Some n) => n
                     | _ => 0%nat
                     end;
         gh_attempts := (a + d)%nat;
         gh_sleeps := (s + d - 1)%nat |}.
Proof.
  revert a s d. induction rem as [|rem IH]; intros a s d Hd Hretry Hfinal; [lia|].
  destruct (decide (d = 1%nat)) as [->|Hne].
  - replace (a + 1)%nat with (S a) in * by lia. cbn [retry_loop].
    replace (s + 1 - 1)%nat with s by lia.
    destruct (run (S a)) as [[n|]|[]| |]; done.
  - assert (retryable (run (S a)) = true) as Hfirst by (apply Hretry; lia).
    cbn [retry_loop]. destruct rem as [|rem']; [lia|].
    replace (a + d)%nat with (S a + (d - 1))%nat in * by lia.
    replace (s + d - 1)%nat with (S s + (d - 1) - 1)%nat by lia.
    rewrite <- (IH (S a) (S s) (d - 1)%nat); [|lia| |done].
    + destruct (run (S a)) as [[n|]|[]| |]; done.
    + intros j Hj. apply Hretry. lia.
Qed.

Lemma retry_loop_exhausted (run : nat → gh_run) (a s rem : nat) :
  (1 ≤ rem)%nat →
  (∀ j, (a < j ≤ a + rem)%nat → retryable (run j) = true) →
  retry_loop run a s rem
    = {| gh_count := 0; gh_attempts := (a + rem)%nat; gh_sleeps := (s + rem - 1)%nat |}.
Proof.
  revert a s. induction rem as [|rem IH]; intros a s Hrem Hretry; [lia|].
  assert (retryable (run (S a)) = true) as Hfirst by (apply Hretry; lia).
  cbn [retry_loop]. destruct rem as [|rem'].
  - replace (a + 1)%nat with (S a) by lia. replace (s + 1 - 1)%nat with s by lia.
    destruct (run (S a)) as [[n|]|[]| |]; done.
  - replace (a + S (S rem'))%nat with (S a + S rem')%nat by lia.
    replace (s + S (S rem') - 1)%nat with (S s + S rem' - 1)%nat by lia.
    rewrite <- (IH (S a) (S s)); [|lia|].
    + destruct (run (S a)) as [[n|]|[]| |]; done.
    + intros j Hj. apply Hretry. lia.
Qed.

Lemma retry_loop_bounds (run : nat → gh_run) (a s rem : nat) :
  let tr := retry_loop run a s rem in
  (gh_attempts tr ≤ a + rem)%nat ∧
  match rem with
  | O => gh_attempts tr = a ∧ gh_sleeps tr = s
  | S _ => (a < gh_attempts tr)%nat ∧
           (gh_sleeps tr + S a = gh_attempts tr + s)%nat
  end.
Proof.
  revert a s. induction rem as [|rem IH]; intros a s; simpl; [lia|].
  destruct (run (S a)) as [[n|]|[]| |]; simpl; try lia.
  - destruct rem as [|rem']; simpl; [lia|].
    specialize (IH (S a) (S s)). simpl in IH. lia.
  - destruct rem as [|rem']; simpl; [lia|].
    specialize (IH (S a) (S s)). simpl in IH. lia.
Qed.

(** X17: the loop runs the command until the first run that is neither rate
    limited nor timed out; if that run comes within [retry_count] runs, the
    loop returns its number of results (0 unless the run succeeded with
    readable output) after one sleep per earlier run. *)
Theorem retry_stops_at_first_final_run (retry_count : Z) (run : nat → gh_run)
    (k : nat) :
  (1 ≤ k)%nat → (Z.of_nat k <= retry_count)%Z →
  (∀ j, (1 ≤ j < k)%nat → retryable (run j) = true) →
  retryable (run k) = false →
  run_gh_command_with_retry retry_count run
    = {| gh_count := match run k with
                     | GhDone (Some n) => n
                     | _ => 0%nat
                     end;
         gh_attempts := k;
         gh_sleeps := (k - 1)%nat |}.
Proof.
  intros Hk Hle Hretry Hfinal. unfold run_gh_command_with_retry.
  rewrite (retry_loop_final run 0 0 (Z.to_nat retry_count) k); [done | lia | | done].
  intros j Hj. apply Hretry. lia.
Qed.

(** Two rate limits and a success, within three runs. *)
Lemma retry_stops_at_first_final_run_witness :
  run_gh_command_with_retry 3 flaky_gh
    = {| gh_count := 5; gh_attempts := 3; gh_sleeps := 2 |}.
Proof.
  apply (retry_stops_at_first_final_run 3 flaky_gh 3).
  - lia.
  - lia.
  - intros j Hj. assert (j = 1 ∨ j = 2)%nat as [->| ->] by lia; reflexivity.
  - reflexivity.
Defined.

(** X18: the loop never runs the command more than [retry_count] times and
    sleeps only between two runs; with a [retry_count] that is not positive
    it runs nothing; when every allowed run is rate limited or times out it
    gives up with 0 after [retry_count] runs. *)
Theorem retry_is_bounded (retry_count : Z) (run : nat → gh_run) :
  let tr := run_gh_command_with_retry retry_count run in
  (Z.of_nat (gh_attempts tr) <= Z.max 0 retry_count)%Z ∧
  gh_sleeps tr = (gh_attempts tr - 1)%nat ∧
  ((retry_count <= 0)%Z →
   tr = {| gh_count := 0; gh_attempts := 0; gh_sleeps := 0 |}) ∧
  ((1 <= retry_count)%Z →
   (∀ j, (1 ≤ j)%nat → (Z.of_nat j <= retry_count)%Z → retryable (run j) = true) →
   tr = {| gh_count := 0; gh_attempts := Z.to_nat retry_count;
           gh_sleeps := (Z.to_nat retry_count - 1)%nat |}).
Proof.
  unfold run_gh_command_with_retry.
  pose proof (retry_loop_bounds run 0 0 (Z.to_nat retry_count)) as [Hle Hs].
  cbn zeta. split_and!.
  - lia.
  - destruct (Z.to_nat retry_count); lia.
  - intros Hneg. by replace (Z.to_nat retry_count) with 0%nat by lia.
  - intros Hpos Hretry.
    rewrite (retry_loop_exhausted run 0 0 (Z.to_nat retry_count)); [done | lia |].
    intros j Hj. apply Hretry; lia.
Qed.

(** Always rate limited, three runs allowed. *)
Lemma retry_is_bounded_witness :
  run_gh_command_with_retry 3 (λ _, GhFailed true)
    = {| gh_count := 0; gh_attempts := Z.to_nat 3;
         gh_sleeps := (Z.to_nat 3 - 1)%nat |}.
Proof.
  apply (proj2 (proj2 (proj2 (retry_is_bounded 3 (λ _, GhFailed true))))).
  - lia.
  - reflexivity.
Defined.

(** * Two members of one run *)

Lemma scaled_mono (q q' m : Q) : q <= q' → scaled q m <= scaled q' m.
Proof.
  intros Hle. unfold scaled. destruct (Qgtb m 0) eqn:E; [|lra].
  apply Qgtb_true in E.
  assert (0 < / m) as Hinv by (by apply Qinv_lt_0_compat).
  unfold Qdiv. nra.
Qed.

Lemma no_more_inv (da db : dict pyval) (c : string) :
  no_more da db = true → c ∈ counters →
  ∃ x y, raw_counter da c = VNum x ∧ raw_counter db c = VNum y ∧ x <= y.
Proof.
  unfold no_more. rewrite forallb_forall. intros Hall Hc.
  assert (In c counters) as Hin by (by apply list_elem_of_In).
  specialize (Hall c Hin). simpl in Hall.
  destruct (raw_counter da c) as [x| |]; try done.
  destruct (raw_counter db c) as [y| |]; try done.
  exists x, y. split_and!; [done..|]. by apply Qle_bool_iff.
Qed.

Lemma nonneg_weights_inv (cfg : config) :
  nonneg_weights cfg = true →
  0 <= effective_weight cfg "items_completed" (1 # 2) ∧
  0 <= effective_weight cfg "prs_authored" (3 # 10) ∧
  0 <= effective_weight cfg "code_reviews" (2 # 10).
Proof.
  unfold nonneg_weights. rewrite !andb_true_iff, !Qle_bool_iff. tauto.
Qed.

(** The records of two members, one of whom has no more than the other on
    any counter, are built from component scores in the same order. *)
Lemma dominated_records (raw : raw_data) (cfg : config) (scores : dict (dict Q))
    (a b : string) (da db : dict pyval) :
  NoDup (keys (get_metrics raw)) →
  calculate_scores raw cfg = Ok scores →
  dict_get (get_metrics raw) a = Some da →
  dict_get (get_metrics raw) b = Some db →
  no_more da db = true →
  ∃ ia pa ra ib pb rb,
    dict_get scores a
      = Some (score_record (normalize_weights (get_weights cfg)) ia pa ra) ∧
    dict_get scores b
      = Some (score_record (normalize_weights (get_weights cfg)) ib pb rb) ∧
    ia <= ib ∧ pa <= pb ∧ ra <= rb.
Proof.
  intros Hnd Hcalc Ha Hb Hle.
  destruct (calculate_scores_record_of _ _ _ _ _ Hnd Hcalc Ha)
    as (mi & mp & mr & qi & qp & qr & Hmi & Hmp & Hmr & Hqi & Hqp & Hqr & _ & Hra).
  destruct (calculate_scores_record_of _ _ _ _ _ Hnd Hcalc Hb)
    as (mi' & mp' & mr' & qi' & qp' & qr' & Hmi' & Hmp' & Hmr' & Hqi' & Hqp' & Hqr'
        & _ & Hrb).
  rewrite Hmi in Hmi'. rewrite Hmp in Hmp'. rewrite Hmr in Hmr'.
  injection Hmi' as <-. injection Hmp' as <-. injection Hmr' as <-.
  destruct (no_more_inv da db "items_completed" Hle) as (x1 & y1 & Hx1 & Hy1 & H1);
    [set_solver|].
  destruct (no_more_inv da db "prs_authored" Hle) as (x2 & y2 & Hx2 & Hy2 & H2);
    [set_solver|].
  destruct (no_more_inv da db "code_reviews" Hle) as (x3 & y3 & Hx3 & Hy3 & H3);
    [set_solver|].
  rewrite Hqi in Hx1. rewrite Hqp in Hx2. rewrite Hqr in Hx3.
  rewrite Hqi' in Hy1. rewrite Hqp' in Hy2. rewrite Hqr' in Hy3.
  injection Hx1 as <-. injection Hx2 as <-. injection Hx3 as <-.
  injection Hy1 as <-. injection Hy2 as <-. injection Hy3 as <-.
  eexists _, _, _, _, _, _. split_and!; [exact Hra | exact Hrb | ..];
    by apply scaled_mono.
Qed.

Lemma score_record_total_mono (weights : dict Q) (ia pa ra ib pb rb : Q) :
  0 <= dict_get_or weights "items_completed" (1 # 2) →
  0 <= dict_get_or weights "prs_authored" (3 # 10) →
  0 <= dict_get_or weights "code_reviews" (2 # 10) →
  ia <= ib → pa <= pb → ra <= rb →
  ∃ ta tb,
    dict_get (score_record weights ia pa ra) "total" = Some ta ∧
    dict_get (score_record weights ib pb rb) "total" = Some tb ∧
    ta <= tb.
Proof.
  intros Hwi Hwp Hwr Hi Hp Hr. eexists _, _. split_and!; [reflexivity..|]. nra.
Qed.

(** X19: in one run, a member who has no more than another member on any of
    the three counters gets no higher component score on any of them and,
    when no effective weight is negative, no higher total. *)
Theorem more_work_scores_no_lower (raw : raw_data) (cfg : config)
    (scores : dict (dict Q)) (a b : string) (da db : dict pyval) :
  NoDup (keys (get_metrics raw)) →
  calculate_scores raw cfg = Ok scores →
  dict_get (get_metrics raw) a = Some da →
  dict_get (get_metrics raw) b = Some db →
  no_more da db = true →
  ∃ record_a record_b,
    dict_get scores a = Some record_a ∧
    dict_get scores b = Some record_b ∧
    (∀ f, f ∈ component_scores →
       ∃ x y, dict_get record_a f = Some x ∧ dict_get record_b f = Some y ∧ x <= y) ∧
    (nonneg_weights cfg = true →
     ∃ ta tb,
       dict_get record_a "total" = Some ta ∧ dict_get record_b "total" = Some tb ∧
       ta <= tb).
Proof.
  intros Hnd Hcalc Ha Hb Hle.
  destruct (dominated_records _ _ _ _ _ _ _ Hnd Hcalc Ha Hb Hle)
    as (ia & pa & ra & ib & pb & rb & Hra & Hrb & Hi & Hp & Hr).
  eexists _, _. split_and!; [exact Hra | exact Hrb | |].
  - intros f Hf. unfold component_scores in Hf.
    rewrite !elem_of_cons, elem_of_nil in Hf.
    destruct Hf as [->|[->|[->|[]]]]; eexists _, _;
      (split_and!; [reflexivity | reflexivity | done]).
  - intros (Hwi & Hwp & Hwr)%nonneg_weights_inv.
    by apply score_record_total_mono.
Qed.

(** Lee and Kim. *)
Lemma more_work_scores_no_lower_witness :
  ∃ record_a record_b,
    dict_get mixed_scores "Lee" = Some record_a ∧
    dict_get mixed_scores "Kim" = Some record_b ∧
    (∀ f, f ∈ component_scores →
       ∃ x y, dict_get record_a f = Some x ∧ dict_get record_b f = Some y ∧ x <= y) ∧
    (nonneg_weights (config_of team_weights) = true →
     ∃ ta tb,
       dict_get record_a "total" = Some ta ∧ dict_get record_b "total" = Some tb ∧
       ta <= tb).
Proof.
  apply (more_work_scores_no_lower (raw_of mixed_metrics) (config_of team_weights)
           mixed_scores "Lee" "Kim" junior_data senior_data).
  - apply (bool_decide_unpack _). reflexivity.
  - reflexivity.
  - reflexivity.
  - reflexivity.
  - reflexivity.
Defined.

Lemma count_above_mono (t t' : Q) (l : list Q) :
  t <= t' → (count_above t' l ≤ count_above t l)%nat.
Proof.
  intros Hle. induction l as [|x l IH]; simpl; [lia|].
  destruct (Qgtb x t') eqn:E', (Qgtb x t) eqn:E; try lia.
  apply Qgtb_true in E'. apply Qgtb_false in E. lra.
Qed.

(** What a ranked entry says about the member it was built from. *)
Lemma rank_scores_entry (scores : dict (dict Q)) (ranked : list (dict field))
    (k : nat) (e : dict field) :
  Forall (λ m, plain_record m.2) scores →
  rank_scores scores = Ok ranked →
  ranked !! k = Some e →
  ∃ name record t,
    (name, record) ∈ scores ∧ dict_get record "total" = Some t ∧
    entry_name e = Some name ∧ entry_total e = Some t ∧
    entry_rank e = Some (1 + Z.of_nat (count_above t (totals_of scores)))%Z.
Proof.
  intros Hplain Hranked Hk.
  destruct (rank_scores_Ok scores Hplain) as (dec & Heq & Hdec & Hrank).
  rewrite Hranked in Hrank. injection Hrank as ->.
  assert (Forall sound (sort_desc dec)) as Hsound by (by rewrite sort_desc_perm).
  destruct (entries_lookup _ _ _ _ Hsound Hk) as (r & d & Hr & Hd & Hrk & Ht & Hn).
  assert ((sort_desc dec).*1 !! k = Some d.1) as Hdk
    by (by rewrite list_lookup_fmap, Hd).
  rewrite (ranks_from_count _ _ _ (sort_desc_descending dec) Hdk) in Hr.
  injection Hr as <-.
  assert (d ∈ dec) as Hin.
  { rewrite <- (sort_desc_perm dec). by eapply list_elem_of_lookup_2. }
  exists d.2.1, d.2.2, d.1. split_and!; try done.
  - rewrite <- Heq. apply list_elem_of_fmap. exists d. by destruct d as [? []].
  - by destruct (Forall_lookup_1 _ _ _ _ Hsound Hd) as [Hkey _].
  - rewrite Hrk. do 3 f_equal.
    rewrite (count_above_perm _ (sort_desc dec).*1 dec.*1)
      by (by rewrite sort_desc_perm).
    rewrite keyed_totals, Heq; [done|].
    eapply Forall_impl; [exact Hdec|]. by intros ? [? _].
Qed.

(** X20: through the pipeline, a member who has no more than another member
    on any counter is never ranked ahead of that member, as long as no
    effective weight is negative. *)
Theorem more_work_ranks_no_lower (raw : raw_data) (cfg : config)
    (scores : dict (dict Q)) (ranked : list (dict field))
    (a b : string) (da db : dict pyval) (i j : nat) (ea eb : dict field) :
  NoDup (keys (get_metrics raw)) →
  dict_get (get_metrics raw) a = Some da →
  dict_get (get_metrics raw) b = Some db →
  no_more da db = true →
  nonneg_weights cfg = true →
  score_and_rank raw cfg = Ok (scores, ranked) →
  ranked !! i = Some ea → entry_name ea = Some a →
  ranked !! j = Some eb → entry_name eb = Some b →
  ∃ rank_a rank_b,
    entry_rank ea = Some rank_a ∧ entry_rank eb = Some rank_b ∧
    (rank_b <= rank_a)%Z.
Proof.
  intros Hnd Ha Hb Hle Hw Hrun Hi Hna Hj Hnb.
  unfold score_and_rank, run_score in Hrun.
  apply bind_Ok_inv in Hrun as (scores' & Hcalc & Hrun).
  apply bind_Ok_inv in Hrun as (ranked' & Hrank & [= -> ->]).
  pose proof (calculate_scores_plain _ _ _ Hcalc) as Hplain.
  pose proof (calculate_scores_NoDup _ _ _ Hcalc) as Hnds.
  destruct (dominated_records _ _ _ _ _ _ _ Hnd Hcalc Ha Hb Hle)
    as (ia & pa & ra & ib & pb & rb & Hra & Hrb & Hi' & Hp' & Hr').
  apply nonneg_weights_inv in Hw as (Hwi & Hwp & Hwr).
  destruct (score_record_total_mono _ _ _ _ _ _ _ Hwi Hwp Hwr Hi' Hp' Hr')
    as (ta & tb & Hta & Htb & Hle').
  destruct (rank_scores_entry _ _ _ _ Hplain Hrank Hi)
    as (na & reca & ta' & Hina & Hta' & Hna' & _ & Hrka).
  destruct (rank_scores_entry _ _ _ _ Hplain Hrank Hj)
    as (nb & recb & tb' & Hinb & Htb' & Hnb' & _ & Hrkb).
  rewrite Hna in Hna'. rewrite Hnb in Hnb'.
  injection Hna' as <-. injection Hnb' as <-.
  apply (elem_dict_get _ _ _ Hnds) in Hina, Hinb.
  rewrite Hra in Hina. rewrite Hrb in Hinb.
  injection Hina as <-. injection Hinb as <-.
  rewrite Hta in Hta'. rewrite Htb in Htb'.
  injection Hta' as <-. injection Htb' as <-.
  eexists _, _. split_and!; [exact Hrka | exact Hrkb |].
  pose proof (count_above_mono _ _ (totals_of scores) Hle'). lia.
Qed.

(** Kim is ranked first, Lee second. *)
Lemma more_work_ranks_no_lower_witness :
  ∃ rank_a rank_b,
    entry_rank (default [] (mixed_ranked !! 1%nat)) = Some rank_a ∧
    entry_rank (default [] (mixed_ranked !! 0%nat)) = Some rank_b ∧
    (rank_b <= rank_a)%Z.
Proof.
  apply (more_work_ranks_no_lower (raw_of mixed_metrics) (config_of team_weights)
           mixed_scores mixed_ranked "Lee" "Kim" junior_data senior_data
           1%nat 0%nat).
  - apply (bool_decide_unpack _). reflexivity.
  - reflexivity.
  - reflexivity.
  - reflexivity.
  - reflexivity.
  - reflexivity.
  - reflexivity.
  - reflexivity.
  - reflexivity.
  - reflexivity.
Defined.

(** * A counter measured in another unit *)

(** The factor [times k c] puts on the counter [c']. *)
Lemma raw_counter_times (k : Q) (c c' : string) (data : dict pyval) (q : Q) :
  raw_counter data c' = VNum q →
  ∃ q', raw_counter (times k c data) c' = VNum q' ∧
        q' == (if String.eqb c' c then k else 1) * q.
Proof.
  unfold raw_counter, dict_get_or, times.
  induction data as [|[key v] data IH]; simpl.
  - intros [= <-]. exists 0. split; [done|]. destruct (String.eqb c' c); ring.
  - destruct (String.eqb key c) eqn:Ekc; simpl;
      destruct (String.eqb key c') eqn:Ekc'; try done.
    + apply String.eqb_eq in Ekc, Ekc'. subst.
      rewrite String.eqb_refl. intros ->. by exists (k * q).
    + intros ->. exists q. split; [done|].
      destruct (String.eqb c' c) eqn:E; [|ring].
      apply String.eqb_eq in E, Ekc'. subst. by rewrite String.eqb_refl in Ekc.
Qed.

Lemma keys_rescale (k : Q) (c : string) (metrics : dict (dict pyval)) :
  keys (rescale k c metrics) = keys metrics.
Proof. unfold keys, rescale. rewrite <- list_fmap_compose. by apply list_fmap_ext. Qed.

Lemma dict_get_rescale (k : Q) (c : string) (metrics : dict (dict pyval))
    (name : string) :
  dict_get (rescale k c metrics) name = times k c <$> dict_get metrics name.
Proof.
  induction metrics as [|[n d] metrics IH]; [done|]. simpl.
  by destruct (String.eqb n name).
Qed.

Lemma numeric_rescale (k : Q) (c : string) (metrics : dict (dict pyval)) :
  numeric_metrics metrics = true → numeric_metrics (rescale k c metrics) = true.
Proof.
  rewrite !numeric_metrics_elem. intros Hnum name data' Hin.
  apply list_elem_of_fmap in Hin as ([n data] & [= -> ->] & Hin).
  apply (Hnum n), numeric_member_inv in Hin as (Hi & Hp & Hr).
  apply is_num_inv in Hi as [qi Hi], Hp as [qp Hp], Hr as [qr Hr].
  destruct (raw_counter_times k c _ _ _ Hi) as (? & Hi' & _).
  destruct (raw_counter_times k c _ _ _ Hp) as (? & Hp' & _).
  destruct (raw_counter_times k c _ _ _ Hr) as (? & Hr' & _).
  apply numeric_member_inv. simpl. by rewrite Hi', Hp', Hr'.
Qed.

(** The team maximum of the multiplied counter is the multiplied maximum. *)
Lemma counter_max_rescale (k : Q) (c c' : string) (metrics : dict (dict pyval))
    (m m' : Q) :
  0 < k →
  metrics ≠ [] →
  counter_max metrics c' = Ok (VNum m) →
  counter_max (rescale k c metrics) c' = Ok (VNum m') →
  m' == (if String.eqb c' c then k else 1) * m.
Proof.
  intros Hk Hne Hm Hm'.
  assert (rescale k c metrics ≠ []) as Hne' by (by destruct metrics).
  destruct (counter_max_num _ _ _ Hne Hm) as [Hall (n & d & Hin & Hd)].
  destruct (counter_max_num _ _ _ Hne' Hm') as [Hall' (n' & d' & Hin' & Hd')].
  assert (0 < (if String.eqb c' c then k else 1)) as Hf
    by (destruct (String.eqb c' c); lra).
  apply Qle_antisym.
  - apply list_elem_of_fmap in Hin' as ([n0 d0] & [= -> ->] & Hin0).
    destruct (Hall _ _ Hin0) as (q & Hq & Hle).
    destruct (raw_counter_times k c _ _ _ Hq) as (q' & Hq' & Heq).
    simpl in Hd'. rewrite Hd' in Hq'. injection Hq' as <-. rewrite Heq. nra.
  - destruct (raw_counter_times k c _ _ _ Hd) as (q' & Hq' & Heq).
    destruct (Hall' n (times k c d)) as (q'' & Hq'' & Hle).
    { apply list_elem_of_fmap. by exists (n, d). }
    rewrite Hq' in Hq''. injection Hq'' as <-. by rewrite <- Heq.
Qed.

Lemma scaled_rescale (f q m q' m' : Q) :
  0 < f → q' == f * q → m' == f * m → scaled q' m' == scaled q m.
Proof.
  intros Hf Hq Hm. unfold scaled.
  destruct (Qgtb m 0) eqn:E, (Qgtb m' 0) eqn:E'.
  - apply Qgtb_true in E, E'. rewrite Hq, Hm. field. lra.
  - apply Qgtb_true in E. apply Qgtb_false in E'.
    assert (0 < f * m) by (apply Qmult_lt_0_compat; lra). lra.
  - apply Qgtb_false in E. apply Qgtb_true in E'.
    assert (0 <= f * - m) by (apply Qmult_le_0_compat; lra). lra.
  - reflexivity.
Qed.

Lemma same_score_record (weights : dict Q) (i p r i' p' r' : Q) :
  i' == i → p' == p → r' == r →
  same_record (score_record weights i p r) (score_record weights i' p' r').
Proof.
  intros Hi Hp Hr. unfold same_record, score_record.
  repeat (apply Forall2_cons; split; [split; [done|]; simpl; rewrite ?Hi, ?Hp, ?Hr; reflexivity|]).
  apply Forall2_nil_2.
Qed.

Lemma get_metrics_raw_of (metrics : dict (dict pyval)) :
  get_metrics (raw_of metrics) = metrics.
Proof. done. Qed.

(** X21: the scores do not depend on the unit in which a counter is
    counted: when one counter is a whole number for every member, and still
    is after being multiplied by the same positive number for every member,
    the run on the multiplied counters succeeds as the original run does and
    gives every member the same record, field by field.  (On whole numbers
    the quotients of the two runs are the rounded values of equal ratios.) *)
Theorem scores_ignore_the_unit (metrics : dict (dict pyval)) (cfg : config)
    (scores : dict (dict Q)) (k : Q) (c : string) :
  0 < k →
  NoDup (keys metrics) →
  whole_counts c metrics = true →
  whole_counts c (rescale k c metrics) = true →
  calculate_scores (raw_of metrics) cfg = Ok scores →
  ∃ scores',
    calculate_scores (raw_of (rescale k c metrics)) cfg = Ok scores' ∧
    ∀ name record,
      dict_get scores name = Some record →
      ∃ record', dict_get scores' name = Some record' ∧ same_record record record'.
Proof.
  intros Hk Hnd _ _ Hcalc.
  pose proof (calculate_scores_Ok_numeric _ _ _ Hcalc) as Hnum.
  destruct (calculate_scores_total (raw_of (rescale k c metrics)) cfg) as [scores' Hcalc'];
    [by apply numeric_rescale|].
  exists scores'. split; [done|]. intros name record Hrec.
  destruct (calculate_scores_record _ _ _ _ _ Hcalc Hrec)
    as (data & mi & mp & mr & qi & qp & qr & Hin & Hmi & Hmp & Hmr
        & Hqi & Hqp & Hqr & _ & ->).
  rewrite get_metrics_raw_of in Hin, Hmi, Hmp, Hmr.
  assert (metrics ≠ []) as Hne by (intros ->; by apply elem_of_nil in Hin).
  apply (elem_dict_get _ _ _ Hnd) in Hin.
  destruct (calculate_scores_record_of (raw_of (rescale k c metrics)) cfg scores'
              name (times k c data))
    as (mi' & mp' & mr' & qi' & qp' & qr' & Hmi' & Hmp' & Hmr'
        & Hqi' & Hqp' & Hqr' & _ & Hrec').
  { by rewrite get_metrics_raw_of, keys_rescale. }
  { done. }
  { by rewrite get_metrics_raw_of, dict_get_rescale, Hin. }
  rewrite get_metrics_raw_of in Hmi', Hmp', Hmr'.
  exists (score_record (normalize_weights (get_weights cfg))
            (scaled qi' mi') (scaled qp' mp') (scaled qr' mr')).
  split; [done|].
  destruct (raw_counter_times k c _ _ _ Hqi) as (? & Hi & Hei).
  destruct (raw_counter_times k c _ _ _ Hqp) as (? & Hp & Hep).
  destruct (raw_counter_times k c _ _ _ Hqr) as (? & Hr & Her).
  rewrite Hqi' in Hi. rewrite Hqp' in Hp. rewrite Hqr' in Hr.
  injection Hi as <-. injection Hp as <-. injection Hr as <-.
  pose proof (counter_max_rescale k c _ _ _ _ Hk Hne Hmi Hmi') as Hxi.
  pose proof (counter_max_rescale k c _ _ _ _ Hk Hne Hmp Hmp') as Hxp.
  pose proof (counter_max_rescale k c _ _ _ _ Hk Hne Hmr Hmr') as Hxr.
  assert (∀ c', 0 < (if String.eqb c' c then k else 1)) as Hpos
    by (intros c'; destruct (String.eqb c' c); lra).
  apply same_score_record.
  - exact (scaled_rescale _ _ _ _ _ (Hpos _) Hei Hxi).
  - exact (scaled_rescale _ _ _ _ _ (Hpos _) Hep Hxp).
  - exact (scaled_rescale _ _ _ _ _ (Hpos _) Her Hxr).
Qed.

(** The end-to-end team with ten times the items. *)
Lemma scores_ignore_the_unit_witness :
  ∃ scores',
    calculate_scores (raw_of (rescale 10 "items_completed" team_metrics))
      (config_of team_weights) = Ok scores' ∧
    ∀ name record,
      dict_get team_scores name = Some record →
      ∃ record', dict_get scores' name = Some record' ∧ same_record record record'.
Proof.
  apply (scores_ignore_the_unit team_metrics (config_of team_weights) team_scores
           10 "items_completed").
  - reflexivity.
  - apply (bool_decide_unpack _). reflexivity.
  - reflexivity.
  - reflexivity.
  - reflexivity.
Defined.

(** * The loop of run_fetch *)

Lemma fill_app {A V : Type} (key : A → string) (val : A → V)
    (l1 l2 : list A) (acc : dict V) :
  fill key val (l1 ++ l2) acc = fill key val l2 (fill key val l1 acc).
Proof. unfold fill. apply fold_left_app. Qed.

Lemma length_dict_set {V : Type} (d : dict V) (k : string) (v : V) :
  (length (dict_set d k v) ≤ S (length d))%nat.
Proof.
  induction d as [|[k' v'] d IH]; simpl; [lia|].
  destruct (String.eqb k' k); simpl; lia.
Qed.

Lemma length_fill {A V : Type} (key : A → string) (val : A → V)
    (l : list A) (acc : dict V) :
  (length (fill key val l acc) ≤ length acc + length l)%nat.
Proof.
  unfold fill. revert acc. induction l as [|x l IH]; intros acc; simpl; [lia|].
  pose proof (IH (dict_set acc (key x) (val x))).
  pose proof (length_dict_set acc (key x) (val x)). lia.
Qed.

(** X22: the loop of [run_fetch] keeps one entry per member name: the
    collected metrics have unique keys and at most one entry per member; with
    unique names they list the members in their order; and when several
    members carry the same name, the entry holds the data fetched for the
    last of them. *)
Theorem run_fetch_last_member_wins
    (fetch_jira fetch_github : TeamMember.t → MetricData.t)
    (members : list TeamMember.t) :
  NoDup (keys (collect_metrics fetch_jira fetch_github members)) ∧
  (length (collect_metrics fetch_jira fetch_github members) ≤ length members)%nat ∧
  (NoDup (TeamMember.name <$> members) →
   keys (collect_metrics fetch_jira fetch_github members)
     = TeamMember.name <$> members) ∧
  (∀ earlier m later,
     members = (earlier ++ m :: later)%list →
     TeamMember.name m ∉ TeamMember.name <$> later →
     dict_get (collect_metrics fetch_jira fetch_github members) (TeamMember.name m)
       = Some (member_metrics (fetch_jira m) (fetch_github m))).
Proof.
  change (collect_metrics fetch_jira fetch_github members)
    with (fill TeamMember.name
            (λ m, member_metrics (fetch_jira m) (fetch_github m)) members []).
  split_and!.
  - apply NoDup_keys_fill, NoDup_nil_2.
  - apply (length_fill TeamMember.name).
  - intros Hnd. by rewrite keys_fill_fresh.
  - intros earlier m later -> Hlast.
    rewrite fill_app. change (m :: later) with ([m] ++ later)%list.
    rewrite fill_app, fill_get_other by done.
    apply dict_get_set_eq.
Qed.

(** Two members called Ann: the entry is the second one's. *)
Lemma run_fetch_last_member_wins_witness :
  dict_get (collect_metrics jira_by_id github_by_id [ann_old; ann_new; ben]) "Ann"
    = Some (member_metrics (jira_by_id ann_new) (github_by_id ann_new)).
Proof.
  apply (proj2 (proj2 (proj2 (run_fetch_last_member_wins jira_by_id github_by_id
                                [ann_old; ann_new; ben])))
           [ann_old] ann_new [ben]).
  - reflexivity.
  - apply (bool_decide_unpack _). reflexivity.
Defined.

(** * parse_mcp_jira_response *)

Lemma group_step_get (by_assignee : dict (list Mcp.issue)) (i : Mcp.issue)
    (key : string) :
  dict_get (Mcp.group_step by_assignee i) key
    = if Mcp.has_key key i
      then Some (dict_get_or by_assignee key [] ++ [i])%list
      else dict_get by_assignee key.
Proof.
  unfold Mcp.group_step, Mcp.has_key.
  destruct (Mcp.assignee_key i) as [k|]; [|done].
  rewrite dict_get_set. destruct (String.eqb k key) eqn:E; [|].
  - apply String.eqb_eq in E as ->. f_equal. f_equal.
    unfold dict_get_or. destruct (dict_get by_assignee key) eqn:Hg.
    + by rewrite Hg.
    + by rewrite dict_get_set_eq.
  - destruct (dict_get by_assignee k); [done|].
    by rewrite dict_get_set, E.
Qed.

Lemma group_step_NoDup (by_assignee : dict (list Mcp.issue)) (i : Mcp.issue) :
  NoDup (keys by_assignee) → NoDup (keys (Mcp.group_step by_assignee i)).
Proof.
  intros Hnd. unfold Mcp.group_step. destruct (Mcp.assignee_key i) as [k|]; [|done].
  apply NoDup_keys_dict_set. destruct (dict_get by_assignee k); [done|].
  by apply NoDup_keys_dict_set.
Qed.

Lemma group_from_NoDup (issues : list Mcp.issue) (acc : dict (list Mcp.issue)) :
  NoDup (keys acc) → NoDup (keys (fold_left Mcp.group_step issues acc)).
Proof.
  revert acc. induction issues as [|i issues IH]; intros acc Hnd; simpl; [done|].
  by apply IH, group_step_NoDup.
Qed.

(** The group of a key holds the issues assigned under the key, in their
    order, behind what the accumulator had. *)
Lemma group_from_get (issues : list Mcp.issue) (acc : dict (list Mcp.issue))
    (key : string) :
  dict_get (fold_left Mcp.group_step issues acc) key
    = match List.filter (Mcp.has_key key) issues with
      | [] => dict_get acc key
      | g => Some (dict_get_or acc key [] ++ g)%list
      end.
Proof.
  revert acc. induction issues as [|i issues IH]; intros acc; simpl; [done|].
  rewrite IH. unfold dict_get_or. rewrite group_step_get.
  destruct (Mcp.has_key key i); [|done].
  destruct (List.filter (Mcp.has_key key) issues); [done|].
  by rewrite <- app_assoc.
Qed.

Lemma group_get (issues : list Mcp.issue) (key : string) (g : list Mcp.issue) :
  dict_get (Mcp.group issues) key = Some g ↔
  g = List.filter (Mcp.has_key key) issues ∧ g ≠ [].
Proof.
  unfold Mcp.group. rewrite group_from_get. simpl.
  destruct (List.filter (Mcp.has_key key) issues) as [|i l]; split.
  - done.
  - by intros [-> ?].
  - by intros [= <-].
  - by intros [-> _].
Qed.

Lemma group_from_unassigned (issues : list Mcp.issue) (acc : dict (list Mcp.issue)) :
  forallb (λ i, negb (Mcp.assigned i)) issues = true →
  fold_left Mcp.group_step issues acc = acc.
Proof.
  revert acc. induction issues as [|i issues IH]; intros acc Hnone; simpl; [done|].
  simpl in Hnone. apply andb_true_iff in Hnone as [Hi Hrest].
  rewrite IH by done. unfold Mcp.group_step, Mcp.assignee_key.
  unfold Mcp.assigned in Hi. by destruct (Mcp.assignee i).
Qed.

Lemma before_bar_app (d rest : string) :
  Mcp.before_bar (d ++ "|" ++ rest) = Mcp.before_bar d.
Proof.
  induction d as [|c d IH]; [done|]. simpl.
  destruct (Ascii.eqb c "|"%char); [done|]. f_equal. apply IH.
Qed.

Lemma before_bar_no_bar (d : string) : Mcp.no_bar d = true → Mcp.before_bar d = d.
Proof.
  induction d as [|c d IH]; [done|]. simpl.
  destruct (Ascii.eqb c "|"%char); [done|]. simpl. intros H. f_equal. by apply IH.
Qed.

Lemma parse_mcp_unfold (issues : list Mcp.issue) :
  Mcp.parse_mcp_jira_response issues
    = fill (λ kv : string * list Mcp.issue, Mcp.before_bar kv.1)
        (λ kv, Mcp.summarize kv.2) (Mcp.group issues) [].
Proof. done. Qed.

(** An entry is the summary of the group of some key. *)
Lemma parse_mcp_get_inv (issues : list Mcp.issue) (name : string)
    (m : Mcp.metrics_t) :
  dict_get (Mcp.parse_mcp_jira_response issues) name = Some m →
  ∃ key,
    Mcp.before_bar key = name ∧
    List.filter (Mcp.has_key key) issues ≠ [] ∧
    m = Mcp.summarize (List.filter (Mcp.has_key key) issues).
Proof.
  rewrite parse_mcp_unfold. intros Hget.
  apply fill_get_inv in Hget as [([key g] & Hin & Hname & Hm)|Hget]; [|done].
  simpl in Hname, Hm. exists key.
  apply (elem_dict_get _ _ _ (group_from_NoDup issues [] (NoDup_nil_2))) in Hin.
  apply group_get in Hin as [-> Hne]. by split_and!.
Qed.

Lemma filter_has_key_elem (issues : list Mcp.issue) (key : string) :
  List.filter (Mcp.has_key key) issues ≠ [] →
  ∃ i, i ∈ issues ∧ Mcp.assignee_key i = Some key.
Proof.
  destruct (List.filter (Mcp.has_key key) issues) as [|i l] eqn:Hf; [done|].
  intros _. assert (In i (List.filter (Mcp.has_key key) issues)) as Hin
    by (rewrite Hf; by left).
  apply filter_In in Hin as [Hin Hkey]. exists i.
  split; [by apply list_elem_of_In|]. unfold Mcp.has_key in Hkey.
  destruct (Mcp.assignee_key i) as [k|]; [|done].
  by apply String.eqb_eq in Hkey as ->.
Qed.

Lemma parse_mcp_keys (issues : list Mcp.issue) (name : string) :
  name ∈ keys (Mcp.parse_mcp_jira_response issues) ↔
  ∃ i key, i ∈ issues ∧ Mcp.assignee_key i = Some key ∧ Mcp.before_bar key = name.
Proof.
  split.
  - intros [m Hget]%dict_get_is_Some.
    apply parse_mcp_get_inv in Hget as (key & Hname & Hne & _).
    apply filter_has_key_elem in Hne as (i & Hi & Hkey). by exists i, key.
  - intros (i & key & Hi & Hkey & <-).
    rewrite parse_mcp_unfold. apply elem_keys_fill. left.
    apply list_elem_of_fmap.
    exists (key, List.filter (Mcp.has_key key) issues). split; [done|].
    apply dict_get_elem, group_get. split; [done|].
    assert (i ∈ List.filter (Mcp.has_key key) issues) as Hin.
    { apply list_elem_of_In, filter_In. split; [by apply list_elem_of_In|].
      unfold Mcp.has_key. by rewrite Hkey, String.eqb_refl. }
    intros Hnil. rewrite Hnil in Hin. by apply elem_of_nil in Hin.
Qed.

(** Without bars in the display names, the key tells the pair. *)
Lemma pair_key_inj (d1 a1 d2 a2 : string) :
  Mcp.no_bar d1 = true → Mcp.no_bar d2 = true →
  (d1 ++ "|" ++ a1 = d2 ++ "|" ++ a2)%string → d1 = d2 ∧ a1 = a2.
Proof.
  revert d2. induction d1 as [|c1 d1 IH]; intros [|c2 d2]; simpl;
    unfold String.append; fold String.append.
  - intros _ _ [= ->]. done.
  - intros _ H2 [= <- _]. done.
  - intros H1 _ [= -> _]. done.
  - intros H1 H2 [= -> Heq].
    apply andb_true_iff in H1 as [_ H1]. apply andb_true_iff in H2 as [_ H2].
    destruct (IH d2 H1 H2 Heq) as [-> ->]. done.
Qed.

Lemma bar_free_elem (issues : list Mcp.issue) (i : Mcp.issue) (d a : string) :
  Mcp.bar_free issues = true → i ∈ issues → Mcp.identity i = Some (d, a) →
  Mcp.no_bar d = true.
Proof.
  unfold Mcp.bar_free. rewrite forallb_forall. intros Hall Hi Hid.
  apply list_elem_of_In, Hall in Hi. by rewrite Hid in Hi.
Qed.

Lemma assignee_key_identity (i : Mcp.issue) :
  Mcp.assignee_key i = (λ p : string * string, (p.1 ++ "|" ++ p.2)%string)
                         <$> Mcp.identity i.
Proof. unfold Mcp.assignee_key, Mcp.identity. by destruct (Mcp.assignee i). Qed.

Lemma filter_ext_elem {A : Type} (f g : A → bool) (l : list A) :
  (∀ x, x ∈ l → f x = g x) → List.filter f l = List.filter g l.
Proof.
  induction l as [|x l IH]; intros H; [done|]. simpl.
  rewrite (H x) by (apply elem_of_cons; auto).
  rewrite IH; [done|]. intros y Hy. apply H, elem_of_cons. auto.
Qed.

(** X23: every entry of the result summarizes the issues assigned under one
    key (display name, bar, account id), at least one, and no others.  When
    no display name of the response contains a bar, the key is one (display
    name, account id) pair: the entry is named by the display name and
    summarizes exactly the issues of one account of that name, so of two
    accounts that share a display name only one is counted.  A response
    without assigned issues gives an empty result. *)
Theorem mcp_entry_is_one_account (issues : list Mcp.issue) :
  (∀ name m,
     dict_get (Mcp.parse_mcp_jira_response issues) name = Some m →
     ∃ key,
       Mcp.before_bar key = name ∧
       List.filter (Mcp.has_key key) issues ≠ [] ∧
       m = Mcp.summarize (List.filter (Mcp.has_key key) issues)) ∧
  (Mcp.bar_free issues = true →
   ∀ name m,
     dict_get (Mcp.parse_mcp_jira_response issues) name = Some m →
     ∃ account_id,
       List.filter (Mcp.of_pair name account_id) issues ≠ [] ∧
       m = Mcp.summarize (List.filter (Mcp.of_pair name account_id) issues)) ∧
  (forallb (λ i, negb (Mcp.assigned i)) issues = true →
   Mcp.parse_mcp_jira_response issues = []).
Proof.
  split_and!.
  - apply parse_mcp_get_inv.
  - intros Hfree name m Hget.
    apply parse_mcp_get_inv in Hget as (key & Hname & Hne & ->).
    destruct (filter_has_key_elem _ _ Hne) as (i0 & Hi0 & Hkey0).
    rewrite assignee_key_identity in Hkey0.
    destruct (Mcp.identity i0) as [[d0 a0]|] eqn:Hid0; [|done].
    simpl in Hkey0. injection Hkey0 as <-.
    pose proof (bar_free_elem _ _ _ _ Hfree Hi0 Hid0) as Hd0.
    rewrite before_bar_app, before_bar_no_bar in Hname by done. subst name.
    exists a0.
    assert (List.filter (Mcp.has_key (d0 ++ "|" ++ a0)) issues
            = List.filter (Mcp.of_pair d0 a0) issues) as Heq.
    { apply filter_ext_elem. intros i Hi.
      unfold Mcp.has_key, Mcp.of_pair. rewrite assignee_key_identity.
      destruct (Mcp.identity i) as [[d a]|] eqn:Hid; [|done]. simpl.
      pose proof (bar_free_elem _ _ _ _ Hfree Hi Hid) as Hd.
      destruct (String.eqb (d ++ "|" ++ a) (d0 ++ "|" ++ a0)) eqn:E.
      - apply String.eqb_eq, pair_key_inj in E as [-> ->]; [|done..].
        by rewrite !String.eqb_refl.
      - destruct (String.eqb d d0) eqn:Ed, (String.eqb a a0) eqn:Ea; try done.
        apply String.eqb_eq in Ed as ->. apply String.eqb_eq in Ea as ->.
        by rewrite String.eqb_refl in E. }
    by rewrite <- Heq.
  - intros Hnone. unfold Mcp.parse_mcp_jira_response, Mcp.group.
    by rewrite group_from_unassigned.
Qed.

(** Two accounts called Sam: the entry counts the second account's issue. *)
Lemma mcp_entry_is_one_account_witness :
  ∃ account_id,
    List.filter (Mcp.of_pair "Sam" account_id) Mcp.namesake_issues ≠ [] ∧
    {| Mcp.items_completed := 1; Mcp.story_points := 5 |}
      = Mcp.summarize (List.filter (Mcp.of_pair "Sam" account_id) Mcp.namesake_issues).
Proof.
  apply (proj1 (proj2 (mcp_entry_is_one_account Mcp.namesake_issues))).
  - reflexivity.
  - reflexivity.
Defined.

(** With a bar in a display name two accounts can share a key, and then
    they share an entry. *)
Example mcp_key_collision :
  Mcp.parse_mcp_jira_response Mcp.colliding_issues
    = [("A", {| Mcp.items_completed := 2; Mcp.story_points := 8 |})].
Proof. reflexivity. Qed.

(** X24: the names of the result are the display names of the assigned
    issues, each cut at its first bar: the whole display name when it has
    no bar, [Unknown] when the assignee has no display name and [None] when
    the display name is null; and the result has no other names. *)
Theorem mcp_entry_name (issues : list Mcp.issue) :
  (∀ name,
     name ∈ keys (Mcp.parse_mcp_jira_response issues) ↔
     ∃ i a, i ∈ issues ∧ Mcp.assignee i = Some a ∧
            name = Mcp.before_bar (Mcp.text (Mcp.displayName a) "Unknown")) ∧
  (∀ i a,
     i ∈ issues → Mcp.assignee i = Some a →
     match Mcp.displayName a with
     | Mcp.Str d =>
         Mcp.no_bar d = true → d ∈ keys (Mcp.parse_mcp_jira_response issues)
     | Mcp.Null => "None" ∈ keys (Mcp.parse_mcp_jira_response issues)
     | Mcp.Absent => "Unknown" ∈ keys (Mcp.parse_mcp_jira_response issues)
     end).
Proof.
  assert (∀ i a, Mcp.assignee i = Some a →
            ∃ key, Mcp.assignee_key i = Some key ∧
                   Mcp.before_bar key
                   = Mcp.before_bar (Mcp.text (Mcp.displayName a) "Unknown"))
    as Hkey.
  { intros i a Ha. unfold Mcp.assignee_key. rewrite Ha. eexists. split; [done|].
    apply before_bar_app. }
  assert (∀ i a, i ∈ issues → Mcp.assignee i = Some a →
            Mcp.before_bar (Mcp.text (Mcp.displayName a) "Unknown")
            ∈ keys (Mcp.parse_mcp_jira_response issues)) as Hin.
  { intros i a Hi Ha. destruct (Hkey i a Ha) as (key & Hk & Hname).
    apply parse_mcp_keys. by exists i, key. }
  split.
  - intros name. rewrite parse_mcp_keys. split.
    + intros (i & key & Hi & Hk & <-). unfold Mcp.assignee_key in Hk.
      destruct (Mcp.assignee i) as [a|] eqn:Ha; [|done].
      injection Hk as <-. exists i, a. split_and!; [done..|].
      by rewrite before_bar_app.
    + intros (i & a & Hi & Ha & ->). destruct (Hkey i a Ha) as (key & Hk & Hname).
      by exists i, key.
  - intros i a Hi Ha. specialize (Hin i a Hi Ha).
    destruct (Mcp.displayName a) as [| |d]; simpl in Hin; [done..|].
    intros Hd. by rewrite before_bar_no_bar in Hin.
Qed.

(** An assignee whose display name is null is listed as None. *)
Lemma mcp_entry_name_witness :
  "None" ∈ keys (Mcp.parse_mcp_jira_response
                   [Mcp.of_account "Sam" "id-1" None; Mcp.nameless]).
Proof.
  apply (proj2 (mcp_entry_name [Mcp.of_account "Sam" "id-1" None; Mcp.nameless])
           Mcp.nameless
           {| Mcp.accountId := Mcp.Str "id-9"; Mcp.displayName := Mcp.Null |}).
  - apply elem_of_cons. right. apply elem_of_cons. left. reflexivity.
  - reflexivity.
Defined.

(** ** Counting the issues *)

Lemma grouped_dict_set (d : dict (list Mcp.issue)) (k : string) (g : list Mcp.issue) :
  (grouped (dict_set d k g) + length (dict_get_or d k []) = grouped d + length g)%nat.
Proof.
  unfold dict_get_or. induction d as [|[k' g'] d IH]; simpl; [lia|].
  destruct (String.eqb k' k); simpl; lia.
Qed.

Lemma grouped_step (by_assignee : dict (list Mcp.issue)) (i : Mcp.issue) :
  grouped (Mcp.group_step by_assignee i)
    = (grouped by_assignee + if Mcp.assigned i then 1 else 0)%nat.
Proof.
  unfold Mcp.group_step, Mcp.assignee_key, Mcp.assigned.
  destruct (Mcp.assignee i) as [a|]; [|lia].
  set (key := (_ ++ _)%string).
  destruct (dict_get by_assignee key) as [g|] eqn:Hg.
  - pose proof (grouped_dict_set by_assignee key
                  (dict_get_or by_assignee key [] ++ [i])) as H.
    rewrite length_app in H. simpl in H. lia.
  - pose proof (grouped_dict_set by_assignee key []) as H0.
    pose proof (grouped_dict_set (dict_set by_assignee key []) key
                  (dict_get_or (dict_set by_assignee key []) key [] ++ [i])) as H.
    unfold dict_get_or in H0, H. rewrite dict_get_set_eq in H. rewrite Hg in H0.
    simpl in H0, H. unfold dict_get_or. rewrite dict_get_set_eq. simpl. lia.
Qed.

Lemma grouped_from (issues : list Mcp.issue) (acc : dict (list Mcp.issue)) :
  grouped (fold_left Mcp.group_step issues acc)
    = (grouped acc + length (List.filter Mcp.assigned issues))%nat.
Proof.
  revert acc. induction issues as [|i issues IH]; intros acc; simpl; [lia|].
  rewrite IH, grouped_step. destruct (Mcp.assigned i); simpl; lia.
Qed.

Lemma Forall_dict_set {V : Type} (P : V → Prop) (d : dict V) (k : string) (v : V) :
  Forall (λ kv, P kv.2) d → P v → Forall (λ kv, P kv.2) (dict_set d k v).
Proof.
  intros Hd Hv. induction Hd as [|[k' v'] d Hv' Hd IH]; simpl.
  - by apply Forall_cons.
  - destruct (String.eqb k' k); apply Forall_cons; by split.
Qed.

Lemma total_items_dict_set (metrics : dict Mcp.metrics_t) (k : string)
    (m : Mcp.metrics_t) :
  Forall (λ kv, (0 <= Mcp.items_completed kv.2)%Z) metrics →
  (total_items (dict_set metrics k m) <= total_items metrics + Mcp.items_completed m)%Z.
Proof.
  induction 1 as [|[k' m'] metrics Hm' _ IH]; simpl in *; [lia|].
  destruct (String.eqb k' k); simpl; lia.
Qed.

Lemma total_items_fill (groups : list (string * list Mcp.issue))
    (metrics : dict Mcp.metrics_t) :
  Forall (λ kv, (0 <= Mcp.items_completed kv.2)%Z) metrics →
  (total_items
     (fill (λ kv : string * list Mcp.issue, Mcp.before_bar kv.1)
        (λ kv, Mcp.summarize kv.2) groups metrics)
   <= total_items metrics + Z.of_nat (grouped groups))%Z.
Proof.
  unfold fill. revert metrics.
  induction groups as [|[k g] groups IH]; intros metrics Hpos; simpl; [lia|].
  etrans; [apply IH|].
  - apply (Forall_dict_set (λ m, (0 <= Mcp.items_completed m)%Z)); [done|].
    simpl. lia.
  - pose proof (total_items_dict_set metrics (Mcp.before_bar k) (Mcp.summarize g) Hpos).
    simpl in *. lia.
Qed.

Lemma fill_fresh {A V : Type} (key : A → string) (val : A → V)
    (l : list A) (acc : dict V) :
  NoDup (keys acc ++ (key <$> l)) →
  fill key val l acc = (acc ++ ((λ x, (key x, val x)) <$> l))%list.
Proof.
  unfold fill. revert acc. induction l as [|x l IH]; intros acc Hnd; simpl.
  - by rewrite app_nil_r.
  - rewrite fmap_cons in Hnd.
    assert (key x ∉ keys acc) as Hfresh.
    { apply NoDup_app in Hnd as (_ & Hdisj & _). intros Hin.
      apply (Hdisj _ Hin), elem_of_cons. auto. }
    assert (dict_set acc (key x) (val x) = (acc ++ [(key x, val x)])%list) as Hset.
    { clear -Hfresh. unfold keys in Hfresh.
      induction acc as [|[k v] acc IH]; simpl in *; [done|].
      rewrite not_elem_of_cons in Hfresh. destruct Hfresh as [Hne Hfresh].
      apply not_eq_sym, String.eqb_neq in Hne. rewrite Hne. f_equal. by apply IH. }
    rewrite Hset, IH.
    + by rewrite <- app_assoc.
    + unfold keys. rewrite fmap_app. simpl. by rewrite <- app_assoc.
Qed.

(** X25: no issue is counted twice: the items of all entries together are
    at most the assigned issues of the response, and exactly the assigned
    issues when no two (display name, account) pairs give the same entry
    name. *)
Theorem mcp_counts_assigned_issues (issues : list Mcp.issue) :
  (total_items (Mcp.parse_mcp_jira_response issues)
   <= Z.of_nat (length (List.filter Mcp.assigned issues)))%Z ∧
  (NoDup (Mcp.before_bar <$> keys (Mcp.group issues)) →
   total_items (Mcp.parse_mcp_jira_response issues)
     = Z.of_nat (length (List.filter Mcp.assigned issues))).
Proof.
  unfold Mcp.parse_mcp_jira_response.
  change (fold_left _ (Mcp.group issues) [])
    with (fill (λ kv : string * list Mcp.issue, Mcp.before_bar kv.1)
            (λ kv, Mcp.summarize kv.2) (Mcp.group issues) []).
  pose proof (grouped_from issues []) as Hgr. simpl in Hgr.
  fold (Mcp.group issues) in Hgr. split.
  - pose proof (total_items_fill (Mcp.group issues) [] (Forall_nil_2 _)) as H.
    simpl in H. lia.
  - intros Hnd. rewrite fill_fresh.
    + rewrite <- Hgr, app_nil_l. clear.
      induction (Mcp.group issues) as [|[k g] l IH]; [done|].
      rewrite fmap_cons. unfold total_items, grouped in *.
      cbn [fold_right]. rewrite IH. simpl. lia.
    + simpl. unfold keys in Hnd. by rewrite <- list_fmap_compose in Hnd.
Qed.

(** One account with two issues, one issue without assignee. *)
Lemma mcp_counts_assigned_issues_witness :
  total_items
    (Mcp.parse_mcp_jira_response
       [Mcp.of_account "Sam" "id-1" (Some 3); Mcp.unassigned;
        Mcp.of_account "Sam" "id-1" None])
  = Z.of_nat
      (length
         (List.filter Mcp.assigned
            [Mcp.of_account "Sam" "id-1" (Some 3); Mcp.unassigned;
             Mcp.of_account "Sam" "id-1" None])).
Proof.
  apply (proj2 (mcp_counts_assigned_issues
                  [Mcp.of_account "Sam" "id-1" (Some 3); Mcp.unassigned;
                   Mcp.of_account "Sam" "id-1" None])).
  apply (bool_decide_unpack _). reflexivity.
Defined.

(** * validate_config *)

Lemma dict_get_map_values {V W : Type} (f : V → W) (d : dict V) (k : string) :
  dict_get ((λ kv, (kv.1, f kv.2)) <$> d) k = f <$> dict_get d k.
Proof.
  induction d as [|[k' v] d IH]; [done|]. simpl.
  by destruct (String.eqb k' k).
Qed.

Lemma dict_mem_normalize_weights (weights : dict Q) (k : string) :
  dict_mem (normalize_weights weights) k = dict_mem weights k.
Proof.
  unfold normalize_weights, dict_mem.
  destruct (_ && _); [|done].
  rewrite (dict_get_map_values (λ w, w / py_sum (values weights))).
  by destruct (dict_get weights k).
Qed.

Lemma validate_config_Accepted_inv {T : Type} (config : AppConfig.t T) :
  validate_config config = Accepted →
  ∃ weights,
    AppConfig.weights config = Some weights ∧
    ∀ c, c ∈ required_weights → dict_mem weights c = true.
Proof.
  unfold validate_config.
  destruct (AppConfig.version config); [|done].
  destruct (AppConfig.team config) as [team|]; [|done].
  destruct (AppConfig.weights config) as [weights|]; [|done].
  simpl. destruct (dict_mem team "name"); [|done].
  destruct (dict_mem team "members"); [|done]. simpl.
  destruct (dict_mem weights "items_completed") eqn:Hi; [|done].
  destruct (dict_mem weights "prs_authored") eqn:Hp; [|done].
  destruct (dict_mem weights "code_reviews") eqn:Hr; [|done].
  intros _. exists weights. split; [done|]. intros c Hc.
  unfold required_weights in Hc. rewrite !elem_of_cons, elem_of_nil in Hc.
  by destruct Hc as [->|[->|[->|[]]]].
Qed.

(** X26: on a configuration that [validate_config] accepts,
    [calculate_scores] never falls back on a built-in default weight: each
    of the three effective weights is the weight found under its name in the
    normalized configured weights. *)
Theorem validated_config_needs_no_defaults {T : Type} (config : AppConfig.t T) :
  validate_config config = Accepted →
  ∃ weights,
    AppConfig.weights config = Some weights ∧
    ∀ c, c ∈ counters →
      ∃ w, dict_get (normalize_weights weights) c = Some w ∧
           ∀ dflt, effective_weight (scoring_config config) c dflt = w.
Proof.
  intros (weights & Hw & Hall)%validate_config_Accepted_inv.
  exists weights. split; [done|]. intros c Hc.
  specialize (Hall c Hc). rewrite <- dict_mem_normalize_weights in Hall.
  unfold dict_mem in Hall.
  destruct (dict_get (normalize_weights weights) c) as [w|] eqn:Hget; [|done].
  exists w. split; [done|]. intros dflt.
  unfold effective_weight, scoring_config, get_weights, dict_get_or. simpl.
  rewrite Hw. simpl. by rewrite Hget.
Qed.

(** A configuration whose weights sum to 2. *)
Lemma validated_config_needs_no_defaults_witness :
  ∃ weights,
    AppConfig.weights double_config = Some weights ∧
    ∀ c, c ∈ counters →
      ∃ w, dict_get (normalize_weights weights) c = Some w ∧
           ∀ dflt, effective_weight (scoring_config double_config) c dflt = w.
Proof.
  apply (validated_config_needs_no_defaults double_config). reflexivity.
Defined.

